(** * Repository reference resolution: [GitRepoParser] and [GitHubAppAuth]

    A shallow embedding of [src/git-repo-parser.ts] and
    [src/github-app-auth.ts].  JavaScript strings are Rocq strings (the
    patterns of the sources tell ASCII characters apart and nothing
    else), thrown values are an inductive type, and the asynchronous,
    effectful body of
    [GitRepoParser.parse] is written in a small trace-and-exception monad:
    every network call, token exchange and console write is an event of the
    trace, so that "no request was made" and "the failure was only logged"
    are statements about the trace.

    The runtime services that the code calls but does not define (the URL
    parser behind [new URL], [fetch], [createAppAuth] with its token
    exchange, and the text of a zod error) are the fields of the class
    [Platform]; the properties are proved for every platform.  The
    conversion of the rate-limit reset header, [Number], [*] and [Date],
    is written out on the exact values of the doubles.

    The callers of the two classes are embedded as well: the repository
    route of [src/api.repo.ts], the App authentication route with
    [GitHubAppAuth.validateConfig], and the validator of the import form
    of [src/BaseChat.tsx]. *)

From Stdlib Require Import String Ascii List ZArith Bool Lia DecimalString.
Import ListNotations.

Open Scope string_scope.

(* ===================================================================== *)
(** ** JavaScript string primitives used by the sources *)
(* ===================================================================== *)

Module Js.

(** [s.startsWith(p)] *)
Definition startsWith (s p : string) : bool := String.prefix p s.

(** [s.includes(p)]: [p] occurs somewhere in [s]. *)
Fixpoint includes (s p : string) : bool :=
  if String.prefix p s then true
  else match s with
       | EmptyString => false
       | String _ s' => includes s' p
       end.

(** [s.split(sep)] for a one-character separator. *)
Fixpoint split (sep : ascii) (s : string) : list string :=
  match s with
  | EmptyString => [EmptyString]
  | String c s' =>
      if Ascii.eqb c sep then EmptyString :: split sep s'
      else match split sep s' with
           | [] => [String c EmptyString]
           | w :: ws => String c w :: ws
           end
  end.

(** JavaScript truthiness of a string, and of a possibly undefined one. *)
Definition truthy (s : string) : bool := negb (String.eqb s "").

Definition truthy_opt (o : option string) : bool :=
  match o with
  | Some s => truthy s
  | None => false
  end.

(** [xs.filter(Boolean)] on an array of strings. *)
Definition filter_Boolean (xs : list string) : list string :=
  filter truthy xs.

(** [s.endsWith(p)] *)
Fixpoint endsWith (s p : string) : bool :=
  if String.eqb s p then true
  else match s with
       | EmptyString => false
       | String _ s' => endsWith s' p
       end.

(** The string without its last [n] characters. *)
Definition dropRight (n : nat) (s : string) : string :=
  substring 0 (String.length s - n) s.

(** [s.replace(/\.git$/, "")]: one trailing [".git"] is removed. *)
Definition replace_git_suffix (s : string) : string :=
  if endsWith s ".git" then dropRight 4 s else s.

(** Template-literal rendering of an integer ([`${n}`]). *)
Definition of_Z (z : Z) : string := NilZero.string_of_int (Z.to_int z).

End Js.

(* ===================================================================== *)
(** ** The regular expressions of the sources *)
(* ===================================================================== *)

Module RegExp.

Definition in_range (lo hi c : ascii) : bool :=
  (nat_of_ascii lo <=? nat_of_ascii c)%nat && (nat_of_ascii c <=? nat_of_ascii hi)%nat.

Definition is_digit (c : ascii) : bool := in_range "0" "9" c.
Definition is_lower (c : ascii) : bool := in_range "a" "z" c.
Definition is_upper (c : ascii) : bool := in_range "A" "Z" c.

(** [\w] without the unicode flag: [[A-Za-z0-9_]]. *)
Definition word (c : ascii) : bool :=
  is_lower c || is_upper c || is_digit c || Ascii.eqb c "_".

(** [[\w-]] *)
Definition word_hyphen (c : ascii) : bool := word c || Ascii.eqb c "-".

(** [[\w.-]] *)
Definition word_dot_hyphen (c : ascii) : bool :=
  word c || Ascii.eqb c "." || Ascii.eqb c "-".

(** Any character but the slash. *)
Definition no_slash (c : ascii) : bool := negb (Ascii.eqb c "/").

(** [[a-f0-9]] under the [i] flag. *)
Definition hex_ci (c : ascii) : bool :=
  is_digit c || in_range "a" "f" c || in_range "A" "F" c.

(** Case folding of the [i] flag on ASCII letters. *)
Definition fold_case (c : ascii) : ascii :=
  if is_upper c then ascii_of_nat (nat_of_ascii c + 32) else c.

Fixpoint map_string (f : ascii -> ascii) (s : string) : string :=
  match s with
  | EmptyString => EmptyString
  | String c s' => String (f c) (map_string f s')
  end.

(** A string as the [i] flag sees it. *)
Definition fold_string (s : string) : string := map_string fold_case s.

Fixpoint all_in (cls : ascii -> bool) (s : string) : bool :=
  match s with
  | EmptyString => true
  | String c s' => cls c && all_in cls s'
  end.

(** The longest prefix of [s] made of characters of [cls] (a greedy
    [[cls]*]), and what follows it. *)
Fixpoint take_while (cls : ascii -> bool) (s : string) : string :=
  match s with
  | EmptyString => EmptyString
  | String c s' => if cls c then String c (take_while cls s') else EmptyString
  end.

Fixpoint drop_while (cls : ascii -> bool) (s : string) : string :=
  match s with
  | EmptyString => EmptyString
  | String c s' => if cls c then drop_while cls s' else s
  end.

(** [/^[\w-]+\/[\w.-]+$/.test(s)] *)
Definition shorthand_test (s : string) : bool :=
  let owner := take_while word_hyphen s in
  match drop_while word_hyphen s with
  | String "/" repo =>
      Js.truthy owner && Js.truthy repo && all_in word_dot_hyphen repo
  | _ => false
  end.

(** A literal pattern without anchors, such as [/github\.com/]:
    [pattern.test(s)] is a substring search. *)
Definition literal_test (lit s : string) : bool := Js.includes s lit.

(** What is left of [s] after the literal [lit], compared through
    [fold] (the identity, or [fold_case] under the [i] flag). *)
Fixpoint after_literal (fold : ascii -> ascii) (lit s : string) : option string :=
  match lit, s with
  | EmptyString, _ => Some s
  | String _ _, EmptyString => None
  | String a lit', String c s' =>
      if Ascii.eqb (fold a) (fold c) then after_literal fold lit' s' else None
  end.

(** [s.match(/lit([cls]+)/)]: the leftmost position where [lit] is
    followed by at least one character of [cls]; the capture group is
    the greedy run of [cls] characters there. *)
Fixpoint match_capture (fold : ascii -> ascii) (lit : string)
         (cls : ascii -> bool) (s : string) : option string :=
  let here :=
    match after_literal fold lit s with
    | Some rest =>
        let cap := take_while cls rest in
        if Js.truthy cap then Some cap else None
    | None => None
    end in
  match here with
  | Some cap => Some cap
  | None =>
      match s with
      | EmptyString => None
      | String _ s' => match_capture fold lit cls s'
      end
  end.

End RegExp.

(* ===================================================================== *)
(** ** Numbers and dates: [Number(s)], [*], [new Date(v)] and
       [toISOString()] *)
(* ===================================================================== *)

Module JsNumber.

(** A Number value.  A finite one is held by its exact value [m / 2^k],
    with [m] odd or [k = 0]; zero has no sign here, since nothing in the
    sources tells [-0] from [0]. *)
Inductive number : Type :=
| NaN
| Infinity (negative : bool)
| Finite (m : Z) (k : nat).

(** [m / 2^k] in lowest terms. *)
Fixpoint reduce (m : Z) (k : nat) : number :=
  match k with
  | O => Finite m 0
  | S k' => if Z.even m then reduce (m / 2) k' else Finite m k
  end.

(** The integer [e] with [2^e <= a / b < 2^(e+1)], for positive [a] and
    [b]. *)
Definition floor_log2 (a b : Z) : Z :=
  let g := (Z.log2 a - Z.log2 b)%Z in
  if (a * 2 ^ Z.max 0 (- g) <? b * 2 ^ Z.max 0 g)%Z then (g - 1)%Z else g.

(** The double nearest to [a / b], ties to even, with the sign given:
    [0 <= a] and [0 < b].  The significand has 53 bits at the exponent of
    [a / b], or fewer at the least exponent, [-1074]; a value that rounds
    to [2^1024] or more is an infinity. *)
Definition nearest (negative : bool) (a b : Z) : number :=
  if (a =? 0)%Z then Finite 0 0 else
  let p := Z.max (floor_log2 a b - 52) (-1074) in
  let n := (a * 2 ^ Z.max 0 (- p))%Z in
  let d := (b * 2 ^ Z.max 0 p)%Z in
  let q := (n / d)%Z in
  let r := (n mod d)%Z in
  let s := if (d <? 2 * r)%Z || ((d =? 2 * r)%Z && Z.odd q) then (q + 1)%Z else q in
  let signed := if negative then (- s)%Z else s in
  if (0 <=? p)%Z then
    if (2 ^ 1024 <=? s * 2 ^ p)%Z then Infinity negative
    else Finite (signed * 2 ^ p) 0
  else reduce signed (Z.to_nat (- p)).

(** The white space of [StringToNumber] among the characters up to 255:
    tab, line feed, vertical tab, form feed, carriage return, space and
    no-break space. *)
Definition StrWhiteSpaceChar (c : ascii) : bool :=
  let n := nat_of_ascii c in
  ((9 <=? n)%nat && (n <=? 13)%nat) || (n =? 32)%nat || (n =? 160)%nat.

Fixpoint trim_end (s : string) : string :=
  match s with
  | EmptyString => EmptyString
  | String c s' =>
      let t := trim_end s' in
      if StrWhiteSpaceChar c && negb (Js.truthy t) then EmptyString else String c t
  end.

Definition trim (s : string) : string :=
  trim_end (RegExp.drop_while StrWhiteSpaceChar s).

Definition digit_value (c : ascii) : Z :=
  let n := Z.of_nat (nat_of_ascii c) in
  if RegExp.is_digit c then (n - 48)%Z
  else if RegExp.is_lower c then (n - 87)%Z
  else (n - 55)%Z.

(** The number that a string of digits denotes in a radix, after [acc]. *)
Fixpoint digits_value (radix acc : Z) (s : string) : Z :=
  match s with
  | EmptyString => acc
  | String c s' => digits_value radix (radix * acc + digit_value c)%Z s'
  end.

Definition DecimalDigits (s : string) : bool :=
  Js.truthy s && RegExp.all_in RegExp.is_digit s.

(** The radix, the digits of the radix and what follows the prefix of a
    [NonDecimalIntegerLiteral]: [0x], [0o] or [0b], in either case. *)
Definition radix_prefix (s : string) : option (Z * (ascii -> bool) * string) :=
  match s with
  | String "0" (String c digits) =>
      if Ascii.eqb c "x" || Ascii.eqb c "X" then Some (16%Z, RegExp.hex_ci, digits)
      else if Ascii.eqb c "o" || Ascii.eqb c "O" then Some (8%Z, RegExp.in_range "0" "7", digits)
      else if Ascii.eqb c "b" || Ascii.eqb c "B" then Some (2%Z, RegExp.in_range "0" "1", digits)
      else None
  | _ => None
  end.

(** An optional sign: whether it is [-], and what follows it. *)
Definition sign (s : string) : bool * string :=
  match s with
  | String "+" u => (false, u)
  | String "-" u => (true, u)
  | _ => (false, s)
  end.

(** [ExponentPart], or nothing, up to the end of the literal. *)
Definition ExponentPart (s : string) : option Z :=
  match s with
  | EmptyString => Some 0%Z
  | String c rest =>
      if Ascii.eqb c "e" || Ascii.eqb c "E" then
        let (negative, digits) := sign rest in
        if DecimalDigits digits then
          Some (if negative then (- digits_value 10 0 digits)%Z
                else digits_value 10 0 digits)
        else None
      else None
  end.

(** The double nearest to [digits * 10^exponent].  A value of [10^401]
    or more is an infinity and a value under [10^-400] is zero, whatever
    the digits. *)
Definition decimal (negative : bool) (digits : string) (exponent : Z) : number :=
  let m := digits_value 10 0 digits in
  if (m =? 0)%Z then Finite 0 0
  else if (400 <? exponent)%Z then Infinity negative
  else if (exponent <? -400 - Z.of_nat (String.length digits))%Z then Finite 0 0
  else if (0 <=? exponent)%Z then nearest negative (m * 10 ^ exponent) 1
  else nearest negative m (10 ^ (- exponent)).

(** [StrUnsignedDecimalLiteral]: [Infinity], or digits with an optional
    fraction and an optional exponent, one digit at least before the
    exponent. *)
Definition StrUnsignedDecimalLiteral (negative : bool) (s : string) : number :=
  if String.eqb s "Infinity" then Infinity negative else
  let integer := RegExp.take_while RegExp.is_digit s in
  let rest := RegExp.drop_while RegExp.is_digit s in
  let (fraction, rest) :=
    match rest with
    | String "." r =>
        (RegExp.take_while RegExp.is_digit r, RegExp.drop_while RegExp.is_digit r)
    | _ => (EmptyString, rest)
    end in
  if Js.truthy integer || Js.truthy fraction then
    match ExponentPart rest with
    | Some e => decimal negative (integer ++ fraction) (e - Z.of_nat (String.length fraction))
    | None => NaN
    end
  else NaN.

(** [StringToNumber]: the empty or blank string is [0]; a literal with a
    radix prefix has no sign; anything outside the grammar is [NaN]. *)
Definition StringToNumber (s : string) : number :=
  let t := trim s in
  if negb (Js.truthy t) then Finite 0 0 else
  match radix_prefix t with
  | Some (radix, digit, digits) =>
      if Js.truthy digits && RegExp.all_in digit digits
      then nearest false (digits_value radix 0 digits) 1
      else NaN
  | None => let (negative, u) := sign t in StrUnsignedDecimalLiteral negative u
  end.

(** [Number(value)] for a value that is a string or [null]. *)
Definition Number (value : option string) : number :=
  match value with
  | Some s => StringToNumber s
  | None => Finite 0 0
  end.

(** [x * y] *)
Definition times (x y : number) : number :=
  match x, y with
  | NaN, _ | _, NaN => NaN
  | Infinity s, Infinity t => Infinity (xorb s t)
  | Infinity s, Finite m _ | Finite m _, Infinity s =>
      if (m =? 0)%Z then NaN else Infinity (xorb s (m <? 0)%Z)
  | Finite m k, Finite n j =>
      nearest (m * n <? 0)%Z (Z.abs (m * n)) (2 ^ Z.of_nat (k + j))
  end.

End JsNumber.

Module JsDate.

(** [new Date(v)] for a Number [v]: its time value, [TimeClip(v)], the
    integer part of a finite [v] of at most 8.64e15 in magnitude; [None]
    is the invalid date. *)
Definition new_Date (v : JsNumber.number) : option Z :=
  match v with
  | JsNumber.Finite m k =>
      if (Z.abs m <=? 8640000000000000 * 2 ^ Z.of_nat k)%Z
      then Some (Z.quot m (2 ^ Z.of_nat k))
      else None
  | _ => None
  end.

(** Zero-padded decimal rendering of a non-negative number. *)
Fixpoint pad (width : nat) (z : Z) : string :=
  match width with
  | O => EmptyString
  | S w => pad w (z / 10) ++ String (ascii_of_nat (48 + Z.to_nat (z mod 10))) EmptyString
  end.

(** The civil date of a day number counted from 1970-01-01. *)
Definition civil_from_days (days : Z) : Z * Z * Z :=
  let z := (days + 719468)%Z in
  let era := (z / 146097)%Z in
  let doe := (z mod 146097)%Z in
  let yoe := ((doe - doe / 1460 + doe / 36524 - doe / 146096) / 365)%Z in
  let doy := (doe - (365 * yoe + yoe / 4 - yoe / 100))%Z in
  let mp := ((5 * doy + 2) / 153)%Z in
  let d := (doy - (153 * mp + 2) / 5 + 1)%Z in
  let m := (if mp <? 10 then mp + 3 else mp - 9)%Z in
  let y := (yoe + era * 400 + (if m <=? 2 then 1 else 0))%Z in
  (y, m, d).

(** The text of a time value: [YYYY-MM-DDTHH:mm:ss.sssZ], the year with
    a sign and six digits outside 0 to 9999. *)
Definition iso (t : Z) : string :=
  let '(y, m, d) := civil_from_days (t / 86400000) in
  let ms := (t mod 86400000)%Z in
  (if (y <? 0)%Z then "-" ++ pad 6 (- y)
   else if (y <=? 9999)%Z then pad 4 y
   else "+" ++ pad 6 y)
  ++ "-" ++ pad 2 m ++ "-" ++ pad 2 d
  ++ "T" ++ pad 2 (ms / 3600000) ++ ":" ++ pad 2 (ms / 60000 mod 60)
  ++ ":" ++ pad 2 (ms / 1000 mod 60) ++ "." ++ pad 3 (ms mod 1000) ++ "Z".

(** [date.toISOString()]; [None] when it throws the [RangeError] of an
    invalid date. *)
Definition toISOString (date : option Z) : option string :=
  option_map iso date.

End JsDate.

(* ===================================================================== *)
(** ** Thrown values, events and the effect monad *)
(* ===================================================================== *)

(** The constructor of a thrown [Error] object. *)
Inductive ErrorName : Type :=
| ZodError | TypeError | RangeError | SyntaxError | Error.

(** A thrown value: an [Error] (of some subclass) with its message, or a
    value for which [instanceof Error] is false. *)
Inductive exn : Type :=
| Throwable (name : ErrorName) (message : string)
| NonError.

Inductive outcome (A : Type) : Type :=
| Returned (a : A)
| Threw (e : exn).
Arguments Returned {A} a.
Arguments Threw {A} e.

Inductive AuthType : Type := app | installation.

Record Request : Type := mkRequest {
  req_url : string;
  req_headers : list (string * string)
}.

(** What the program does to the outside world, in order. *)
Inductive event : Type :=
| EvAppAuth (type : AuthType)
| EvFetch (req : Request)
| EvConsoleWarn (message : string)
| EvConsoleError (label : string) (message : string).

Definition Eff (A : Type) : Type := (list event * outcome A)%type.

Definition ret {A} (a : A) : Eff A := ([], Returned a).

Definition throw {A} (e : exn) : Eff A := ([], Threw e).

Definition emit (ev : event) : Eff unit := ([ev], Returned tt).

Definition bind {A B} (m : Eff A) (k : A -> Eff B) : Eff B :=
  match m with
  | (t, Returned a) => let (t', r) := k a in ((t ++ t')%list, r)
  | (t, Threw e) => (t, Threw e)
  end.

(** [try { m } catch (error) { h error }] *)
Definition try_catch {A} (m : Eff A) (h : exn -> Eff A) : Eff A :=
  match m with
  | (t, Returned a) => (t, Returned a)
  | (t, Threw e) => let (t', r) := h e in ((t ++ t')%list, r)
  end.

(** A pure computation that may throw, run inside [Eff]. *)
Definition lift {A} (o : outcome A) : Eff A := ([], o).

Notation "x <- m ;; k" := (bind m (fun x => k))
  (at level 61, m at next level, right associativity).
Notation "m ;;; k" := (bind m (fun _ => k))
  (at level 61, right associativity).

(* ===================================================================== *)
(** ** Data of the sources *)
(* ===================================================================== *)

(** The two properties of a [URL] object that the parser reads. *)
Record URLObj : Type := mkURL {
  hostname : string;
  pathname : string
}.

(** The part of a [Response] that the parser reads: [ok], [status], the
    two rate-limit headers ([headers.get] gives [null] for a missing
    header), the body text and the [private] field of the JSON body
    ([json()] may reject). *)
Record Response : Type := mkResponse {
  ok : bool;
  status : Z;
  statusText : string;
  x_ratelimit_remaining : option string;
  x_ratelimit_reset : option string;
  text : string;
  json_private : outcome bool
}.

(** [interface GitHubAppConfig] *)
Record GitHubAppConfig : Type := mkAppConfig {
  appId : string;
  privateKey : string;
  clientId : string;
  clientSecret : string;
  installationId : option string
}.

(** What [auth({ type })] of [@octokit/auth-app] resolves to. *)
Record AppAuthentication : Type := mkAppAuthentication {
  auth_token : string;
  auth_expiresAt : option string
}.

(** [interface AuthenticationResult] *)
Record AuthenticationResult : Type := mkAuthenticationResult {
  token : string;
  type : AuthType;
  expiresAt : option string;
  installationUrl : option string
}.

Inductive Provider : Type := github | gitlab | bitbucket.

(** [interface GitRepoMetadata] *)
Record GitRepoMetadata : Type := mkMetadata {
  owner : string;
  repo : string;
  branch : option string;
  commit : option string;
  provider : Provider;
  isPrivate : bool
}.

(** [interface ParsedGitUrl] *)
Record ParsedGitUrl : Type := mkParsed {
  metadata : GitRepoMetadata;
  normalizedUrl : string;
  originalUrl : string
}.

(** [interface ParseOptions] *)
Record ParseOptions : Type := mkOptions {
  authToken : option string;
  githubApp : option GitHubAppConfig
}.

Definition no_options : ParseOptions := mkOptions None None.

(** The value types that zod tells apart. *)
Inductive ParsedType : Type :=
| t_undefined | t_null | t_boolean | t_number | t_string | t_array | t_object.

(** The issues of a [ZodError] that the schemas of the sources raise: a
    value of the wrong type, and the issue of a failed [refine]. *)
Inductive ZodIssue : Type :=
| invalid_type (path : list string) (expected received : ParsedType)
| custom (path : list string) (message : string).

(** The text that zod gives to the [message] of a [ZodError]: a rendering
    of its issues. *)
Class Zod : Type := mkZod {
  ZodError_message : list ZodIssue -> string
}.

(** The runtime services the sources call.  [new_URL s] is [None] when
    [new URL(s)] throws; [createAppAuth config] is the call of line 29 of
    [src/github-app-auth.ts], which may throw, makes no token exchange
    and returns the function [auth], and [auth t] is the exchange
    [await auth({ type: t })]; [zod] is the zod library as far as the
    message of its errors goes. *)
Class Platform : Type := mkPlatform {
  new_URL : string -> option URLObj;
  fetch : Request -> outcome Response;
  createAppAuth : GitHubAppConfig -> outcome (AuthType -> outcome AppAuthentication);
  zod : Zod
}.

Definition eqb_Provider (a b : Provider) : bool :=
  match a, b with
  | github, github | gitlab, gitlab | bitbucket, bitbucket => true
  | _, _ => false
  end.

Definition eqb_opt_string (a : option string) (b : string) : bool :=
  match a with
  | Some s => String.eqb s b
  | None => false
  end.

(* ===================================================================== *)
(** ** [src/github-app-auth.ts] *)
(* ===================================================================== *)

Module GitHubAppAuth.

Definition GITHUB_APP_INSTALLATION_URL : string :=
  "https://github.com/apps/your-app-name/installations/new".

(** [await auth({ type })], recorded in the trace. *)
Definition await_auth (auth : AuthType -> outcome AppAuthentication) (t : AuthType)
  : Eff AppAuthentication :=
  emit (EvAppAuth t) ;;; lift (auth t).

(** [getAuthenticationToken], lines 27-59. *)
Definition getAuthenticationToken `{Platform} (config : GitHubAppConfig)
  : Eff AuthenticationResult :=
  try_catch
    (auth <- lift (createAppAuth config) ;;
     if negb (Js.truthy_opt (installationId config)) then
       appAuthentication <- await_auth auth app ;;
       ret {| token := auth_token appAuthentication;
              type := app;
              expiresAt := auth_expiresAt appAuthentication;
              installationUrl := Some GITHUB_APP_INSTALLATION_URL |}
     else
       installationAuthentication <- await_auth auth installation ;;
       ret {| token := auth_token installationAuthentication;
              type := installation;
              expiresAt := auth_expiresAt installationAuthentication;
              installationUrl := None |})
    (fun error =>
       match error with
       | Throwable _ message =>
           throw (Throwable Error ("GitHub App authentication failed: " ++ message))
       | NonError => throw error
       end).

End GitHubAppAuth.

(* ===================================================================== *)
(** ** [src/git-repo-parser.ts] *)
(* ===================================================================== *)

(** [gitUrlSchema], lines 39-55: the predicate given to [refine]. *)
Definition gitUrlSchema `{Platform} (url : string) : bool :=
  if Js.includes url "://" then
    match new_URL url with
    | Some _ => true
    | None => false
    end
  else RegExp.shorthand_test url.

Module GitRepoParser.

Definition PROVIDER_PATTERNS : list (Provider * string) :=
  [ (github, "github.com"); (gitlab, "gitlab.com"); (bitbucket, "bitbucket.org") ].

(** [/\/tree\/([\w.-]+)/] *)
Definition BRANCH_PATTERN (s : string) : option string :=
  RegExp.match_capture (fun c => c) "/tree/" RegExp.word_dot_hyphen s.

(** [/\/commit\/([a-f0-9]+)/i] *)
Definition COMMIT_PATTERN (s : string) : option string :=
  RegExp.match_capture RegExp.fold_case "/commit/" RegExp.hex_ci s.

(** Lines 83-86: the first entry whose pattern matches the host name,
    [github] when there is none. *)
Definition detect_provider (host : string) : Provider :=
  match find (fun entry => RegExp.literal_test (snd entry) host) PROVIDER_PATTERNS with
  | Some entry => fst entry
  | None => github
  end.

(** Line 75-77: the shorthand form is expanded in place, in the
    parameter [url] itself. *)
Definition expand (url : string) : string :=
  if negb (Js.includes url "://") then "https://github.com/" ++ url else url.

(** The [ZodError] of [gitUrlSchema.parse(url)], line 72: its one issue is
    the custom issue of [refine], with the message of line 54, and its
    own [message] is the text that zod makes of the issues. *)
Definition invalid_format `{Platform} : exn :=
  Throwable ZodError
            (@ZodError_message zod [custom [] "Invalid Git repository URL format"]).

Definition missing_owner_or_repo : exn :=
  Throwable Error "Invalid repository URL: missing owner or repository name".

(** The local variables of [parse] once line 107 is reached. *)
Record Reference : Type := mkReference {
  ref_url : string;
  ref_hostname : string;
  ref_owner : string;
  ref_cleanRepo : string;
  ref_branch : option string;
  ref_commit : option string;
  ref_provider : Provider;
  ref_normalizedUrl : string
}.

(** Lines 71-107 of [parse]: everything before the metadata request. *)
Definition normalize `{Platform} (url : string) : outcome Reference :=
  if negb (gitUrlSchema url) then Threw invalid_format
  else
    let url := expand url in
    match new_URL url with
    | None => Threw (Throwable TypeError "Invalid URL")
    | Some urlObj =>
        let pathSegments := Js.filter_Boolean (Js.split "/" (pathname urlObj)) in
        let provider := detect_provider (hostname urlObj) in
        let branch := BRANCH_PATTERN url in
        let commit := COMMIT_PATTERN url in
        let owner := nth_error pathSegments 0 in
        let repo := nth_error pathSegments 1 in
        let cleanRepo := option_map Js.replace_git_suffix repo in
        match owner, cleanRepo with
        | Some owner, Some cleanRepo =>
            if negb (Js.truthy owner) || negb (Js.truthy cleanRepo)
            then Threw missing_owner_or_repo
            else Returned
                   {| ref_url := url;
                      ref_hostname := hostname urlObj;
                      ref_owner := owner;
                      ref_cleanRepo := cleanRepo;
                      ref_branch := branch;
                      ref_commit := commit;
                      ref_provider := provider;
                      ref_normalizedUrl :=
                        "https://" ++ hostname urlObj ++ "/" ++ owner ++ "/" ++ cleanRepo |}
        | _, _ => Threw missing_owner_or_repo
        end
    end.

Definition accept_header : list (string * string) :=
  [ ("Accept", "application/vnd.github.v3+json") ].

Definition installation_required : string := "GitHub App installation required".

Definition invalid_token_message : string :=
  "Invalid GitHub token format. Token should be a GitHub Personal Access Token.".

(** [headers.Authorization = `Bearer ${token}`] *)
Definition set_Authorization (headers : list (string * string)) (token : string)
  : list (string * string) :=
  List.app headers [("Authorization", "Bearer " ++ token)].

(** Lines 115-143: the request headers, with the credential if any. *)
Definition authorize `{Platform} (options : ParseOptions) : Eff (list (string * string)) :=
  let headers := accept_header in
  match githubApp options with
  | Some config =>
      try_catch
        (authResult <- GitHubAppAuth.getAuthenticationToken config ;;
         match type authResult with
         | app =>
             if Js.truthy_opt (installationUrl authResult)
             then throw (Throwable Error installation_required)
             else ret (set_Authorization headers (token authResult))
         | installation =>
             ret (set_Authorization headers (token authResult))
         end)
        (fun error =>
           match error with
           | Throwable _ message =>
               if String.eqb message installation_required then throw error
               else throw (Throwable Error ("GitHub App authentication failed: " ++ message))
           | NonError =>
               throw (Throwable Error ("GitHub App authentication failed: " ++ "Unknown error"))
           end)
  | None =>
      match authToken options with
      | Some tok =>
          if Js.truthy tok then
            if negb (Js.startsWith tok "ghp_") && negb (Js.startsWith tok "github_pat_")
            then throw (Throwable Error invalid_token_message)
            else ret (set_Authorization headers tok)
          else ret headers
      | None => ret headers
      end
  end.

Definition api_url (owner cleanRepo : string) : string :=
  "https://api.github.com/repos/" ++ owner ++ "/" ++ cleanRepo.

(** [new Date(Number(rateLimitReset) * 1000).toISOString()], lines 163
    and 174; [None] when [toISOString] throws. *)
Definition reset_time (rateLimitReset : option string) : option string :=
  JsDate.toISOString
    (JsDate.new_Date
       (JsNumber.times (JsNumber.Number rateLimitReset) (JsNumber.Finite 1000 0))).

(** Lines 156-168: building [errorInfo] evaluates the reset date when both
    rate-limit headers are non-empty, which throws on an invalid date. *)
Definition errorInfo (response : Response) : Eff unit :=
  if Js.truthy_opt (x_ratelimit_remaining response)
     && Js.truthy_opt (x_ratelimit_reset response)
  then match reset_time (x_ratelimit_reset response) with
       | Some _ => ret tt
       | None => throw (Throwable RangeError "Invalid time value")
       end
  else ret tt.

(** Lines 154-181: what is thrown for a response that is not [ok]. *)
Definition rejectResponse (owner cleanRepo : string) (response : Response)
  : Eff bool :=
  errorInfo response ;;;
  if (status response =? 404)%Z then
    throw (Throwable Error ("Repository not found: " ++ owner ++ "/" ++ cleanRepo))
  else if (status response =? 403)%Z && eqb_opt_string (x_ratelimit_remaining response) "0" then
    match reset_time (x_ratelimit_reset response) with
    | Some iso =>
        throw (Throwable Error ("GitHub API rate limit exceeded. Reset at " ++ iso))
    | None => throw (Throwable RangeError "Invalid time value")
    end
  else
    throw (Throwable Error
             ("GitHub API Error: " ++ Js.of_Z (status response) ++ " - " ++ text response)).

(** Lines 145-184: the request and the reading of its response. *)
Definition fetchMetadata `{Platform} (owner cleanRepo : string)
           (headers : list (string * string)) : Eff bool :=
  let request := mkRequest (api_url owner cleanRepo) headers in
  emit (EvFetch request) ;;;
  response <- lift (fetch request) ;;
  if negb (ok response) then rejectResponse owner cleanRepo response
  else lift (json_private response).

(** Lines 185-199: the handler of the enclosing [try]. *)
Definition recover (error : exn) : Eff bool :=
  match error with
  | Throwable _ message =>
      if Js.includes message "rate limit exceeded"
      then emit (EvConsoleWarn message)
      else emit (EvConsoleError "Failed to fetch repository metadata:" message)
  | NonError => ret tt
  end ;;;
  ret false.

(** Lines 110-200: [isPrivate], from the guarded request when the provider
    is github, [false] otherwise. *)
Definition visibility `{Platform} (r : Reference) (options : ParseOptions) : Eff bool :=
  if eqb_Provider (ref_provider r) github then
    try_catch
      (headers <- authorize options ;;
       fetchMetadata (ref_owner r) (ref_cleanRepo r) headers)
      recover
  else ret false.

(** [GitRepoParser.parse], lines 67-214. *)
Definition parse `{Platform} (url : string) (options : ParseOptions) : Eff ParsedGitUrl :=
  r <- lift (normalize url) ;;
  isPrivate <- visibility r options ;;
  ret {| metadata :=
           {| owner := ref_owner r;
              repo := ref_cleanRepo r;
              branch := ref_branch r;
              commit := ref_commit r;
              provider := ref_provider r;
              isPrivate := isPrivate |};
         normalizedUrl := ref_normalizedUrl r;
         originalUrl := ref_url r |}.

(** [validate], lines 216-218: the [success] field of [safeParse]. *)
Definition validate `{Platform} (url : string) : bool := gitUrlSchema url.

(** [isValidProvider], lines 220-229. *)
Definition isValidProvider `{Platform} (url : string) : bool :=
  match new_URL url with
  | Some urlObj =>
      existsb (fun entry => RegExp.literal_test (snd entry) (hostname urlObj))
              PROVIDER_PATTERNS
  | None => false
  end.

End GitRepoParser.

(* ===================================================================== *)
(** ** An executable platform *)
(* ===================================================================== *)

(** A concrete [Platform] on which the definitions above can be run.

    [Model.URL] follows the URL Standard on a fragment of its input
    language: ASCII input, a scheme among http, https, ws, wss and ftp,
    optional credentials and port, a host made of letters, digits, dots,
    hyphens and underscores that is neither an IP address nor an IDNA
    label, and a path whose characters need no percent-encoding.  On that
    fragment a [None] means that [new URL] throws.  Inputs outside the
    fragment are answered [None] as well; the model is not meant to be
    consulted there. *)

Module Model.

Fixpoint filter_string (p : ascii -> bool) (s : string) : string :=
  match s with
  | EmptyString => EmptyString
  | String c s' => if p c then String c (filter_string p s') else filter_string p s'
  end.

Fixpoint rev_string (s : string) : string :=
  match s with
  | EmptyString => EmptyString
  | String c s' => rev_string s' ++ String c EmptyString
  end.

Definition is_c0_or_space (c : ascii) : bool := (nat_of_ascii c <=? 32)%nat.

Definition is_tab_or_newline (c : ascii) : bool :=
  (nat_of_ascii c =? 9)%nat || (nat_of_ascii c =? 10)%nat || (nat_of_ascii c =? 13)%nat.

(** Leading and trailing C0 controls and spaces are dropped, then every
    tab and newline. *)
Definition preprocess (s : string) : string :=
  let s1 := RegExp.drop_while is_c0_or_space s in
  let s2 := rev_string (RegExp.drop_while is_c0_or_space (rev_string s1)) in
  filter_string (fun c => negb (is_tab_or_newline c)) s2.

Definition is_alpha (c : ascii) : bool := RegExp.is_lower c || RegExp.is_upper c.

Definition scheme_char (c : ascii) : bool :=
  is_alpha c || RegExp.is_digit c
  || Ascii.eqb c "+" || Ascii.eqb c "-" || Ascii.eqb c ".".

(** The scheme, lower-cased, and what follows its colon. *)
Definition parse_scheme (s : string) : option (string * string) :=
  match s with
  | String c _ =>
      if is_alpha c then
        match RegExp.drop_while scheme_char s with
        | String ":" rest =>
            Some (RegExp.map_string RegExp.fold_case (RegExp.take_while scheme_char s), rest)
        | _ => None
        end
      else None
  | EmptyString => None
  end.

Definition special_scheme (s : string) : bool :=
  existsb (String.eqb s) ["http"; "https"; "ws"; "wss"; "ftp"].

Definition is_slash (c : ascii) : bool := Ascii.eqb c "/" || Ascii.eqb c "\".

Definition in_authority (c : ascii) : bool :=
  negb (is_slash c || Ascii.eqb c "?" || Ascii.eqb c "#").

Definition in_path (c : ascii) : bool :=
  negb (Ascii.eqb c "?" || Ascii.eqb c "#").

Definition parse_digits (s : string) : option Z :=
  if RegExp.all_in RegExp.is_digit s then
    Some ((fix value (acc : Z) (t : string) : Z :=
             match t with
             | EmptyString => acc
             | String c t' => value (10 * acc + Z.of_nat (nat_of_ascii c - 48))%Z t'
             end) 0%Z s)
  else None.

Definition host_char (c : ascii) : bool :=
  is_alpha c || RegExp.is_digit c
  || Ascii.eqb c "." || Ascii.eqb c "-" || Ascii.eqb c "_".

Definition starts_with_digit (s : string) : bool :=
  match s with
  | String c _ => RegExp.is_digit c
  | EmptyString => false
  end.

(** The labels of a host of the fragment: none is empty but possibly the
    last, none is an IDNA label, and the last one does not start like a
    number (such a host would be read as an IPv4 address). *)
Fixpoint labels_ok (labels : list string) : bool :=
  match labels with
  | [] => false
  | [l] => Js.truthy l && negb (String.prefix "xn--" l) && negb (starts_with_digit l)
  | [l; EmptyString] =>
      Js.truthy l && negb (String.prefix "xn--" l) && negb (starts_with_digit l)
  | l :: rest => Js.truthy l && negb (String.prefix "xn--" l) && labels_ok rest
  end.

Definition parse_host (s : string) : option string :=
  let h := RegExp.map_string RegExp.fold_case s in
  if RegExp.all_in host_char s && labels_ok (Js.split "." h) then Some h else None.

(** The host of an authority: what follows the last [@], before the port. *)
Definition authority_host (authority : string) : option string :=
  let hostport := last (Js.split "@" authority) EmptyString in
  match Js.split ":" hostport with
  | [h] => parse_host h
  | [h; port] =>
      match parse_digits port with
      | Some n => if (n <=? 65535)%Z then parse_host h else None
      | None => None
      end
  | _ => None
  end.

Definition lower_eqb (a b : string) : bool :=
  String.eqb (RegExp.map_string RegExp.fold_case a) b.

Definition single_dot (seg : string) : bool :=
  String.eqb seg "." || lower_eqb seg "%2e".

Definition double_dot (seg : string) : bool :=
  String.eqb seg ".." || lower_eqb seg ".%2e"
  || lower_eqb seg "%2e." || lower_eqb seg "%2e%2e".

(** The path state: dot segments are resolved while the segments are
    collected ([acc] is the path so far, last segment first). *)
Fixpoint build_path (segs acc : list string) : list string :=
  match segs with
  | [] => rev acc
  | seg :: rest =>
      let is_last := match rest with [] => true | _ => false end in
      if double_dot seg then
        build_path rest (if is_last then EmptyString :: tl acc else tl acc)
      else if single_dot seg then
        build_path rest (if is_last then EmptyString :: acc else acc)
      else build_path rest (seg :: acc)
  end.

(** Characters that the path state copies as they are: the printable
    ASCII characters but the double quote (code 34) and the others
    listed. *)
Definition path_char (c : ascii) : bool :=
  (33 <=? nat_of_ascii c)%nat && (nat_of_ascii c <=? 126)%nat
  && negb (existsb (Ascii.eqb c)
             (ascii_of_nat 34 :: ["#";"<";">";"?";"`";"{";"}";"^";"\"]%char)).

Definition serialize_path (path : list string) : string :=
  fold_right (fun seg acc => "/" ++ seg ++ acc) EmptyString path.

Definition URL (input : string) : option URLObj :=
  let s := preprocess input in
  if negb (RegExp.all_in (fun c => (nat_of_ascii c <? 128)%nat) s) then None else
  match parse_scheme s with
  | Some (scheme, rest) =>
      if special_scheme scheme then
        let rest := RegExp.drop_while is_slash rest in
        let authority := RegExp.take_while in_authority rest in
        let tail := RegExp.drop_while in_authority rest in
        let raw := RegExp.map_string (fun c => if is_slash c then "/"%char else c)
                     (RegExp.take_while in_path tail) in
        let segs := match Js.split "/" raw with
                    | EmptyString :: seg :: more => seg :: more
                    | segs => segs
                    end in
        match authority_host authority with
        | Some host =>
            if forallb (RegExp.all_in path_char) segs
            then Some (mkURL host (serialize_path (build_path segs [])))
            else None
        | None => None
        end
      else None
  | None => None
  end.

(** The message of a [ZodError] in zod 3:
    [JSON.stringify(issues, null, 2)]. *)

Definition newline : string := String (ascii_of_nat 10) EmptyString.

Definition hex_digit (n : nat) : ascii :=
  ascii_of_nat (if (n <? 10)%nat then 48 + n else 87 + n).

(** A character inside a JSON string; code 34 is the double quote and
    code 92 the backslash. *)
Definition escape (c : ascii) : string :=
  let n := nat_of_ascii c in
  if (n =? 34)%nat then String "\" (String c EmptyString)
  else if (n =? 92)%nat then String c (String c EmptyString)
  else if (n =? 8)%nat then "\b"
  else if (n =? 9)%nat then "\t"
  else if (n =? 10)%nat then "\n"
  else if (n =? 12)%nat then "\f"
  else if (n =? 13)%nat then "\r"
  else if (n <? 32)%nat then
    "\u00" ++ String (hex_digit (n / 16)) (String (hex_digit (n mod 16)) EmptyString)
  else String c EmptyString.

Fixpoint escape_string (s : string) : string :=
  match s with
  | EmptyString => EmptyString
  | String c s' => escape c ++ escape_string s'
  end.

Definition quote (s : string) : string :=
  String (ascii_of_nat 34) (escape_string s ++ String (ascii_of_nat 34) EmptyString).

Definition type_name (t : ParsedType) : string :=
  match t with
  | t_undefined => "undefined"
  | t_null => "null"
  | t_boolean => "boolean"
  | t_number => "number"
  | t_string => "string"
  | t_array => "array"
  | t_object => "object"
  end.

(** An array of strings, its opening bracket at column [4]. *)
Definition render_path (path : list string) : string :=
  match path with
  | [] => "[]"
  | _ => "[" ++ newline
         ++ String.concat ("," ++ newline) (map (fun key => "      " ++ quote key) path)
         ++ newline ++ "    ]"
  end.

Definition member (key value : string) : string :=
  "    " ++ quote key ++ ": " ++ value.

Definition render_issue (issue : ZodIssue) : string :=
  "  {" ++ newline
  ++ String.concat ("," ++ newline)
       match issue with
       | invalid_type path expected received =>
           [ member "code" (quote "invalid_type");
             member "expected" (quote (type_name expected));
             member "received" (quote (type_name received));
             member "path" (render_path path);
             member "message"
               (quote match received with
                      | t_undefined => "Required"
                      | _ => "Expected " ++ type_name expected
                             ++ ", received " ++ type_name received
                      end) ]
       | custom path message =>
           [ member "code" (quote "custom");
             member "message" (quote message);
             member "path" (render_path path) ]
       end
  ++ newline ++ "  }".

Definition zod3 : Zod :=
  {| ZodError_message :=
       fun issues =>
         match issues with
         | [] => "[]"
         | _ => "[" ++ newline
                ++ String.concat ("," ++ newline) (map render_issue issues)
                ++ newline ++ "]"
         end |}.

(** The platform that answers every request with [reply] and builds the
    token exchange with [construct]. *)
Definition platform (reply : Request -> outcome Response)
           (construct : GitHubAppConfig -> outcome (AuthType -> outcome AppAuthentication))
  : Platform :=
  {| new_URL := URL;
     fetch := reply;
     createAppAuth := construct;
     zod := zod3 |}.

Definition respond (r : Response) : Request -> outcome Response :=
  fun _ => Returned r.

(** An exchange that always succeeds, as the mock of a test would. *)
Definition tokens (t : AuthType) : outcome AppAuthentication :=
  match t with
  | app => Returned (mkAppAuthentication "jwt" (Some "2030-01-01T00:10:00Z"))
  | installation => Returned (mkAppAuthentication "ghs_installation" (Some "2030-01-01T01:00:00Z"))
  end.

Definition app_token : GitHubAppConfig -> outcome (AuthType -> outcome AppAuthentication) :=
  fun _ => Returned tokens.

(** [createAppAuth] of [@octokit/auth-app], which refuses a configuration
    whose [installationId] key is present and falsy. *)
Definition octokit : GitHubAppConfig -> outcome (AuthType -> outcome AppAuthentication) :=
  fun config =>
    if Js.truthy_opt (installationId config) then Returned tokens
    else Threw (Throwable Error "[@octokit/auth-app] installationId is set to a falsy value").

Definition public_repo : Response :=
  mkResponse true 200 "OK" (Some "59") (Some "1700000000") "{}" (Returned false).

Definition private_repo : Response :=
  mkResponse true 200 "OK" (Some "59") (Some "1700000000") "{}" (Returned true).

Definition not_found : Response :=
  mkResponse false 404 "Not Found" None None "Not Found"
             (Threw (Throwable SyntaxError "Unexpected token")).

Definition rate_limited : Response :=
  mkResponse false 403 "Forbidden" (Some "0") (Some "1700000000")
             "API rate limit exceeded"
             (Threw (Throwable SyntaxError "Unexpected token")).

Definition forbidden : Response :=
  mkResponse false 403 "Forbidden" (Some "42") (Some "1700000000") "Forbidden"
             (Threw (Throwable SyntaxError "Unexpected token")).

Definition server_error : Response :=
  mkResponse false 500 "Internal Server Error" None None "oops"
             (Threw (Throwable SyntaxError "Unexpected token")).

(** A 404 whose reset header is not a number. *)
Definition garbled_reset : Response :=
  mkResponse false 404 "Not Found" (Some "5") (Some "soon") "Not Found"
             (Threw (Throwable SyntaxError "Unexpected token")).

(** The platform of the unauthenticated calls below: every repository is
    public. *)
Definition web : Platform := platform (respond public_repo) app_token.

End Model.

(* ===================================================================== *)
(** ** The two readings of the specification that are compared with the
       code *)
(* ===================================================================== *)

(** The failure taxonomy of the metadata request, as the specification
    names it. *)
Inductive FetchFailure : Type :=
| RepositoryNotFound (owner repo : string)
| RateLimitExceeded (resetAt : string)
| ProviderApiError (status : Z) (body : string).

(** The message under which the code throws each kind of failure. *)
Definition failure_message (f : FetchFailure) : string :=
  match f with
  | RepositoryNotFound owner repo => "Repository not found: " ++ owner ++ "/" ++ repo
  | RateLimitExceeded resetAt => "GitHub API rate limit exceeded. Reset at " ++ resetAt
  | ProviderApiError status body => "GitHub API Error: " ++ Js.of_Z status ++ " - " ++ body
  end.

(** The classification of a response that is not [ok], in the words of
    the specification; [resetAt] is the converted reset header. *)
Definition classify (owner repo : string) (response : Response) (resetAt : string)
  : FetchFailure :=
  if (status response =? 404)%Z then RepositoryNotFound owner repo
  else if (status response =? 403)%Z
          && eqb_opt_string (x_ratelimit_remaining response) "0"
       then RateLimitExceeded resetAt
       else ProviderApiError (status response) (text response).

(** What the console receives for a swallowed error with this message. *)
Definition console_report (message : string) : event :=
  if Js.includes message "rate limit exceeded"
  then EvConsoleWarn message
  else EvConsoleError "Failed to fetch repository metadata:" message.

(** The result of [parse] for a normalized reference and a visibility. *)
Definition result_of (r : GitRepoParser.Reference) (private : bool) : ParsedGitUrl :=
  {| metadata :=
       {| owner := GitRepoParser.ref_owner r;
          repo := GitRepoParser.ref_cleanRepo r;
          branch := GitRepoParser.ref_branch r;
          commit := GitRepoParser.ref_commit r;
          provider := GitRepoParser.ref_provider r;
          isPrivate := private |};
     normalizedUrl := GitRepoParser.ref_normalizedUrl r;
     originalUrl := GitRepoParser.ref_url r |}.

(** A string is a token over a character class: not empty, every
    character in the class. *)
Definition token_of (cls : ascii -> bool) (s : string) : Prop :=
  s <> EmptyString /\ RegExp.all_in cls s = true.

(** [s] contains [p]. *)
Definition contains (s p : string) : Prop :=
  exists a b, s = a ++ p ++ b.

(** The shorthand of the specification: [token/token], both tokens made
    of word characters, dots or hyphens. *)
Definition spec_shorthand (s : string) : Prop :=
  exists a b, s = a ++ "/" ++ b
              /\ token_of RegExp.word_dot_hyphen a
              /\ token_of RegExp.word_dot_hyphen b.

(** The shorthand that the code accepts: no dot in the owner. *)
Definition code_shorthand (s : string) : Prop :=
  exists a b, s = a ++ "/" ++ b
              /\ token_of RegExp.word_hyphen a
              /\ token_of RegExp.word_dot_hyphen b.

(** An absolute URL: it has the scheme separator and the platform parses
    it. *)
Definition absolute_url `{Platform} (s : string) : Prop :=
  contains s "://" /\ new_URL s <> None.

(** First match over the ordered table github, gitlab, bitbucket. *)
Definition first_match (host : string) : Provider :=
  if Js.includes host "github.com" then github
  else if Js.includes host "gitlab.com" then gitlab
  else if Js.includes host "bitbucket.org" then bitbucket
  else github.

(* ===================================================================== *)
(** ** [src/api.repo.ts]: the route that calls [GitRepoParser.parse] *)
(* ===================================================================== *)

Module ApiRepo.

(** What [await request.json()] is destructured into. *)
Record RequestBody : Type := mkBody {
  body_url : string;
  body_authToken : option string
}.

(** The [Response] of the route: its status and the value that is
    serialized as its body, [result] or [{ error: { code, message } }]. *)
Inductive ActionResponse : Type :=
| Success (status : Z) (result : ParsedGitUrl)
| Failure (status : Z) (code : string) (message : string).

Definition response_status (r : ActionResponse) : Z :=
  match r with
  | Success status _ => status
  | Failure status _ _ => status
  end.

(** Lines 19-33: status and code for the message of the caught error. *)
Definition classify_error (message : string) : Z * string :=
  if Js.includes message "rate limit exceeded" then (429%Z, "RATE_LIMIT_EXCEEDED")
  else if Js.includes message "Repository not found" then (404%Z, "REPOSITORY_NOT_FOUND")
  else if Js.includes message "Invalid GitHub token" then (401%Z, "INVALID_TOKEN")
  else (400%Z, "INVALID_REPOSITORY_URL").

(** [action], lines 4-46; [body] is the outcome of [request.json()]. *)
Definition action `{Platform} (body : outcome RequestBody) : Eff ActionResponse :=
  try_catch
    (b <- lift body ;;
     result <- GitRepoParser.parse (body_url b) (mkOptions (body_authToken b) None) ;;
     ret (Success 200 result))
    (fun error =>
       let message :=
         match error with
         | Throwable _ message => message
         | NonError => "Failed to parse repository URL"
         end in
       ret (Failure (fst (classify_error message)) (snd (classify_error message)) message)).

End ApiRepo.

(* ===================================================================== *)
(** ** [GitHubAppAuth.validateConfig] and the route that calls it *)
(* ===================================================================== *)

Set Warnings "-register-all".

(** A parsed JSON value.  Only the type of a number is ever looked at. *)
Inductive json : Type :=
| JNull
| JBool (b : bool)
| JNumber (n : Z)
| JString (s : string)
| JArray (items : list json)
| JObject (members : list (string * json)).

Module ConfigSchema.

Definition getParsedType (v : json) : ParsedType :=
  match v with
  | JNull => t_null
  | JBool _ => t_boolean
  | JNumber _ => t_number
  | JString _ => t_string
  | JArray _ => t_array
  | JObject _ => t_object
  end.

(** [object[key]] on a parsed JSON object: of several members with the
    same key, [JSON.parse] keeps the last. *)
Fixpoint get (key : string) (members : list (string * json)) : option json :=
  match members with
  | [] => None
  | (k, v) :: rest =>
      match get key rest with
      | Some later => Some later
      | None => if String.eqb k key then Some v else None
      end
  end.

(** [z.string()] at [key]. *)
Definition z_string (key : string) (v : option json) : list ZodIssue + string :=
  match v with
  | Some (JString s) => inr s
  | Some other => inl [invalid_type [key] t_string (getParsedType other)]
  | None => inl [invalid_type [key] t_string t_undefined]
  end.

(** [z.string().optional()] at [key]. *)
Definition z_string_optional (key : string) (v : option json)
  : list ZodIssue + option string :=
  match v with
  | Some (JString s) => inr (Some s)
  | Some other => inl [invalid_type [key] t_string (getParsedType other)]
  | None => inr None
  end.

Definition issues_of {A} (r : list ZodIssue + A) : list ZodIssue :=
  match r with
  | inl issues => issues
  | inr _ => []
  end.

(** [validateConfig], lines 61-71 of [src/github-app-auth.ts]:
    [configSchema.parse(config)].  Unknown keys are stripped and the
    issues of all keys are collected. *)
Definition validateConfig `{Zod} (config : json) : outcome GitHubAppConfig :=
  match config with
  | JObject members =>
      let a := z_string "appId" (get "appId" members) in
      let k := z_string "privateKey" (get "privateKey" members) in
      let c := z_string "clientId" (get "clientId" members) in
      let s := z_string "clientSecret" (get "clientSecret" members) in
      let i := z_string_optional "installationId" (get "installationId" members) in
      match a, k, c, s, i with
      | inr a, inr k, inr c, inr s, inr i => Returned (mkAppConfig a k c s i)
      | _, _, _, _, _ =>
          Threw (Throwable ZodError
                   (ZodError_message
                      (issues_of a ++ issues_of k ++ issues_of c
                       ++ issues_of s ++ issues_of i)%list))
      end
  | other =>
      Threw (Throwable ZodError
               (ZodError_message [invalid_type [] t_object (getParsedType other)]))
  end.

(** The JSON object that [JSON.stringify] makes of a configuration: an
    undefined [installationId] is left out. *)
Definition toJSON (config : GitHubAppConfig) : json :=
  JObject
    ([ ("appId", JString (appId config));
       ("privateKey", JString (privateKey config));
       ("clientId", JString (clientId config));
       ("clientSecret", JString (clientSecret config)) ]
     ++ match installationId config with
        | Some i => [("installationId", JString i)]
        | None => []
        end)%list.

Definition schema_keys : list string :=
  ["appId"; "privateKey"; "clientId"; "clientSecret"; "installationId"].

End ConfigSchema.

(** The route that exchanges an App configuration for a token (the
    [action] that follows the tests in [src/git-repo-parser.spec.ts],
    lines 196-216). *)
Module AppAuthRoute.

(** [json(authResult)] with status 200, or [json({ error }, { status })]. *)
Inductive ActionResponse : Type :=
| Authenticated (status : Z) (result : AuthenticationResult)
| Refused (status : Z) (error : string).

Definition response_status (r : ActionResponse) : Z :=
  match r with
  | Authenticated status _ => status
  | Refused status _ => status
  end.

(** [method] is [request.method] and [body] the outcome of
    [request.json()]. *)
Definition action `{Platform} `{Zod} (method : string) (body : outcome json)
  : Eff ActionResponse :=
  if negb (String.eqb method "POST") then ret (Refused 405 "Method not allowed")
  else
    try_catch
      (b <- lift body ;;
       config <- lift (ConfigSchema.validateConfig b) ;;
       authResult <- GitHubAppAuth.getAuthenticationToken config ;;
       ret (Authenticated 200 authResult))
      (fun error =>
         ret (Refused 400
                (match error with
                 | Throwable _ message => message
                 | NonError => "Invalid request"
                 end))).

End AppAuthRoute.

(* ===================================================================== *)
(** ** [src/BaseChat.tsx]: the validator of the import form *)
(* ===================================================================== *)

Module BaseChat.

(** What follows [lit] at the start of [s], if [s] starts with it. *)
Definition after (lit s : string) : option string :=
  RegExp.after_literal (fun c => c) lit s.

(** An optional literal: [(?:lit)?]. *)
Definition after_optional (lit s : string) : string :=
  match after lit s with
  | Some rest => rest
  | None => s
  end.

(** [[\w.-]+\/[\w.-]+$] *)
Definition two_tokens (s : string) : bool :=
  let first := RegExp.take_while RegExp.word_dot_hyphen s in
  match RegExp.drop_while RegExp.word_dot_hyphen s with
  | String "/" second =>
      Js.truthy first && Js.truthy second && RegExp.all_in RegExp.word_dot_hyphen second
  | _ => false
  end.

(** [/^[\w.-]+\/[\w.-]+$/.test(s)] *)
Definition shorthandPattern (s : string) : bool := two_tokens s.

(** [/^https?:\/\/(?:www\.)?github\.com\/[\w.-]+\/[\w.-]+$/.test(s)] *)
Definition fullUrlPattern (s : string) : bool :=
  match after "http" s with
  | Some rest =>
      match after "://" (after_optional "s" rest) with
      | Some rest =>
          match after "github.com/" (after_optional "www." rest) with
          | Some rest => two_tokens rest
          | None => false
          end
      | None => false
      end
  | None => false
  end.

(** [validateGitHubUrl], lines 81-88. *)
Definition validateGitHubUrl (url : string) : bool :=
  fullUrlPattern url || shorthandPattern url.

End BaseChat.


(** The forms that the validator of the import form is meant to accept:
    [owner/repo] alone or after one of these. *)
Definition github_prefixes : list string :=
  [ "http://github.com/"; "https://github.com/";
    "http://www.github.com/"; "https://www.github.com/" ].
(* ===================================================================== *)
(** ** Strings and patterns *)
(* ===================================================================== *)

Lemma truthy_true (s : string) : Js.truthy s = true <-> s <> EmptyString.
Proof.
  unfold Js.truthy. rewrite negb_true_iff. apply String.eqb_neq.
Qed.

Lemma append_assoc (a b c : string) : (a ++ b) ++ c = a ++ (b ++ c).
Proof.
  induction a; simpl; congruence.
Qed.

Lemma prefix_append (p b : string) : String.prefix p (p ++ b) = true.
Proof.
  induction p as [|c p IH]; simpl.
  - now destruct b.
  - destruct (ascii_dec c c); [exact IH|congruence].
Qed.

Lemma prefix_inv (p s : string) :
  String.prefix p s = true -> exists b, s = p ++ b.
Proof.
  revert s. induction p as [|c p IH]; intros s Hp.
  - now exists s.
  - destruct s as [|d s]; simpl in Hp; [discriminate|].
    destruct (ascii_dec c d) as [->|]; [|discriminate].
    destruct (IH _ Hp) as [b ->]. now exists b.
Qed.

Lemma includes_unfold (s p : string) :
  Js.includes s p =
  if String.prefix p s then true
  else match s with
       | EmptyString => false
       | String _ s' => Js.includes s' p
       end.
Proof. now destruct s. Qed.

Lemma includes_contains (s p : string) :
  Js.includes s p = true <-> contains s p.
Proof.
  split.
  - induction s as [|c s IH]; rewrite includes_unfold;
      destruct (String.prefix p _) eqn:Hp; intros Hi.
    + destruct (prefix_inv _ _ Hp) as [b Hb]. now exists EmptyString, b.
    + discriminate.
    + destruct (prefix_inv _ _ Hp) as [b Hb]. now exists EmptyString, b.
    + destruct (IH Hi) as (a & b & ->). now exists (String c a), b.
  - intros (a & b & ->). induction a as [|c a IH].
    + rewrite includes_unfold. simpl. now rewrite prefix_append.
    + rewrite includes_unfold. destruct (String.prefix p _); [reflexivity|exact IH].
Qed.

Lemma take_drop_while (cls : ascii -> bool) (s : string) :
  RegExp.take_while cls s ++ RegExp.drop_while cls s = s.
Proof.
  induction s as [|c s IH]; simpl; [reflexivity|].
  destruct (cls c); simpl; congruence.
Qed.

Lemma all_in_take_while (cls : ascii -> bool) (s : string) :
  RegExp.all_in cls (RegExp.take_while cls s) = true.
Proof.
  induction s as [|c s IH]; simpl; [reflexivity|].
  destruct (cls c) eqn:E; simpl; [now rewrite E|reflexivity].
Qed.


Lemma take_while_all (cls : ascii -> bool) (s : string) :
  RegExp.all_in cls s = true -> RegExp.take_while cls s = s.
Proof.
  induction s as [|c s IH]; simpl; [reflexivity|].
  intros [Hc Hs]%andb_true_iff. rewrite Hc. f_equal. now apply IH.
Qed.

Lemma take_while_stop (cls : ascii -> bool) (a : string) (c : ascii) (b : string) :
  RegExp.all_in cls a = true -> cls c = false ->
  RegExp.take_while cls (a ++ String c b) = a.
Proof.
  intros Ha Hc. induction a as [|d a IH]; simpl in *.
  - now rewrite Hc.
  - apply andb_true_iff in Ha as [Hd Ha]. rewrite Hd. f_equal. now apply IH.
Qed.

Lemma drop_while_stop (cls : ascii -> bool) (a : string) (c : ascii) (b : string) :
  RegExp.all_in cls a = true -> cls c = false ->
  RegExp.drop_while cls (a ++ String c b) = String c b.
Proof.
  intros Ha Hc. induction a as [|d a IH]; simpl in *.
  - now rewrite Hc.
  - apply andb_true_iff in Ha as [Hd Ha]. rewrite Hd. now apply IH.
Qed.

(** The test of the shorthand pattern accepts exactly the strings
    [owner/repo] with an owner over [[\w-]] and a repo over [[\w.-]]. *)
Lemma shorthand_test_spec (s : string) :
  RegExp.shorthand_test s = true <-> code_shorthand s.
Proof.
  unfold RegExp.shorthand_test, code_shorthand, token_of. split.
  - destruct (RegExp.drop_while RegExp.word_hyphen s) as [|c rest] eqn:Hd; [discriminate|].
    destruct (Ascii.eqb_spec c "/") as [->|Hc].
    + intros [[Ho Hr]%andb_true_iff Hall]%andb_true_iff.
      exists (RegExp.take_while RegExp.word_hyphen s), rest.
      rewrite <- (take_drop_while RegExp.word_hyphen s) at 1. rewrite Hd.
      repeat split; try (now apply truthy_true); auto using all_in_take_while.
    + destruct c as [[] [] [] [] [] [] [] []]; try discriminate; now contradiction Hc.
  - intros (a & b & -> & [Ha Hall_a] & [Hb Hall_b]). simpl.
    rewrite take_while_stop, drop_while_stop by (assumption || reflexivity).
    apply truthy_true in Ha, Hb. now rewrite Ha, Hb, Hall_b.
Qed.

(** A string over a class that excludes the colon has no ["://"]. *)
Lemma all_in_no_separator (cls : ascii -> bool) (s : string) :
  cls ":"%char = false -> RegExp.all_in cls s = true -> Js.includes s "://" = false.
Proof.
  intros Hcolon. induction s as [|c s IH]; intros Hall; [reflexivity|].
  simpl in Hall. apply andb_true_iff in Hall as [Hc Hs].
  rewrite includes_unfold.
  destruct (String.prefix "://" (String c s)) eqn:Hp.
  - apply prefix_inv in Hp as [b Hb]. simpl in Hb. injection Hb as -> _. congruence.
  - now apply IH.
Qed.

Lemma includes_skip (cls : ascii -> bool) (a rest p : string) :
  RegExp.all_in cls a = true ->
  (forall d q, p = String d q -> cls d = false) ->
  p <> EmptyString ->
  Js.includes (a ++ rest) p = Js.includes rest p.
Proof.
  intros Ha Hp Hne. induction a as [|d a IH]; [reflexivity|].
  simpl in Ha. apply andb_true_iff in Ha as [Hd Ha].
  simpl append. rewrite includes_unfold.
  destruct p as [|e q]; [congruence|].
  specialize (Hp e q eq_refl). simpl.
  destruct (ascii_dec e d) as [->|_]; [congruence|]. now apply IH.
Qed.

(** A string accepted as a shorthand never contains ["://"]. *)
Lemma code_shorthand_no_separator (s : string) :
  code_shorthand s -> Js.includes s "://" = false.
Proof.
  intros (a & b & -> & [_ Ha] & [_ Hb]).
  rewrite (includes_skip RegExp.word_hyphen a ("/" ++ b) "://" Ha).
  - rewrite includes_unfold. simpl.
    now apply (all_in_no_separator RegExp.word_dot_hyphen).
  - now intros d q [= <- _].
  - discriminate.
Qed.

(* ===================================================================== *)
(** ** The shape of [parse]: hard stops and absorbed failures *)
(* ===================================================================== *)

(** Case analysis on the innermost scrutinee of the goal. *)
Ltac case_scrutinee :=
  match goal with
  | |- context [match ?x with _ => _ end] =>
      lazymatch x with
      | context [match _ with _ => _ end] => fail
      | _ => destruct x eqn:?
      end
  end.

Lemma bind_returned {A B} (t : list event) (a : A) (k : A -> Eff B) :
  bind (t, Returned a) k = ((t ++ fst (k a))%list, snd (k a)).
Proof.
  unfold bind. now destruct (k a).
Qed.

(** The handler of the enclosing [try] never rethrows: it writes at most
    one line to the console and yields [false]. *)
Lemma recover_spec (e : exn) :
  GitRepoParser.recover e =
  (match e with
   | Throwable _ message => [console_report message]
   | NonError => []
   end, Returned false).
Proof.
  destruct e as [n m|]; [|reflexivity].
  unfold GitRepoParser.recover, console_report.
  now destruct (Js.includes m "rate limit exceeded").
Qed.

Section Shape.
Context {P : Platform}.

Lemma visibility_returns (r : GitRepoParser.Reference) (options : ParseOptions) :
  exists private, snd (GitRepoParser.visibility r options) = Returned private.
Proof.
  unfold GitRepoParser.visibility. destruct (eqb_Provider _ _); [|now exists false].
  destruct (bind _ _) as [t [b|e]]; simpl.
  - now exists b.
  - rewrite recover_spec. now exists false.
Qed.

Lemma parse_normalized (url : string) (options : ParseOptions)
      (r : GitRepoParser.Reference) :
  GitRepoParser.normalize url = Returned r ->
  exists private,
    snd (GitRepoParser.visibility r options) = Returned private /\
    GitRepoParser.parse url options
    = (fst (GitRepoParser.visibility r options), Returned (result_of r private)).
Proof.
  intros Hn. destruct (visibility_returns r options) as [b Hb]. exists b.
  split; [exact Hb|].
  unfold GitRepoParser.parse. rewrite Hn. unfold lift. rewrite bind_returned.
  destruct (GitRepoParser.visibility r options) as [t o].
  simpl in Hb. subst o. simpl. now rewrite app_nil_r.
Qed.

Lemma parse_not_normalized (url : string) (options : ParseOptions) (e : exn) :
  GitRepoParser.normalize url = Threw e ->
  GitRepoParser.parse url options = ([], Threw e).
Proof.
  intros Hn. unfold GitRepoParser.parse. now rewrite Hn.
Qed.

End Shape.

(* ===================================================================== *)
(** ** Validation and the invalid-format failure *)
(* ===================================================================== *)

Section Validation.
Context {P : Platform}.

Lemma gitUrlSchema_spec (url : string) :
  gitUrlSchema url = true <-> absolute_url url \/ code_shorthand url.
Proof.
  unfold gitUrlSchema, absolute_url. split.
  - destruct (Js.includes url "://") eqn:Hi.
    + destruct (new_URL url) eqn:Hu; [|discriminate]. intros _. left.
      split; [now apply includes_contains | congruence].
    + intros Ht. right. now apply shorthand_test_spec.
  - intros [[Hc Hu] | Hs].
    + apply includes_contains in Hc. rewrite Hc.
      destruct (new_URL url); [reflexivity | congruence].
    + rewrite (code_shorthand_no_separator url Hs). now apply shorthand_test_spec.
Qed.

(** The only way [normalize] throws the schema error is the schema. *)
Lemma normalize_invalid_format (url : string) :
  GitRepoParser.normalize url = Threw GitRepoParser.invalid_format
  <-> gitUrlSchema url = false.
Proof.
  unfold GitRepoParser.normalize. destruct (gitUrlSchema url); simpl.
  - split; [|discriminate].
    repeat case_scrutinee; discriminate.
  - tauto.
Qed.

(** C5, amended: normalization fails with the invalid-format error exactly
    when the input is neither an absolute URL (it contains ["://"] and the
    platform parses it) nor a shorthand [owner/repo] whose owner consists
    of word characters and hyphens and whose repo consists of word
    characters, dots and hyphens; [parse] then fails with the same error
    and does nothing else. *)
Theorem invalid_format_exactly_when (url : string) (options : ParseOptions) :
  (GitRepoParser.normalize url = Threw GitRepoParser.invalid_format
   <-> ~ (absolute_url url \/ code_shorthand url))
  /\ (GitRepoParser.parse url options = ([], Threw GitRepoParser.invalid_format)
      <-> ~ (absolute_url url \/ code_shorthand url)).
Proof.
  assert (Hn : GitRepoParser.normalize url = Threw GitRepoParser.invalid_format
               <-> ~ (absolute_url url \/ code_shorthand url)).
  { rewrite normalize_invalid_format, <- gitUrlSchema_spec.
    destruct (gitUrlSchema url); split; congruence. }
  split; [exact Hn|]. rewrite <- Hn.
  destruct (GitRepoParser.normalize url) as [r|e] eqn:Hr.
  - destruct (parse_normalized url options r Hr) as (b & _ & ->). split; discriminate.
  - rewrite (parse_not_normalized url options e Hr). split; congruence.
Qed.

End Validation.

(** C5, as stated, fails: [user.name/repo] is a shorthand in the sense of
    the claim (two tokens of word characters, dots and hyphens) and is
    rejected with the invalid-format error. *)
Lemma dotted_owner_is_rejected :
  spec_shorthand "user.name/repo"
  /\ @GitRepoParser.normalize Model.web "user.name/repo"
     = Threw (@GitRepoParser.invalid_format Model.web)
  /\ @GitRepoParser.parse Model.web "user.name/repo" no_options
     = ([], Threw (@GitRepoParser.invalid_format Model.web)).
Proof.
  split; [|split; reflexivity].
  exists "user.name", "repo". repeat split; discriminate || reflexivity.
Qed.

(* ===================================================================== *)
(** ** Credentials: what happens to the errors of lines 119-143 *)
(* ===================================================================== *)

Section Credentials.
Context {P : Platform}.

(** C1 on the code: when the provider is github and the bearer token has
    neither prefix, the error of line 138 is thrown inside the enclosing
    [try], so it reaches the handler of line 185 and not the caller.
    [parse] returns the whole result with [isPrivate = false]; the token
    error is a console line; no request is made. *)
Theorem invalid_token_is_absorbed (url tok : string) (options : ParseOptions)
      (r : GitRepoParser.Reference) :
  GitRepoParser.normalize url = Returned r ->
  GitRepoParser.ref_provider r = github ->
  githubApp options = None ->
  authToken options = Some tok ->
  tok <> EmptyString ->
  Js.startsWith tok "ghp_" = false ->
  Js.startsWith tok "github_pat_" = false ->
  GitRepoParser.parse url options
  = ([EvConsoleError "Failed to fetch repository metadata:"
                     GitRepoParser.invalid_token_message],
     Returned (result_of r false)).
Proof.
  intros Hn Hp Happ Htok Hne H1 H2.
  destruct (parse_normalized url options r Hn) as (b & Hb & ->).
  unfold GitRepoParser.visibility, GitRepoParser.authorize in *.
  rewrite Hp, Happ, Htok in *. apply truthy_true in Hne.
  rewrite Hne, H1, H2 in *. simpl in *. now injection Hb as <-.
Qed.

(** C2 on the code: when the provider is github and the App configuration
    has no installation id, [getAuthenticationToken] does return the
    pending outcome with the installation URL, and the request is never
    made; but the installation-required error raised from it is caught by
    the handler of line 185.  Whatever [createAppAuth] and the token
    exchange answer, [parse] returns an ordinary result with
    [isPrivate = false] and the error is a console line; the exchange is
    made when [createAppAuth] returned, and not otherwise. *)
Theorem pending_installation_is_absorbed (url : string) (options : ParseOptions)
      (config : GitHubAppConfig) (r : GitRepoParser.Reference) :
  GitRepoParser.normalize url = Returned r ->
  GitRepoParser.ref_provider r = github ->
  githubApp options = Some config ->
  Js.truthy_opt (installationId config) = false ->
  exists message,
    GitRepoParser.parse url options
    = ((match createAppAuth config with
        | Returned _ => [EvAppAuth app]
        | Threw _ => []
        end ++ [console_report message])%list,
       Returned (result_of r false))
    /\ (forall auth a,
        createAppAuth config = Returned auth -> auth app = Returned a ->
        GitHubAppAuth.getAuthenticationToken config
        = ([EvAppAuth app],
           Returned {| token := auth_token a;
                       type := app;
                       expiresAt := auth_expiresAt a;
                       installationUrl := Some GitHubAppAuth.GITHUB_APP_INSTALLATION_URL |})
        /\ GitHubAppAuth.GITHUB_APP_INSTALLATION_URL <> EmptyString
        /\ message = GitRepoParser.installation_required).
Proof.
  intros Hn Hp Happ Hid.
  destruct (parse_normalized url options r Hn) as (b & Hb & ->).
  unfold GitRepoParser.visibility, GitRepoParser.authorize,
    GitHubAppAuth.getAuthenticationToken, GitHubAppAuth.await_auth in *.
  rewrite Hp, Happ, Hid in *. simpl in *.
  destruct (createAppAuth config) as [auth|[n m|]]; simpl in *.
  - destruct (auth app) as [a|[n m|]] eqn:Ha; simpl in *.
    + injection Hb as <-. exists GitRepoParser.installation_required.
      split; [reflexivity|]. intros auth' a' [= <-] Ha'.
      rewrite Ha in Ha'. injection Ha' as <-. repeat split. discriminate.
    + rewrite recover_spec in *. simpl in *. injection Hb as <-.
      eexists. split; [reflexivity|]. intros auth' a' [= <-] Ha'. congruence.
    + injection Hb as <-.
      exists "GitHub App authentication failed: Unknown error".
      split; [reflexivity|]. intros auth' a' [= <-] Ha'. congruence.
  - rewrite recover_spec in *. simpl in *. injection Hb as <-.
    eexists. split; [reflexivity | discriminate].
  - injection Hb as <-.
    exists "GitHub App authentication failed: Unknown error".
    split; [reflexivity | discriminate].
Qed.

End Credentials.

(** C1 at [https://github.com/user/repo] with the bearer token
    [invalid_token], on a platform where the repository is private:
    nothing is thrown and nothing is requested. *)
Lemma invalid_token_does_not_abort :
  @GitRepoParser.parse (Model.platform (Model.respond Model.private_repo) Model.app_token)
     "https://github.com/user/repo" (mkOptions (Some "invalid_token") None)
  = ([EvConsoleError "Failed to fetch repository metadata:"
                     GitRepoParser.invalid_token_message],
     Returned
       {| metadata := mkMetadata "user" "repo" None None github false;
          normalizedUrl := "https://github.com/user/repo";
          originalUrl := "https://github.com/user/repo" |}).
Proof.
  apply (@invalid_token_is_absorbed
           (Model.platform (Model.respond Model.private_repo) Model.app_token)
           "https://github.com/user/repo" "invalid_token"
           (mkOptions (Some "invalid_token") None)
           (GitRepoParser.mkReference "https://github.com/user/repo" "github.com"
              "user" "repo" None None github "https://github.com/user/repo"));
    try reflexivity.
  discriminate.
Defined.

(** C2 at [https://github.com/user/repo] with an App configuration that
    has no installation id: the caller receives an ordinary result. *)
Lemma pending_installation_does_not_propagate :
  exists message,
    @GitRepoParser.parse (Model.platform (Model.respond Model.private_repo) Model.app_token)
       "https://github.com/user/repo"
       (mkOptions None (Some (mkAppConfig "12345" "private-key" "client-id" "client-secret" None)))
    = ([EvAppAuth app; console_report message],
       Returned
         {| metadata := mkMetadata "user" "repo" None None github false;
            normalizedUrl := "https://github.com/user/repo";
            originalUrl := "https://github.com/user/repo" |})
    /\ (forall auth a,
        Model.app_token (mkAppConfig "12345" "private-key" "client-id" "client-secret" None)
        = Returned auth ->
        auth app = Returned a ->
        @GitHubAppAuth.getAuthenticationToken
           (Model.platform (Model.respond Model.private_repo) Model.app_token)
           (mkAppConfig "12345" "private-key" "client-id" "client-secret" None)
        = ([EvAppAuth app],
           Returned {| token := auth_token a;
                       type := app;
                       expiresAt := auth_expiresAt a;
                       installationUrl := Some GitHubAppAuth.GITHUB_APP_INSTALLATION_URL |})
        /\ GitHubAppAuth.GITHUB_APP_INSTALLATION_URL <> EmptyString
        /\ message = GitRepoParser.installation_required).
Proof.
  exact (@pending_installation_is_absorbed
           (Model.platform (Model.respond Model.private_repo) Model.app_token)
           "https://github.com/user/repo"
           (mkOptions None (Some (mkAppConfig "12345" "private-key" "client-id" "client-secret" None)))
           (mkAppConfig "12345" "private-key" "client-id" "client-secret" None)
           (GitRepoParser.mkReference "https://github.com/user/repo" "github.com"
              "user" "repo" None None github "https://github.com/user/repo")
           eq_refl eq_refl eq_refl eq_refl).
Defined.

(* ===================================================================== *)
(** ** The metadata request: classification and fallback *)
(* ===================================================================== *)

Lemma eqb_opt_string_true (o : option string) (s : string) :
  eqb_opt_string o s = true <-> o = Some s.
Proof.
  destruct o as [x|]; simpl; [|split; discriminate].
  rewrite String.eqb_eq. split; congruence.
Qed.

Section Metadata.
Context {P : Platform}.

(** A response that is not [ok] always ends in a thrown [Error] object,
    without any further event. *)
Lemma rejectResponse_throws (owner cleanRepo : string) (response : Response) :
  exists name message,
    GitRepoParser.rejectResponse owner cleanRepo response
    = throw (Throwable name message).
Proof.
  unfold GitRepoParser.rejectResponse, GitRepoParser.errorInfo, throw, ret.
  destruct (_ && _); simpl;
    destruct (GitRepoParser.reset_time _); simpl;
    destruct (status response =? 404)%Z; simpl;
    try destruct (_ && _); simpl; eauto.
Qed.

Lemma rejectResponse_classified (owner cleanRepo : string) (response : Response)
      (iso : string) :
  GitRepoParser.reset_time (x_ratelimit_reset response) = Some iso ->
  GitRepoParser.rejectResponse owner cleanRepo response
  = throw (Throwable Error (failure_message (classify owner cleanRepo response iso))).
Proof.
  intros Hd.
  unfold GitRepoParser.rejectResponse, GitRepoParser.errorInfo, classify.
  rewrite Hd. destruct (Js.truthy_opt _ && Js.truthy_opt _); simpl;
    destruct (status response =? 404)%Z; simpl; try reflexivity;
    destruct (_ && _); reflexivity.
Qed.

(** C3: when the reference is normalized, the provider is github, the
    credentials (if any) were accepted and the metadata response is not
    [ok] (404, 403 with no quota left, or any other status), [parse] does
    not throw.  It returns the whole result with [isPrivate = false]; the
    error thrown for the response is written to the console
    ([console.warn] for a rate-limit message, [console.error] otherwise)
    and to nothing else. *)
Theorem metadata_failure_falls_back
        (url : string) (options : ParseOptions) (r : GitRepoParser.Reference)
        (t : list event) (headers : list (string * string)) (response : Response) :
  GitRepoParser.normalize url = Returned r ->
  GitRepoParser.ref_provider r = github ->
  GitRepoParser.authorize options = (t, Returned headers) ->
  fetch (mkRequest (GitRepoParser.api_url (GitRepoParser.ref_owner r)
                                          (GitRepoParser.ref_cleanRepo r)) headers)
  = Returned response ->
  ok response = false ->
  exists name message,
    GitRepoParser.rejectResponse (GitRepoParser.ref_owner r)
                                 (GitRepoParser.ref_cleanRepo r) response
    = throw (Throwable name message)
    /\ GitRepoParser.parse url options
       = ((t ++ [EvFetch (mkRequest
                            (GitRepoParser.api_url (GitRepoParser.ref_owner r)
                                                   (GitRepoParser.ref_cleanRepo r))
                            headers);
                 console_report message])%list,
          Returned
            {| metadata :=
                 {| owner := GitRepoParser.ref_owner r;
                    repo := GitRepoParser.ref_cleanRepo r;
                    branch := GitRepoParser.ref_branch r;
                    commit := GitRepoParser.ref_commit r;
                    provider := GitRepoParser.ref_provider r;
                    isPrivate := false |};
               normalizedUrl := GitRepoParser.ref_normalizedUrl r;
               originalUrl := GitRepoParser.ref_url r |}).
Proof.
  intros Hn Hp Ha Hf Hok.
  destruct (rejectResponse_throws (GitRepoParser.ref_owner r)
              (GitRepoParser.ref_cleanRepo r) response) as (name & message & Hrej).
  exists name, message. split; [exact Hrej|].
  destruct (parse_normalized url options r Hn) as (b & Hb & ->).
  unfold GitRepoParser.visibility, GitRepoParser.fetchMetadata in *.
  rewrite Hp, Ha in *. simpl in *. unfold lift in *.
  rewrite Hf, Hok in *. simpl in *. rewrite Hrej in *. simpl in *.
  rewrite recover_spec in *. simpl in *. injection Hb as <-.
  rewrite <- app_assoc. unfold result_of. now rewrite Hp.
Qed.

End Metadata.

(** C3 at a 404 response for [https://github.com/user/nonexistent]. *)
Lemma metadata_failure_falls_back_404 :
  exists name message,
    GitRepoParser.rejectResponse
       "user" "nonexistent" Model.not_found
    = throw (Throwable name message)
    /\ @GitRepoParser.parse (Model.platform (Model.respond Model.not_found) Model.app_token)
         "https://github.com/user/nonexistent" no_options
       = ([EvFetch (mkRequest "https://api.github.com/repos/user/nonexistent"
                              GitRepoParser.accept_header);
           console_report message],
          Returned
            {| metadata := mkMetadata "user" "nonexistent" None None github false;
               normalizedUrl := "https://github.com/user/nonexistent";
               originalUrl := "https://github.com/user/nonexistent" |}).
Proof.
  exact (@metadata_failure_falls_back
           (Model.platform (Model.respond Model.not_found) Model.app_token)
           "https://github.com/user/nonexistent" no_options
           (GitRepoParser.mkReference "https://github.com/user/nonexistent" "github.com"
              "user" "nonexistent" None None github "https://github.com/user/nonexistent")
           [] GitRepoParser.accept_header Model.not_found
           eq_refl eq_refl eq_refl eq_refl eq_refl).
Defined.

(* ===================================================================== *)
(** ** What a normalized reference holds *)
(* ===================================================================== *)

Section Normalized.
Context {P : Platform}.

(** The local variables of [parse] at line 107, read back from a
    successful normalization. *)
Lemma normalize_inv (url : string) (r : GitRepoParser.Reference) :
  GitRepoParser.normalize url = Returned r ->
  exists u o rp,
    gitUrlSchema url = true
    /\ new_URL (GitRepoParser.expand url) = Some u
    /\ nth_error (Js.filter_Boolean (Js.split "/" (pathname u))) 0 = Some o
    /\ nth_error (Js.filter_Boolean (Js.split "/" (pathname u))) 1 = Some rp
    /\ o <> EmptyString
    /\ Js.replace_git_suffix rp <> EmptyString
    /\ r = {| GitRepoParser.ref_url := GitRepoParser.expand url;
              GitRepoParser.ref_hostname := hostname u;
              GitRepoParser.ref_owner := o;
              GitRepoParser.ref_cleanRepo := Js.replace_git_suffix rp;
              GitRepoParser.ref_branch := GitRepoParser.BRANCH_PATTERN (GitRepoParser.expand url);
              GitRepoParser.ref_commit := GitRepoParser.COMMIT_PATTERN (GitRepoParser.expand url);
              GitRepoParser.ref_provider := GitRepoParser.detect_provider (hostname u);
              GitRepoParser.ref_normalizedUrl :=
                "https://" ++ hostname u ++ "/" ++ o ++ "/" ++ Js.replace_git_suffix rp |}.
Proof.
  unfold GitRepoParser.normalize.
  destruct (gitUrlSchema url); cbn [negb]; [|discriminate].
  destruct (new_URL (GitRepoParser.expand url)) as [u|]; [|discriminate].
  cbv zeta.
  destruct (nth_error (Js.filter_Boolean (Js.split "/" (pathname u))) 0)
    as [o|] eqn:Ho; [|discriminate].
  destruct (nth_error (Js.filter_Boolean (Js.split "/" (pathname u))) 1)
    as [rp|] eqn:Hrp; cbn [option_map]; [|discriminate].
  destruct (Js.truthy o) eqn:To; cbn [negb orb]; [|discriminate].
  destruct (Js.truthy (Js.replace_git_suffix rp)) eqn:Tr; cbn [negb]; [|discriminate].
  intros [= <-]. exists u, o, rp.
  apply truthy_true in To, Tr. repeat split; auto.
Qed.

(** Conversely, the reference is produced as soon as the schema accepts
    the input, the platform parses the expanded URL and the path has an
    owner and a repo. *)
Lemma normalize_intro (url : string) (u : URLObj) (o rp : string) (rest : list string) :
  gitUrlSchema url = true ->
  new_URL (GitRepoParser.expand url) = Some u ->
  Js.filter_Boolean (Js.split "/" (pathname u)) = o :: rp :: rest ->
  Js.replace_git_suffix rp <> EmptyString ->
  GitRepoParser.normalize url
  = Returned
      {| GitRepoParser.ref_url := GitRepoParser.expand url;
         GitRepoParser.ref_hostname := hostname u;
         GitRepoParser.ref_owner := o;
         GitRepoParser.ref_cleanRepo := Js.replace_git_suffix rp;
         GitRepoParser.ref_branch := GitRepoParser.BRANCH_PATTERN (GitRepoParser.expand url);
         GitRepoParser.ref_commit := GitRepoParser.COMMIT_PATTERN (GitRepoParser.expand url);
         GitRepoParser.ref_provider := GitRepoParser.detect_provider (hostname u);
         GitRepoParser.ref_normalizedUrl :=
           "https://" ++ hostname u ++ "/" ++ o ++ "/" ++ Js.replace_git_suffix rp |}.
Proof.
  intros Hs Hu Hseg Hr. unfold GitRepoParser.normalize.
  rewrite Hs. simpl. rewrite Hu, Hseg. simpl.
  assert (Ho : Js.truthy o = true).
  { assert (Hin : In o (Js.filter_Boolean (Js.split "/" (pathname u))))
      by (rewrite Hseg; now left).
    unfold Js.filter_Boolean in Hin. now apply filter_In in Hin. }
  apply truthy_true in Hr. now rewrite Ho, Hr.
Qed.

End Normalized.

Lemma detect_provider_first_match (host : string) :
  GitRepoParser.detect_provider host = first_match host.
Proof.
  unfold GitRepoParser.detect_provider, first_match, RegExp.literal_test. simpl.
  repeat case_scrutinee; reflexivity.
Qed.

(** The first-match cascade, clause by clause. *)
Lemma first_match_cases (host : string) :
  (contains host "github.com" -> first_match host = github)
  /\ (~ contains host "github.com" -> contains host "gitlab.com" ->
      first_match host = gitlab)
  /\ (~ contains host "github.com" -> ~ contains host "gitlab.com" ->
      contains host "bitbucket.org" -> first_match host = bitbucket)
  /\ (~ contains host "github.com" -> ~ contains host "gitlab.com" ->
      ~ contains host "bitbucket.org" -> first_match host = github).
Proof.
  unfold first_match.
  destruct (Js.includes host "github.com") eqn:H1;
    destruct (Js.includes host "gitlab.com") eqn:H2;
    destruct (Js.includes host "bitbucket.org") eqn:H3;
    repeat match goal with
           | H : Js.includes _ _ = true |- _ => apply includes_contains in H
           | H : Js.includes _ _ = false |- _ =>
               apply not_true_iff_false in H; rewrite includes_contains in H
           end;
    repeat split; intros; try reflexivity; tauto.
Qed.

(* ===================================================================== *)
(** ** Provider detection *)
(* ===================================================================== *)

Lemma try_catch_trace {A} (m : Eff A) (h : exn -> Eff A) :
  exists rest, fst (try_catch m h) = (fst m ++ rest)%list.
Proof.
  destruct m as [t [a|e]]; simpl.
  - exists []. now rewrite app_nil_r.
  - destruct (h e) as [t' o]. now exists t'.
Qed.

Section Providers.
Context {P : Platform}.

Lemma fetchMetadata_trace (owner cleanRepo : string) (headers : list (string * string)) :
  exists rest,
    fst (GitRepoParser.fetchMetadata owner cleanRepo headers)
    = EvFetch (mkRequest (GitRepoParser.api_url owner cleanRepo) headers) :: rest.
Proof.
  unfold GitRepoParser.fetchMetadata, emit. rewrite bind_returned. simpl. eauto.
Qed.

(** C8: for an input that passes the schema and whose URL the platform
    parses, the provider of the reference is the first entry of the table
    github, gitlab, bitbucket whose pattern occurs in the host name, and
    github when none occurs; no error comes from the detection (the
    reference is produced whenever the path has an owner and a repo).  The
    hosts gitlab.com and bitbucket.org give gitlab and bitbucket. *)
Theorem provider_by_first_matching_pattern (url : string) (u : URLObj) :
  gitUrlSchema url = true ->
  new_URL (GitRepoParser.expand url) = Some u ->
  map fst GitRepoParser.PROVIDER_PATTERNS = [github; gitlab; bitbucket]
  /\ (forall r, GitRepoParser.normalize url = Returned r ->
      GitRepoParser.ref_provider r = first_match (hostname u))
  /\ (forall o rp rest,
      Js.filter_Boolean (Js.split "/" (pathname u)) = o :: rp :: rest ->
      Js.replace_git_suffix rp <> EmptyString ->
      exists r, GitRepoParser.normalize url = Returned r
                /\ GitRepoParser.ref_provider r = first_match (hostname u)
                /\ GitRepoParser.ref_owner r = o
                /\ GitRepoParser.ref_cleanRepo r = Js.replace_git_suffix rp)
  /\ (contains (hostname u) "github.com" -> first_match (hostname u) = github)
  /\ (~ contains (hostname u) "github.com" -> contains (hostname u) "gitlab.com" ->
      first_match (hostname u) = gitlab)
  /\ (~ contains (hostname u) "github.com" -> ~ contains (hostname u) "gitlab.com" ->
      contains (hostname u) "bitbucket.org" -> first_match (hostname u) = bitbucket)
  /\ (~ contains (hostname u) "github.com" -> ~ contains (hostname u) "gitlab.com" ->
      ~ contains (hostname u) "bitbucket.org" -> first_match (hostname u) = github)
  /\ first_match "gitlab.com" = gitlab
  /\ first_match "bitbucket.org" = bitbucket.
Proof.
  intros Hs Hu. split; [reflexivity|]. split; [|split].
  - intros r Hn. destruct (normalize_inv url r Hn) as (u' & o & rp & _ & Hu' & _ & _ & _ & _ & ->).
    simpl. rewrite Hu in Hu'. injection Hu' as <-. apply detect_provider_first_match.
  - intros o rp rest Hseg Hr. eexists. split.
    + exact (normalize_intro url u o rp rest Hs Hu Hseg Hr).
    + simpl. auto using detect_provider_first_match.
  - destruct (first_match_cases (hostname u)) as (H1 & H2 & H3 & H4).
    repeat split; auto.
Qed.

(** C9: the host patterns are substring tests.  A reference whose host
    name merely contains github.com has provider github, and once the
    credentials are accepted the metadata request for its owner and repo
    is made; a host name that contains gitlab.com (and not github.com) has
    provider gitlab, one that contains bitbucket.org (and neither of the
    others) has provider bitbucket; [isValidProvider] holds exactly when
    the URL parses and its host name contains one of the three. *)
Theorem host_patterns_are_substring_tests (url : string) (r : GitRepoParser.Reference) :
  GitRepoParser.normalize url = Returned r ->
  (contains (GitRepoParser.ref_hostname r) "github.com" ->
   GitRepoParser.ref_provider r = github
   /\ forall options t headers,
       GitRepoParser.authorize options = (t, Returned headers) ->
       exists rest,
         fst (GitRepoParser.parse url options)
         = (t ++ EvFetch (mkRequest
                            (GitRepoParser.api_url (GitRepoParser.ref_owner r)
                                                   (GitRepoParser.ref_cleanRepo r))
                            headers) :: rest)%list)
  /\ (~ contains (GitRepoParser.ref_hostname r) "github.com" ->
      contains (GitRepoParser.ref_hostname r) "gitlab.com" ->
      GitRepoParser.ref_provider r = gitlab)
  /\ (~ contains (GitRepoParser.ref_hostname r) "github.com" ->
      ~ contains (GitRepoParser.ref_hostname r) "gitlab.com" ->
      contains (GitRepoParser.ref_hostname r) "bitbucket.org" ->
      GitRepoParser.ref_provider r = bitbucket)
  /\ (forall s,
      GitRepoParser.isValidProvider s = true
      <-> exists u, new_URL s = Some u
                    /\ (contains (hostname u) "github.com"
                        \/ contains (hostname u) "gitlab.com"
                        \/ contains (hostname u) "bitbucket.org")).
Proof.
  intros Hn.
  assert (Hp : GitRepoParser.ref_provider r = first_match (GitRepoParser.ref_hostname r)).
  { destruct (normalize_inv url r Hn) as (u & o & rp & _ & _ & _ & _ & _ & _ & ->).
    apply detect_provider_first_match. }
  destruct (first_match_cases (GitRepoParser.ref_hostname r)) as (H1 & H2 & H3 & _).
  rewrite <- Hp in H1, H2, H3. repeat split; auto.
  - intros options t headers Ha.
    destruct (parse_normalized url options r Hn) as (b & _ & ->). simpl.
    unfold GitRepoParser.visibility. rewrite (H1 H). simpl.
    destruct (try_catch_trace
                (bind (GitRepoParser.authorize options)
                      (fun headers =>
                         GitRepoParser.fetchMetadata (GitRepoParser.ref_owner r)
                           (GitRepoParser.ref_cleanRepo r) headers))
                GitRepoParser.recover) as [rest ->].
    rewrite Ha, bind_returned. simpl.
    destruct (fetchMetadata_trace (GitRepoParser.ref_owner r)
                (GitRepoParser.ref_cleanRepo r) headers) as [rest' ->].
    exists (rest' ++ rest)%list. now rewrite <- app_assoc.
  - unfold GitRepoParser.isValidProvider, RegExp.literal_test.
    destruct (new_URL s) as [u|]; [|discriminate]. simpl.
    rewrite orb_false_r, !orb_true_iff, !includes_contains. intros Hc.
    exists u. tauto.
  - unfold GitRepoParser.isValidProvider, RegExp.literal_test.
    intros (u & -> & Hc). simpl.
    rewrite orb_false_r, !orb_true_iff, !includes_contains. tauto.
Qed.

(** C7 on the code: line 212 returns the parameter [url], which line 76
    has replaced by the expanded URL for a shorthand input.  The returned
    [originalUrl] is the input itself only when the input contains
    ["://"]; for a shorthand it is [https://github.com/] followed by the
    input. *)
Theorem originalUrl_is_expanded_url (url : string) (options : ParseOptions)
      (result : ParsedGitUrl) :
  snd (GitRepoParser.parse url options) = Returned result ->
  originalUrl result = GitRepoParser.expand url
  /\ (contains url "://" -> originalUrl result = url)
  /\ (~ contains url "://" -> originalUrl result = "https://github.com/" ++ url).
Proof.
  intros Hr.
  assert (He : originalUrl result = GitRepoParser.expand url).
  { destruct (GitRepoParser.normalize url) as [r|e] eqn:Hn.
    - destruct (parse_normalized url options r Hn) as (b & _ & Hp).
      rewrite Hp in Hr. injection Hr as <-. simpl.
      destruct (normalize_inv url r Hn) as (u & o & rp & _ & _ & _ & _ & _ & _ & ->).
      reflexivity.
    - rewrite (parse_not_normalized url options e Hn) in Hr. discriminate. }
  split; [exact He|]. rewrite He. unfold GitRepoParser.expand.
  destruct (Js.includes url "://") eqn:Hi; simpl.
  - apply includes_contains in Hi. split; tauto.
  - apply not_true_iff_false in Hi. rewrite includes_contains in Hi. split; tauto.
Qed.

End Providers.

(** C8 at [https://example.org/user/repo]: no pattern occurs in the host
    name, the provider is github and the reference is produced. *)
Lemma unknown_host_defaults_to_github :
  exists r,
    @GitRepoParser.normalize Model.web "https://example.org/user/repo" = Returned r
    /\ GitRepoParser.ref_provider r = first_match "example.org"
    /\ GitRepoParser.ref_owner r = "user"
    /\ GitRepoParser.ref_cleanRepo r = Js.replace_git_suffix "repo".
Proof.
  apply (proj1 (proj2 (proj2
           (@provider_by_first_matching_pattern Model.web
              "https://example.org/user/repo" (mkURL "example.org" "/user/repo")
              eq_refl eq_refl)))
           "user" "repo" []); [reflexivity | vm_compute; discriminate].
Defined.

(** C9 at [https://github.com.evil.example/a/b] and at
    [https://notgithub.com/a/b]: both are classified as github and the
    request for [a/b] is made. *)
Lemma lookalike_hosts_are_github :
  (exists r rest,
      @GitRepoParser.normalize Model.web "https://github.com.evil.example/a/b" = Returned r
      /\ GitRepoParser.ref_hostname r = "github.com.evil.example"
      /\ GitRepoParser.ref_provider r = github
      /\ fst (@GitRepoParser.parse Model.web "https://github.com.evil.example/a/b" no_options)
         = EvFetch (mkRequest "https://api.github.com/repos/a/b"
                              GitRepoParser.accept_header) :: rest)
  /\ (exists r rest,
         @GitRepoParser.normalize Model.web "https://notgithub.com/a/b" = Returned r
         /\ GitRepoParser.ref_hostname r = "notgithub.com"
         /\ GitRepoParser.ref_provider r = github
         /\ fst (@GitRepoParser.parse Model.web "https://notgithub.com/a/b" no_options)
            = EvFetch (mkRequest "https://api.github.com/repos/a/b"
                                 GitRepoParser.accept_header) :: rest).
Proof.
  split.
  - destruct (proj1 (@host_patterns_are_substring_tests Model.web
                       "https://github.com.evil.example/a/b"
                       (GitRepoParser.mkReference "https://github.com.evil.example/a/b"
                          "github.com.evil.example" "a" "b" None None github
                          "https://github.com.evil.example/a/b")
                       eq_refl)
                (ex_intro _ "" (ex_intro _ ".evil.example" eq_refl))) as [Hp Hf].
    destruct (Hf no_options [] GitRepoParser.accept_header eq_refl) as [rest Hrest].
    exists (GitRepoParser.mkReference "https://github.com.evil.example/a/b"
              "github.com.evil.example" "a" "b" None None github
              "https://github.com.evil.example/a/b"), rest.
    split; [vm_compute; reflexivity|]. split; [reflexivity|].
    split; [exact Hp | exact Hrest].
  - destruct (proj1 (@host_patterns_are_substring_tests Model.web
                       "https://notgithub.com/a/b"
                       (GitRepoParser.mkReference "https://notgithub.com/a/b"
                          "notgithub.com" "a" "b" None None github
                          "https://notgithub.com/a/b")
                       eq_refl)
                (ex_intro _ "not" (ex_intro _ "" eq_refl))) as [Hp Hf].
    destruct (Hf no_options [] GitRepoParser.accept_header eq_refl) as [rest Hrest].
    exists (GitRepoParser.mkReference "https://notgithub.com/a/b"
              "notgithub.com" "a" "b" None None github
              "https://notgithub.com/a/b"), rest.
    split; [vm_compute; reflexivity|]. split; [reflexivity|].
    split; [exact Hp | exact Hrest].
Defined.

(** C7 at the shorthand [user/repo]: the returned [originalUrl] is
    [https://github.com/user/repo], not the input. *)
Lemma shorthand_originalUrl_is_not_the_input :
  exists result,
    snd (@GitRepoParser.parse Model.web "user/repo" no_options) = Returned result
    /\ originalUrl result = "https://github.com/user/repo"
    /\ originalUrl result <> "user/repo".
Proof.
  exists {| metadata := mkMetadata "user" "repo" None None github false;
            normalizedUrl := "https://github.com/user/repo";
            originalUrl := "https://github.com/user/repo" |}.
  split; [vm_compute; reflexivity|].
  destruct (@originalUrl_is_expanded_url Model.web "user/repo" no_options
              {| metadata := mkMetadata "user" "repo" None None github false;
                 normalizedUrl := "https://github.com/user/repo";
                 originalUrl := "https://github.com/user/repo" |}
              eq_refl)
    as (He & _ & _).
  split; [exact He | discriminate].
Defined.

(* ===================================================================== *)
(** ** Branch and commit: searches over the whole URL string *)
(* ===================================================================== *)

Lemma split_not_nil (sep : ascii) (s : string) : Js.split sep s <> [].
Proof.
  induction s as [|c s IH]; simpl; [discriminate|].
  destruct (Ascii.eqb c sep); [discriminate|].
  destruct (Js.split sep s); [contradiction | discriminate].
Qed.

(** A string without the separator is its own single segment. *)
Lemma split_without_separator (cls : ascii -> bool) (sep : ascii) (s : string) :
  cls sep = false -> RegExp.all_in cls s = true -> Js.split sep s = [s].
Proof.
  intros Hsep. induction s as [|c s IH]; intros Hall; [reflexivity|].
  simpl in Hall. apply andb_true_iff in Hall as [Hc Hs]. simpl.
  destruct (Ascii.eqb_spec c sep) as [->|_]; [congruence|].
  now rewrite (IH Hs).
Qed.

Lemma split_append (sep : ascii) (a b : string) :
  Js.split sep (a ++ String sep b) = (Js.split sep a ++ Js.split sep b)%list.
Proof.
  induction a as [|c a IH]; simpl.
  - now rewrite Ascii.eqb_refl.
  - destruct (Ascii.eqb c sep); [now rewrite IH|].
    rewrite IH. pose proof (split_not_nil sep a) as Hne.
    destruct (Js.split sep a); [contradiction | reflexivity].
Qed.

Lemma all_in_weaken (p q : ascii -> bool) (s : string) :
  (forall c, p c = true -> q c = true) ->
  RegExp.all_in p s = true -> RegExp.all_in q s = true.
Proof.
  intros Hpq. induction s as [|c s IH]; simpl; [reflexivity|].
  intros [Hc Hs]%andb_true_iff. now rewrite (Hpq c Hc), IH.
Qed.

Lemma hex_is_word (c : ascii) :
  RegExp.hex_ci c = true -> RegExp.word_dot_hyphen c = true.
Proof.
  destruct c as [[] [] [] [] [] [] [] []]; vm_compute; congruence.
Qed.

Lemma match_capture_unfold (fold : ascii -> ascii) (lit : string)
      (cls : ascii -> bool) (s : string) :
  RegExp.match_capture fold lit cls s =
  match match RegExp.after_literal fold lit s with
        | Some rest =>
            if Js.truthy (RegExp.take_while cls rest)
            then Some (RegExp.take_while cls rest) else None
        | None => None
        end
  with
  | Some cap => Some cap
  | None => match s with
            | EmptyString => None
            | String _ s' => RegExp.match_capture fold lit cls s'
            end
  end.
Proof. now destruct s. Qed.

(** A token that directly follows the literal is the capture. *)
Lemma match_capture_here (fold : ascii -> ascii) (lit : string)
      (cls : ascii -> bool) (s tok : string) :
  RegExp.after_literal fold lit s = Some tok ->
  token_of cls tok ->
  RegExp.match_capture fold lit cls s = Some tok.
Proof.
  intros Ha [Hne Hall]. rewrite match_capture_unfold, Ha.
  rewrite (take_while_all cls tok Hall).
  apply truthy_true in Hne. now rewrite Hne.
Qed.

(** A position where the literal does not start is passed over. *)
Lemma match_capture_skip (fold : ascii -> ascii) (lit : string)
      (cls : ascii -> bool) (c : ascii) (s : string) :
  RegExp.after_literal fold lit (String c s) = None ->
  RegExp.match_capture fold lit cls (String c s)
  = RegExp.match_capture fold lit cls s.
Proof.
  intros Ha. now rewrite match_capture_unfold, Ha.
Qed.

Lemma branch_of_tree_owner (b : string) :
  token_of RegExp.word_dot_hyphen b ->
  GitRepoParser.BRANCH_PATTERN ("https://github.com/tree/" ++ b) = Some b.
Proof.
  intros Hb. unfold GitRepoParser.BRANCH_PATTERN.
  cbn [append].
  do 18 (rewrite match_capture_skip by (vm_compute; reflexivity)).
  now apply match_capture_here.
Qed.

Lemma commit_of_commit_owner (h : string) :
  token_of RegExp.hex_ci h ->
  GitRepoParser.COMMIT_PATTERN ("https://github.com/commit/" ++ h) = Some h.
Proof.
  intros Hh. unfold GitRepoParser.COMMIT_PATTERN.
  cbn [append].
  do 18 (rewrite match_capture_skip by (vm_compute; reflexivity)).
  now apply match_capture_here.
Qed.

Lemma word_dot_hyphen_no_slash (c : ascii) :
  RegExp.word_dot_hyphen c = true -> RegExp.no_slash c = true.
Proof.
  destruct c as [[] [] [] [] [] [] [] []]; vm_compute; congruence.
Qed.

(** The segments of the path [/owner/repo]. *)
Lemma segments_of_owner_repo (o c : string) :
  token_of RegExp.no_slash o ->
  token_of RegExp.no_slash c ->
  Js.filter_Boolean (Js.split "/" ("/" ++ o ++ "/" ++ c)) = [o; c].
Proof.
  intros [Ho Hao] [Hc Hac].
  change ("/" ++ o ++ "/" ++ c) with (EmptyString ++ String "/" (o ++ String "/" c)).
  rewrite !split_append.
  rewrite (split_without_separator _ "/" o eq_refl Hao),
          (split_without_separator _ "/" c eq_refl Hac).
  apply truthy_true in Ho, Hc. simpl. now rewrite Ho, Hc.
Qed.

Lemma endsWith_needs_dot (cls : ascii -> bool) (s : string) :
  cls "."%char = false -> RegExp.all_in cls s = true -> Js.endsWith s ".git" = false.
Proof.
  intros Hdot. induction s as [|c s IH]; intros Hall; [reflexivity|].
  simpl in Hall. apply andb_true_iff in Hall as [Hc Hs].
  cbn [Js.endsWith]. destruct (String.eqb_spec (String c s) ".git") as [E|_].
  - injection E as -> _. congruence.
  - now apply IH.
Qed.

Section Patterns.
Context {P : Platform}.

Lemma shorthand_expands (o b : string) :
  token_of RegExp.word_hyphen o ->
  token_of RegExp.word_dot_hyphen b ->
  gitUrlSchema (o ++ "/" ++ b) = true
  /\ GitRepoParser.expand (o ++ "/" ++ b) = "https://github.com/" ++ o ++ "/" ++ b.
Proof.
  intros Ho Hb.
  assert (Hs : code_shorthand (o ++ "/" ++ b)) by (now exists o, b).
  split.
  - apply gitUrlSchema_spec. now right.
  - unfold GitRepoParser.expand. now rewrite (code_shorthand_no_separator _ Hs).
Qed.

(** C10: the two patterns are searched in the whole URL string, so the
    owner and repo positions can feed them.  For the shorthand [tree/b]
    the branch pattern captures [b]: the reference has owner [tree], the
    repo [b] (less a trailing [.git]) and the branch [b].  For the
    shorthand [commit/h] with [h] made of hex digits the commit pattern
    captures [h]: the reference has owner [commit], repo [h] and commit
    [h]. *)
Theorem patterns_read_owner_and_repo (b h : string) :
  (token_of RegExp.word_dot_hyphen b ->
   GitRepoParser.BRANCH_PATTERN (GitRepoParser.expand ("tree/" ++ b)) = Some b
   /\ (new_URL ("https://github.com/tree/" ++ b)
       = Some (mkURL "github.com" ("/tree/" ++ b)) ->
       Js.replace_git_suffix b <> EmptyString ->
       exists r, GitRepoParser.normalize ("tree/" ++ b) = Returned r
                 /\ GitRepoParser.ref_owner r = "tree"
                 /\ GitRepoParser.ref_cleanRepo r = Js.replace_git_suffix b
                 /\ GitRepoParser.ref_branch r = Some b))
  /\ (token_of RegExp.hex_ci h ->
      GitRepoParser.COMMIT_PATTERN (GitRepoParser.expand ("commit/" ++ h)) = Some h
      /\ (new_URL ("https://github.com/commit/" ++ h)
          = Some (mkURL "github.com" ("/commit/" ++ h)) ->
          exists r, GitRepoParser.normalize ("commit/" ++ h) = Returned r
                    /\ GitRepoParser.ref_owner r = "commit"
                    /\ GitRepoParser.ref_cleanRepo r = h
                    /\ GitRepoParser.ref_commit r = Some h)).
Proof.
  split.
  - intros Hb.
    destruct (shorthand_expands "tree" b) as [Hs He];
      [split; [discriminate|reflexivity] | exact Hb |].
    change ("tree" ++ "/" ++ b) with ("tree/" ++ b) in *.
    change ("https://github.com/" ++ "tree" ++ "/" ++ b)
      with ("https://github.com/tree/" ++ b) in *.
    rewrite He. split; [now apply branch_of_tree_owner|].
    intros Hu Hr.
    assert (Hu' : new_URL (GitRepoParser.expand ("tree/" ++ b))
                  = Some (mkURL "github.com" ("/tree/" ++ b)))
      by (rewrite He; exact Hu).
    eexists. split.
    + apply (normalize_intro ("tree/" ++ b) _ "tree" b [] Hs Hu'); [|exact Hr].
      apply (segments_of_owner_repo "tree" b); [split; [discriminate|reflexivity]|].
      destruct Hb as [Hne Hall]. split; [exact Hne|].
      exact (all_in_weaken _ _ b word_dot_hyphen_no_slash Hall).
    + cbn [GitRepoParser.ref_owner GitRepoParser.ref_cleanRepo GitRepoParser.ref_branch].
      rewrite He. repeat split. now apply branch_of_tree_owner.
  - intros Hh.
    assert (Hw : token_of RegExp.word_dot_hyphen h).
    { destruct Hh as [Hne Hall]. split; [exact Hne|].
      exact (all_in_weaken _ _ h hex_is_word Hall). }
    destruct (shorthand_expands "commit" h) as [Hs He];
      [split; [discriminate|reflexivity] | exact Hw |].
    change ("commit" ++ "/" ++ h) with ("commit/" ++ h) in *.
    change ("https://github.com/" ++ "commit" ++ "/" ++ h)
      with ("https://github.com/commit/" ++ h) in *.
    rewrite He. split; [now apply commit_of_commit_owner|].
    assert (Hgit : Js.replace_git_suffix h = h).
    { unfold Js.replace_git_suffix.
      now rewrite (endsWith_needs_dot RegExp.hex_ci h eq_refl (proj2 Hh)). }
    intros Hu.
    assert (Hu' : new_URL (GitRepoParser.expand ("commit/" ++ h))
                  = Some (mkURL "github.com" ("/commit/" ++ h)))
      by (rewrite He; exact Hu).
    eexists. split.
    + apply (normalize_intro ("commit/" ++ h) _ "commit" h [] Hs Hu').
      * apply (segments_of_owner_repo "commit" h); [split; [discriminate|reflexivity]|].
        destruct Hw as [Hne Hall]. split; [exact Hne|].
        exact (all_in_weaken _ _ h word_dot_hyphen_no_slash Hall).
      * rewrite Hgit. exact (proj1 Hh).
    + cbn [GitRepoParser.ref_owner GitRepoParser.ref_cleanRepo GitRepoParser.ref_commit].
      rewrite He, Hgit. repeat split. now apply commit_of_commit_owner.
Qed.

End Patterns.

(** C10 at the shorthands [tree/x] and [commit/abc123]. *)
Lemma tree_x_and_commit_abc123 :
  (exists r, @GitRepoParser.normalize Model.web "tree/x" = Returned r
             /\ GitRepoParser.ref_owner r = "tree"
             /\ GitRepoParser.ref_cleanRepo r = Js.replace_git_suffix "x"
             /\ GitRepoParser.ref_branch r = Some "x")
  /\ (exists r, @GitRepoParser.normalize Model.web "commit/abc123" = Returned r
                /\ GitRepoParser.ref_owner r = "commit"
                /\ GitRepoParser.ref_cleanRepo r = "abc123"
                /\ GitRepoParser.ref_commit r = Some "abc123").
Proof.
  split.
  - apply (proj1 (@patterns_read_owner_and_repo Model.web "x" "abc123")).
    + split; [discriminate | reflexivity].
    + reflexivity.
    + vm_compute. discriminate.
  - apply (proj2 (@patterns_read_owner_and_repo Model.web "x" "abc123")).
    + split; [discriminate | reflexivity].
    + reflexivity.
Defined.

(* ===================================================================== *)
(** ** Normalizing the canonical URL again *)
(* ===================================================================== *)

Lemma split_segments_without_separator (sep : ascii) (s w : string) :
  In w (Js.split sep s) ->
  RegExp.all_in (fun x => negb (Ascii.eqb x sep)) w = true.
Proof.
  revert w. induction s as [|c s IH]; intros w; simpl.
  - intros [<-|[]]. reflexivity.
  - destruct (Ascii.eqb c sep) eqn:E.
    + intros [<-|Hin]; [reflexivity | now apply IH].
    + pose proof (split_not_nil sep s) as Hne.
      destruct (Js.split sep s) as [|x xs]; [contradiction|].
      intros [<-|Hin].
      * simpl. rewrite E. simpl. apply IH. now left.
      * apply IH. now right.
Qed.

Lemma all_in_substring (cls : ascii -> bool) (s : string) (n m : nat) :
  RegExp.all_in cls s = true -> RegExp.all_in cls (substring n m s) = true.
Proof.
  revert n m. induction s as [|c s IH]; intros n m Hall.
  - now destruct n, m.
  - simpl in Hall. apply andb_true_iff in Hall as [Hc Hs].
    destruct n, m; simpl; auto. now rewrite Hc, IH.
Qed.

Lemma all_in_replace_git_suffix (cls : ascii -> bool) (s : string) :
  RegExp.all_in cls s = true -> RegExp.all_in cls (Js.replace_git_suffix s) = true.
Proof.
  intros Hall. unfold Js.replace_git_suffix, Js.dropRight.
  destruct (Js.endsWith s ".git"); [now apply all_in_substring | exact Hall].
Qed.

(** A path segment kept by [filter(Boolean)] is a slash-free token. *)
Lemma segment_is_token (path w : string) (i : nat) :
  nth_error (Js.filter_Boolean (Js.split "/" path)) i = Some w ->
  token_of RegExp.no_slash w.
Proof.
  intros Hn. apply nth_error_In in Hn. unfold Js.filter_Boolean in Hn.
  apply filter_In in Hn as [Hin Ht]. split.
  - now apply truthy_true.
  - now apply (split_segments_without_separator "/" path).
Qed.

Lemma after_literal_inv (fold : ascii -> ascii) (lit s rest : string) :
  RegExp.after_literal fold lit s = Some rest ->
  exists found, s = found ++ rest
                /\ RegExp.map_string fold found = RegExp.map_string fold lit.
Proof.
  revert s. induction lit as [|a lit IH]; intros s; simpl.
  - intros [= ->]. now exists EmptyString.
  - destruct s as [|c s]; [discriminate|].
    destruct (Ascii.eqb_spec (fold a) (fold c)) as [E|_]; [|discriminate].
    intros Ha. destruct (IH s Ha) as (found & -> & Hf).
    exists (String c found). simpl. now rewrite E, Hf.
Qed.

(** A match of [/lit.../] starts at an occurrence of the literal (up to
    the case folding). *)
Lemma match_capture_inv (fold : ascii -> ascii) (lit : string)
      (cls : ascii -> bool) (s cap : string) :
  RegExp.match_capture fold lit cls s = Some cap ->
  exists before found rest,
    s = before ++ found ++ rest
    /\ RegExp.map_string fold found = RegExp.map_string fold lit.
Proof.
  induction s as [|c s IH]; rewrite match_capture_unfold.
  - destruct (RegExp.after_literal fold lit EmptyString) as [rest|] eqn:Ha;
      [|discriminate].
    intros _. destruct (after_literal_inv fold lit _ _ Ha) as (found & Hs & Hf).
    now exists EmptyString, found, rest.
  - destruct (RegExp.after_literal fold lit (String c s)) as [rest|] eqn:Ha.
    + intros _. destruct (after_literal_inv fold lit _ _ Ha) as (found & Hs & Hf).
      now exists EmptyString, found, rest.
    + intros Hm. destruct (IH Hm) as (before & found & rest & -> & Hf).
      now exists (String c before), found, rest.
Qed.

(** The segments of the canonical URL. *)
Lemma canonical_segments (h o c : string) :
  RegExp.all_in RegExp.no_slash h = true ->
  RegExp.all_in RegExp.no_slash o = true ->
  RegExp.all_in RegExp.no_slash c = true ->
  Js.split "/" ("https://" ++ h ++ "/" ++ o ++ "/" ++ c) = ["https:"; ""; h; o; c].
Proof.
  intros Hh Ho Hc.
  change ("https://" ++ h ++ "/" ++ o ++ "/" ++ c)
    with ("https:" ++ String "/" (EmptyString ++ String "/"
            (h ++ String "/" (o ++ String "/" c)))).
  rewrite !split_append.
  now rewrite (split_without_separator _ "/" h eq_refl Hh),
              (split_without_separator _ "/" o eq_refl Ho),
              (split_without_separator _ "/" c eq_refl Hc).
Qed.

Lemma inner_of_five {A} (la lb : list A) (x p0 p1 p2 p3 p4 : A) :
  (la ++ x :: lb)%list = [p0; p1; p2; p3; p4] ->
  la <> [] -> lb <> [] ->
  x = p1 \/ x = p2 \/ x = p3.
Proof.
  intros E Ha Hb.
  destruct la as [|a0 [|a1 [|a2 [|a3 [|a4 la]]]]]; simpl in E;
    try contradiction; injection E; intros; subst; auto; try contradiction.
  - destruct la; discriminate.
Qed.

(** In the canonical URL a slash-free word between two slashes is the
    empty word of [https://], the host name or the owner. *)
Lemma word_between_slashes (h o c w : string) :
  RegExp.all_in RegExp.no_slash h = true ->
  RegExp.all_in RegExp.no_slash o = true ->
  RegExp.all_in RegExp.no_slash c = true ->
  RegExp.all_in RegExp.no_slash w = true ->
  contains ("https://" ++ h ++ "/" ++ o ++ "/" ++ c) ("/" ++ w ++ "/") ->
  w = EmptyString \/ w = h \/ w = o.
Proof.
  intros Hh Ho Hc Hw (a & b & E).
  pose proof (canonical_segments h o c Hh Ho Hc) as Hs.
  rewrite E in Hs.
  replace (a ++ ("/" ++ w ++ "/") ++ b)
    with (a ++ String "/" (w ++ String "/" b)) in Hs
    by (simpl; now rewrite append_assoc).
  rewrite !split_append in Hs.
  rewrite (split_without_separator _ "/" w eq_refl Hw) in Hs.
  apply (inner_of_five (Js.split "/" a) (Js.split "/" b) w _ _ _ _ _ Hs);
    apply split_not_nil.
Qed.

Lemma map_string_id (s : string) : RegExp.map_string (fun c => c) s = s.
Proof. induction s; simpl; congruence. Qed.

Lemma fold_case_slash (c : ascii) :
  RegExp.fold_case c = "/"%char -> c = "/"%char.
Proof.
  destruct c as [[] [] [] [] [] [] [] []]; vm_compute; congruence.
Qed.

Lemma fold_case_letter_no_slash (c d : ascii) :
  RegExp.fold_case c = d -> d <> "/"%char -> RegExp.no_slash c = true.
Proof.
  intros <- Hd. unfold RegExp.no_slash.
  destruct (Ascii.eqb_spec c "/") as [->|_]; [now contradiction Hd | reflexivity].
Qed.

(** The branch pattern finds nothing in a canonical URL whose host name
    and owner are not [tree]. *)
Lemma branch_absent_in_canonical (h o c : string) :
  RegExp.all_in RegExp.no_slash h = true ->
  RegExp.all_in RegExp.no_slash o = true ->
  RegExp.all_in RegExp.no_slash c = true ->
  h <> "tree" -> o <> "tree" ->
  GitRepoParser.BRANCH_PATTERN ("https://" ++ h ++ "/" ++ o ++ "/" ++ c) = None.
Proof.
  intros Hh Ho Hc Nh No.
  destruct (GitRepoParser.BRANCH_PATTERN _) as [cap|] eqn:Hm; [|reflexivity].
  apply match_capture_inv in Hm as (before & found & rest & E & Hf).
  rewrite !map_string_id in Hf. subst found.
  destruct (word_between_slashes h o c "tree" Hh Ho Hc eq_refl) as [H|[H|H]];
    try (now exists before, rest); congruence.
Qed.

(** The commit pattern finds nothing in a canonical URL whose host name
    and owner are not [commit] in any letter case. *)
Lemma commit_absent_in_canonical (h o c : string) :
  RegExp.all_in RegExp.no_slash h = true ->
  RegExp.all_in RegExp.no_slash o = true ->
  RegExp.all_in RegExp.no_slash c = true ->
  RegExp.fold_string h <> "commit" -> RegExp.fold_string o <> "commit" ->
  GitRepoParser.COMMIT_PATTERN ("https://" ++ h ++ "/" ++ o ++ "/" ++ c) = None.
Proof.
  intros Hh Ho Hc Nh No.
  destruct (GitRepoParser.COMMIT_PATTERN _) as [cap|] eqn:Hm; [|reflexivity].
  apply match_capture_inv in Hm as (before & found & rest & E & Hf).
  destruct found as [|c0 [|c1 [|c2 [|c3 [|c4 [|c5 [|c6 [|c7 [|c8 found]]]]]]]]];
    try discriminate Hf.
  injection Hf as F0 F1 F2 F3 F4 F5 F6 F7.
  change (RegExp.fold_case "/") with "/"%char in F0, F7.
  apply fold_case_slash in F0, F7. subst c0 c7.
  set (w := String c1 (String c2 (String c3 (String c4 (String c5 (String c6 EmptyString)))))).
  assert (Hw : RegExp.all_in RegExp.no_slash w = true).
  { simpl.
    rewrite (fold_case_letter_no_slash c1 _ F1), (fold_case_letter_no_slash c2 _ F2),
      (fold_case_letter_no_slash c3 _ F3), (fold_case_letter_no_slash c4 _ F4),
      (fold_case_letter_no_slash c5 _ F5), (fold_case_letter_no_slash c6 _ F6);
      (reflexivity || (vm_compute; discriminate)). }
  assert (Hfold : RegExp.fold_string w = "commit").
  { unfold w, RegExp.fold_string. simpl. now rewrite F1, F2, F3, F4, F5, F6. }
  destruct (word_between_slashes h o c w Hh Ho Hc Hw) as [H|[H|H]].
  - exists before, rest. exact E.
  - discriminate H.
  - rewrite <- H in Nh. contradiction.
  - rewrite <- H in No. contradiction.
Qed.

Lemma includes_scheme_separator (rest : string) :
  Js.includes ("https://" ++ rest) "://" = true.
Proof.
  apply includes_contains. now exists "https", rest.
Qed.

Section Canonical.
Context {P : Platform}.

(** C6, amended: let [x] normalize successfully.  If the platform parses
    the canonical URL back into the same host name and the path
    [/owner/repo], and the repo name (after the suffix was stripped) does
    not end in [.git] itself, then normalizing the canonical URL succeeds
    and reproduces owner, repo, provider and canonical URL.  The branch of
    the second reference is absent when neither the host name nor the
    owner is [tree]; its commit is absent when neither is [commit] in any
    letter case. *)
Theorem canonical_url_renormalizes (url : string) (r : GitRepoParser.Reference) :
  GitRepoParser.normalize url = Returned r ->
  new_URL (GitRepoParser.ref_normalizedUrl r)
  = Some (mkURL (GitRepoParser.ref_hostname r)
                ("/" ++ GitRepoParser.ref_owner r ++ "/" ++ GitRepoParser.ref_cleanRepo r)) ->
  Js.endsWith (GitRepoParser.ref_cleanRepo r) ".git" = false ->
  exists r',
    GitRepoParser.normalize (GitRepoParser.ref_normalizedUrl r) = Returned r'
    /\ GitRepoParser.ref_owner r' = GitRepoParser.ref_owner r
    /\ GitRepoParser.ref_cleanRepo r' = GitRepoParser.ref_cleanRepo r
    /\ GitRepoParser.ref_provider r' = GitRepoParser.ref_provider r
    /\ GitRepoParser.ref_normalizedUrl r' = GitRepoParser.ref_normalizedUrl r
    /\ (RegExp.all_in RegExp.no_slash (GitRepoParser.ref_hostname r) = true ->
        GitRepoParser.ref_hostname r <> "tree" ->
        GitRepoParser.ref_owner r <> "tree" ->
        GitRepoParser.ref_branch r' = None)
    /\ (RegExp.all_in RegExp.no_slash (GitRepoParser.ref_hostname r) = true ->
        RegExp.fold_string (GitRepoParser.ref_hostname r) <> "commit" ->
        RegExp.fold_string (GitRepoParser.ref_owner r) <> "commit" ->
        GitRepoParser.ref_commit r' = None).
Proof.
  intros Hn Hu Hgit.
  destruct (normalize_inv url r Hn)
    as (u & o & rp & _ & _ & Ho & Hrp & _ & Hne & ->).
  cbn [GitRepoParser.ref_normalizedUrl GitRepoParser.ref_hostname
       GitRepoParser.ref_owner GitRepoParser.ref_cleanRepo
       GitRepoParser.ref_provider] in *.
  set (h := hostname u) in *. set (c := Js.replace_git_suffix rp) in *.
  set (N := "https://" ++ h ++ "/" ++ o ++ "/" ++ c) in *.
  destruct (segment_is_token _ _ _ Ho) as [Hone Hoall].
  destruct (segment_is_token _ _ _ Hrp) as [_ Hrpall].
  assert (Hcall : RegExp.all_in RegExp.no_slash c = true)
    by (now apply all_in_replace_git_suffix).
  assert (Hinc : Js.includes N "://" = true) by apply includes_scheme_separator.
  assert (Hexp : GitRepoParser.expand N = N)
    by (unfold GitRepoParser.expand; now rewrite Hinc).
  assert (Hschema : gitUrlSchema N = true)
    by (unfold gitUrlSchema; now rewrite Hinc, Hu).
  assert (Hstrip : Js.replace_git_suffix c = c)
    by (unfold Js.replace_git_suffix; now rewrite Hgit).
  eexists. split.
  - apply (normalize_intro N (mkURL h ("/" ++ o ++ "/" ++ c)) o c []).
    + exact Hschema.
    + now rewrite Hexp.
    + apply segments_of_owner_repo; now split.
    + now rewrite Hstrip.
  - cbn [GitRepoParser.ref_normalizedUrl GitRepoParser.ref_hostname
         GitRepoParser.ref_owner GitRepoParser.ref_cleanRepo
         GitRepoParser.ref_provider GitRepoParser.ref_branch
         GitRepoParser.ref_commit hostname].
    rewrite Hexp, Hstrip. repeat split.
    + intros Hh Nh No. now apply branch_absent_in_canonical.
    + intros Hh Nh No. now apply commit_absent_in_canonical.
Qed.

End Canonical.

(** C6, as stated, fails in three ways.  [user/repo.git.git] normalizes to
    a canonical URL whose own canonical URL is different;
    [tree/x] normalizes to a canonical URL in which a branch is found;
    [user/..git] normalizes to a canonical URL that does not normalize at
    all. *)
Lemma canonical_url_is_not_a_fixpoint :
  (@GitRepoParser.normalize Model.web "user/repo.git.git"
   = Returned (GitRepoParser.mkReference "https://github.com/user/repo.git.git"
                 "github.com" "user" "repo.git" None None github
                 "https://github.com/user/repo.git")
   /\ @GitRepoParser.normalize Model.web "https://github.com/user/repo.git"
      = Returned (GitRepoParser.mkReference "https://github.com/user/repo.git"
                    "github.com" "user" "repo" None None github
                    "https://github.com/user/repo")
   /\ "https://github.com/user/repo" <> "https://github.com/user/repo.git")
  /\ (@GitRepoParser.normalize Model.web "tree/x"
      = Returned (GitRepoParser.mkReference "https://github.com/tree/x"
                    "github.com" "tree" "x" (Some "x") None github
                    "https://github.com/tree/x")
      /\ @GitRepoParser.normalize Model.web "https://github.com/tree/x"
         = Returned (GitRepoParser.mkReference "https://github.com/tree/x"
                       "github.com" "tree" "x" (Some "x") None github
                       "https://github.com/tree/x"))
  /\ (@GitRepoParser.normalize Model.web "user/..git"
      = Returned (GitRepoParser.mkReference "https://github.com/user/..git"
                    "github.com" "user" "." None None github
                    "https://github.com/user/.")
      /\ @GitRepoParser.normalize Model.web "https://github.com/user/."
         = Threw GitRepoParser.missing_owner_or_repo).
Proof.
  repeat split; try reflexivity. discriminate.
Qed.

(** C6, amended, at [https://GitHub.com/user/repo.git/tree/main]. *)
Lemma canonical_url_renormalizes_witness :
  exists r',
    @GitRepoParser.normalize Model.web "https://github.com/user/repo" = Returned r'
    /\ GitRepoParser.ref_owner r' = "user"
    /\ GitRepoParser.ref_cleanRepo r' = "repo"
    /\ GitRepoParser.ref_provider r' = github
    /\ GitRepoParser.ref_normalizedUrl r' = "https://github.com/user/repo"
    /\ (RegExp.all_in RegExp.no_slash "github.com" = true ->
        "github.com" <> "tree" -> "user" <> "tree" ->
        GitRepoParser.ref_branch r' = None)
    /\ (RegExp.all_in RegExp.no_slash "github.com" = true ->
        RegExp.fold_string "github.com" <> "commit" ->
        RegExp.fold_string "user" <> "commit" ->
        GitRepoParser.ref_commit r' = None).
Proof.
  exact (@canonical_url_renormalizes Model.web
           "https://GitHub.com/user/repo.git/tree/main"
           (GitRepoParser.mkReference "https://GitHub.com/user/repo.git/tree/main"
              "github.com" "user" "repo" (Some "main") None github
              "https://github.com/user/repo")
           eq_refl eq_refl eq_refl).
Defined.

(* ===================================================================== *)
(** ** Shorthand inputs on the model platform *)
(* ===================================================================== *)

(** Case analysis on the 256 characters. *)
Ltac by_ascii_cases c := destruct c as [[] [] [] [] [] [] [] []]; vm_compute; congruence.

Lemma all_in_append (cls : ascii -> bool) (a b : string) :
  RegExp.all_in cls (a ++ b) = RegExp.all_in cls a && RegExp.all_in cls b.
Proof.
  induction a as [|c a IH]; simpl; [reflexivity|].
  now rewrite IH, andb_assoc.
Qed.

Lemma append_nil_r (s : string) : s ++ EmptyString = s.
Proof.
  induction s; simpl; congruence.
Qed.

Lemma rev_string_append (a b : string) :
  Model.rev_string (a ++ b) = Model.rev_string b ++ Model.rev_string a.
Proof.
  induction a as [|c a IH]; simpl.
  - now rewrite append_nil_r.
  - now rewrite IH, append_assoc.
Qed.

Lemma rev_string_involutive (s : string) : Model.rev_string (Model.rev_string s) = s.
Proof.
  induction s as [|c s IH]; simpl; [reflexivity|].
  now rewrite rev_string_append, IH.
Qed.

Lemma all_in_rev_string (cls : ascii -> bool) (s : string) :
  RegExp.all_in cls (Model.rev_string s) = RegExp.all_in cls s.
Proof.
  induction s as [|c s IH]; simpl; [reflexivity|].
  rewrite all_in_append, IH. simpl. rewrite andb_true_r. apply andb_comm.
Qed.

Lemma drop_while_none (cls keep : ascii -> bool) (s : string) :
  (forall c, keep c = true -> cls c = false) ->
  RegExp.all_in keep s = true -> RegExp.drop_while cls s = s.
Proof.
  intros Hk. destruct s as [|c s]; simpl; [reflexivity|].
  intros [Hc _]%andb_true_iff. now rewrite (Hk c Hc).
Qed.

Lemma filter_string_all (p : ascii -> bool) (s : string) :
  RegExp.all_in p s = true -> Model.filter_string p s = s.
Proof.
  induction s as [|c s IH]; simpl; [reflexivity|].
  intros [Hc Hs]%andb_true_iff. now rewrite Hc, IH.
Qed.

Lemma map_string_fixed (f : ascii -> ascii) (s : string) :
  RegExp.all_in (fun c => Ascii.eqb (f c) c) s = true -> RegExp.map_string f s = s.
Proof.
  induction s as [|c s IH]; simpl; [reflexivity|].
  intros [Hc Hs]%andb_true_iff. apply Ascii.eqb_eq in Hc. now rewrite Hc, IH.
Qed.

Lemma preprocess_visible (s : string) :
  RegExp.all_in Model.path_char s = true -> Model.preprocess s = s.
Proof.
  intros Hs. unfold Model.preprocess.
  assert (Hsp : forall c, Model.path_char c = true -> Model.is_c0_or_space c = false)
    by (intros c; by_ascii_cases c).
  rewrite (drop_while_none Model.is_c0_or_space Model.path_char s Hsp Hs).
  rewrite (drop_while_none Model.is_c0_or_space Model.path_char (Model.rev_string s) Hsp)
    by (now rewrite all_in_rev_string).
  rewrite rev_string_involutive. apply filter_string_all.
  apply (all_in_weaken Model.path_char); [|exact Hs].
  intros c; by_ascii_cases c.
Qed.

Lemma word_is_path_char (c : ascii) :
  RegExp.word_dot_hyphen c = true -> Model.path_char c = true.
Proof. by_ascii_cases c. Qed.

Lemma not_dot_segment (s : string) :
  RegExp.all_in RegExp.word_dot_hyphen s = true ->
  s <> "." -> s <> ".." ->
  Model.single_dot s = false /\ Model.double_dot s = false.
Proof.
  intros Hall H1 H2. unfold Model.single_dot, Model.double_dot, Model.lower_eqb.
  apply String.eqb_neq in H1, H2. rewrite H1, H2. simpl.
  assert (Hp : forall t, Js.includes t "%" = true ->
                         String.eqb (RegExp.map_string RegExp.fold_case s) t = false).
  { intros t Ht. apply String.eqb_neq. intros E.
    assert (Hw : RegExp.all_in RegExp.word_dot_hyphen (RegExp.map_string RegExp.fold_case s) = true).
    { clear -Hall. induction s as [|c s IH]; simpl in *; [reflexivity|].
      apply andb_true_iff in Hall as [Hc Hs]. rewrite (IH Hs), andb_true_r.
      revert Hc. by_ascii_cases c. }
    rewrite E in Hw. apply includes_contains in Ht as (a & b & ->).
    rewrite !all_in_append in Hw. simpl in Hw.
    rewrite andb_false_r in Hw. discriminate. }
  rewrite !Hp by reflexivity. now split.
Qed.

Lemma model_URL_github (o c : string) :
  token_of RegExp.word_dot_hyphen o ->
  token_of RegExp.word_dot_hyphen c ->
  o <> "." -> o <> ".." -> c <> "." -> c <> ".." ->
  Model.URL ("https://github.com/" ++ o ++ "/" ++ c)
  = Some (mkURL "github.com" ("/" ++ o ++ "/" ++ c)).
Proof.
  intros [Hone Ho] [Hcne Hc] Ho1 Ho2 Hc1 Hc2.
  pose proof (all_in_weaken _ _ o word_is_path_char Ho) as Hop.
  pose proof (all_in_weaken _ _ c word_is_path_char Hc) as Hcp.
  assert (HN : RegExp.all_in Model.path_char ("https://github.com/" ++ o ++ "/" ++ c) = true).
  { rewrite !all_in_append, Hop, Hcp. reflexivity. }
  unfold Model.URL. rewrite (preprocess_visible _ HN).
  rewrite (all_in_weaken Model.path_char (fun c => (nat_of_ascii c <? 128)%nat) _
             ltac:(intros x; by_ascii_cases x) HN).
  cbn [negb].
  change (Model.parse_scheme ("https://github.com/" ++ o ++ "/" ++ c))
    with (Some ("https", "//github.com/" ++ o ++ "/" ++ c)).
  cbv iota beta.
  change (Model.special_scheme "https") with true. cbv iota zeta.
  change (RegExp.drop_while Model.is_slash ("//github.com/" ++ o ++ "/" ++ c))
    with ("github.com/" ++ o ++ "/" ++ c).
  change (RegExp.take_while Model.in_authority ("github.com/" ++ o ++ "/" ++ c))
    with "github.com".
  change (RegExp.drop_while Model.in_authority ("github.com/" ++ o ++ "/" ++ c))
    with ("/" ++ o ++ "/" ++ c).
  change (Model.authority_host "github.com") with (Some "github.com").
  assert (Hpath : RegExp.all_in Model.path_char ("/" ++ o ++ "/" ++ c) = true).
  { rewrite !all_in_append, Hop, Hcp. reflexivity. }
  rewrite (take_while_all Model.in_path _
             (all_in_weaken Model.path_char Model.in_path _
                ltac:(intros x; by_ascii_cases x) Hpath)).
  rewrite (map_string_fixed (fun x => if Model.is_slash x then "/"%char else x) _
             (all_in_weaken Model.path_char
                (fun x => Ascii.eqb (if Model.is_slash x then "/"%char else x) x) _
                ltac:(intros x; by_ascii_cases x) Hpath)).
  assert (Hsplit : Js.split "/" ("/" ++ o ++ "/" ++ c) = [EmptyString; o; c]).
  { change ("/" ++ o ++ "/" ++ c) with (EmptyString ++ String "/" (o ++ String "/" c)).
    rewrite !split_append.
    now rewrite (split_without_separator _ "/" o eq_refl
                   (all_in_weaken _ _ o word_dot_hyphen_no_slash Ho)),
                (split_without_separator _ "/" c eq_refl
                   (all_in_weaken _ _ c word_dot_hyphen_no_slash Hc)). }
  rewrite Hsplit. cbn [forallb]. rewrite Hop, Hcp. cbn [andb].
  destruct (not_dot_segment o Ho Ho1 Ho2) as [So Do].
  destruct (not_dot_segment c Hc Hc1 Hc2) as [Sc Dc].
  cbn [Model.build_path]. rewrite So, Do, Sc, Dc. cbn [rev List.app Model.serialize_path fold_right].
  now rewrite append_nil_r.
Qed.

Lemma word_hyphen_not_dots (o : string) :
  RegExp.all_in RegExp.word_hyphen o = true -> o <> "." /\ o <> "..".
Proof.
  intros Ho. split; intros ->; discriminate Ho.
Qed.

Lemma word_hyphen_is_word_dot_hyphen (c : ascii) :
  RegExp.word_hyphen c = true -> RegExp.word_dot_hyphen c = true.
Proof. by_ascii_cases c. Qed.

(** On the model platform the premise of [canonical_url_renormalizes]
    about the platform holds for every shorthand input: the canonical URL
    of [owner/repo] normalizes to itself as soon as the stripped repo name
    is neither empty, nor a dot segment, nor ends in [.git]. *)
Corollary shorthand_canonical_url_on_model (o r : string) :
  token_of RegExp.word_hyphen o ->
  token_of RegExp.word_dot_hyphen r ->
  r <> "." -> r <> ".." ->
  Js.replace_git_suffix r <> EmptyString ->
  Js.replace_git_suffix r <> "." ->
  Js.replace_git_suffix r <> ".." ->
  Js.endsWith (Js.replace_git_suffix r) ".git" = false ->
  exists r1 r2,
    @GitRepoParser.normalize Model.web (o ++ "/" ++ r) = Returned r1
    /\ GitRepoParser.ref_normalizedUrl r1
       = "https://github.com/" ++ o ++ "/" ++ Js.replace_git_suffix r
    /\ @GitRepoParser.normalize Model.web (GitRepoParser.ref_normalizedUrl r1) = Returned r2
    /\ GitRepoParser.ref_owner r2 = GitRepoParser.ref_owner r1
    /\ GitRepoParser.ref_cleanRepo r2 = GitRepoParser.ref_cleanRepo r1
    /\ GitRepoParser.ref_provider r2 = GitRepoParser.ref_provider r1
    /\ GitRepoParser.ref_normalizedUrl r2 = GitRepoParser.ref_normalizedUrl r1
    /\ (o <> "tree" -> GitRepoParser.ref_branch r2 = None)
    /\ (RegExp.fold_string o <> "commit" -> GitRepoParser.ref_commit r2 = None).
Proof.
  intros Ho Hr Hr1 Hr2 Hc0 Hc1 Hc2 Hgit.
  set (c := Js.replace_git_suffix r) in *.
  assert (Hw : token_of RegExp.word_dot_hyphen o).
  { destruct Ho as [Hne Hall]. split; [exact Hne|].
    exact (all_in_weaken _ _ o word_hyphen_is_word_dot_hyphen Hall). }
  assert (Hc : token_of RegExp.word_dot_hyphen c).
  { split; [exact Hc0|]. apply all_in_replace_git_suffix, Hr. }
  destruct (word_hyphen_not_dots o (proj2 Ho)) as [Ho1 Ho2].
  assert (Hslash : forall s, token_of RegExp.word_dot_hyphen s -> token_of RegExp.no_slash s).
  { intros s [Hne Hall]. split; [exact Hne|].
    exact (all_in_weaken _ _ s word_dot_hyphen_no_slash Hall). }
  destruct (@shorthand_expands Model.web o r Ho Hr) as [Hs He].
  set (N := "https://github.com/" ++ o ++ "/" ++ c).
  assert (HiN : Js.includes N "://" = true)
    by exact (includes_scheme_separator ("github.com/" ++ o ++ "/" ++ c)).
  assert (HuN : @new_URL Model.web N = Some (mkURL "github.com" ("/" ++ o ++ "/" ++ c)))
    by exact (model_URL_github o c Hw Hc Ho1 Ho2 Hc1 Hc2).
  assert (HsN : @gitUrlSchema Model.web N = true)
    by (unfold gitUrlSchema; now rewrite HiN, HuN).
  assert (HeN : GitRepoParser.expand N = N)
    by (unfold GitRepoParser.expand; now rewrite HiN).
  assert (Hstrip : Js.replace_git_suffix c = c)
    by (unfold Js.replace_git_suffix; now rewrite Hgit).
  eexists. eexists. split; [|split; [|split]].
  - apply (@normalize_intro Model.web (o ++ "/" ++ r)
             (mkURL "github.com" ("/" ++ o ++ "/" ++ r)) o r [] Hs).
    + rewrite He. exact (model_URL_github o r Hw Hr Ho1 Ho2 Hr1 Hr2).
    + apply segments_of_owner_repo; auto.
    + exact Hc0.
  - reflexivity.
  - cbn [GitRepoParser.ref_normalizedUrl hostname]. fold c. fold N.
    apply (@normalize_intro Model.web N (mkURL "github.com" ("/" ++ o ++ "/" ++ c)) o c [] HsN).
    + now rewrite HeN.
    + apply segments_of_owner_repo; auto.
    + now rewrite Hstrip.
  - cbn [GitRepoParser.ref_normalizedUrl GitRepoParser.ref_owner GitRepoParser.ref_cleanRepo
         GitRepoParser.ref_provider GitRepoParser.ref_branch GitRepoParser.ref_commit hostname].
    fold c. rewrite HeN, Hstrip. repeat split.
    + intros No. apply (branch_absent_in_canonical "github.com" o c); auto;
        try (apply Hslash; assumption); try reflexivity; discriminate.
    + intros No. apply (commit_absent_in_canonical "github.com" o c); auto;
        try (apply Hslash; assumption); try reflexivity. vm_compute. discriminate.
Qed.

(* ===================================================================== *)
(** ** The reset time of the rate limit *)
(* ===================================================================== *)

Lemma reduce_pow2 (n : Z) (k : nat) :
  JsNumber.reduce (n * 2 ^ Z.of_nat k) k = JsNumber.Finite n 0.
Proof.
  induction k as [|k IH].
  - cbn [JsNumber.reduce]. f_equal. change (2 ^ Z.of_nat 0)%Z with 1%Z. lia.
  - cbn [JsNumber.reduce].
    rewrite Nat2Z.inj_succ, Z.pow_succ_r by lia.
    replace (n * (2 * 2 ^ Z.of_nat k))%Z with (n * 2 ^ Z.of_nat k * 2)%Z by lia.
    rewrite Z.even_mul, orb_true_r, Z.div_mul by lia. exact IH.
Qed.

Lemma floor_log2_integer (n : Z) :
  (0 < n)%Z -> JsNumber.floor_log2 n 1 = Z.log2 n.
Proof.
  intros Hn. unfold JsNumber.floor_log2.
  change (Z.log2 1) with 0%Z. rewrite Z.sub_0_r.
  pose proof (Z.log2_nonneg n) as Hg.
  rewrite (Z.max_l 0 (- Z.log2 n)), (Z.max_r 0 (Z.log2 n)) by lia.
  destruct (Z.ltb_spec (n * 2 ^ 0) (1 * 2 ^ Z.log2 n)) as [H|H]; [|reflexivity].
  pose proof (Z.log2_spec n Hn). lia.
Qed.

(** An integer below [2^53] is a double: rounding leaves it as it is. *)
Lemma nearest_safe_integer (n : Z) :
  (0 <= n < 2 ^ 53)%Z -> JsNumber.nearest false n 1 = JsNumber.Finite n 0.
Proof.
  intros [H0 H53]. unfold JsNumber.nearest.
  destruct (Z.eqb_spec n 0) as [->|Hn]; [reflexivity|].
  rewrite floor_log2_integer by lia.
  assert (Hlog : (0 <= Z.log2 n < 53)%Z).
  { split; [apply Z.log2_nonneg|]. apply Z.log2_lt_pow2; lia. }
  set (j := (52 - Z.log2 n)%Z).
  replace (Z.log2 n - 52)%Z with (- j)%Z by (unfold j; lia).
  assert (Hj : (0 <= j <= 52)%Z) by (unfold j; lia).
  rewrite (Z.max_l (- j) (-1074)) by lia.
  cbv zeta.
  rewrite (Z.max_r 0 (- - j)), (Z.max_l 0 (- j)) by lia.
  rewrite Z.opp_involutive.
  change (1 * 2 ^ 0)%Z with 1%Z.
  rewrite Z.div_1_r, Z.mod_1_r.
  change (1 <? 2 * 0)%Z with false. change (1 =? 2 * 0)%Z with false.
  cbn [orb andb].
  destruct (Z.leb_spec 0 (- j)) as [Hp|Hp].
  - assert (j = 0%Z) by lia. subst j. rewrite H.
    change (- 0)%Z with 0%Z. change (2 ^ 0)%Z with 1%Z. rewrite !Z.mul_1_r.
    destruct (Z.leb_spec (2 ^ 1024) n) as [Hbig|_].
    + exfalso. assert (2 ^ 53 < 2 ^ 1024)%Z by (apply Z.pow_lt_mono_r; lia). lia.
    + reflexivity.
  - rewrite <- (Z2Nat.id j) at 1 by lia. apply reduce_pow2.
Qed.

Lemma digit_is_not_white_space (c : ascii) :
  RegExp.is_digit c = true -> JsNumber.StrWhiteSpaceChar c = false.
Proof. by_ascii_cases c. Qed.

Lemma trim_DecimalDigits (s : string) :
  RegExp.all_in RegExp.is_digit s = true -> JsNumber.trim s = s.
Proof.
  intros Hs. unfold JsNumber.trim.
  rewrite (drop_while_none _ RegExp.is_digit s digit_is_not_white_space Hs).
  induction s as [|c s IH]; [reflexivity|].
  cbn [JsNumber.trim_end RegExp.all_in] in *.
  apply andb_true_iff in Hs as [Hc Hs].
  rewrite (IH Hs), (digit_is_not_white_space c Hc). reflexivity.
Qed.

Lemma radix_prefix_DecimalDigits (s : string) :
  RegExp.all_in RegExp.is_digit s = true -> JsNumber.radix_prefix s = None.
Proof.
  destruct s as [|c [|d s]]; cbn [RegExp.all_in]; intros H.
  - reflexivity.
  - destruct c as [[] [] [] [] [] [] [] []]; reflexivity.
  - apply andb_true_iff in H as [_ [Hd _]%andb_true_iff].
    assert (Hx : (Ascii.eqb d "x" || Ascii.eqb d "X") = false
                 /\ (Ascii.eqb d "o" || Ascii.eqb d "O") = false
                 /\ (Ascii.eqb d "b" || Ascii.eqb d "B") = false).
    { revert Hd. clear.
      destruct d as [[] [] [] [] [] [] [] []]; vm_compute; intros;
        try discriminate; repeat split. }
    destruct Hx as (H1 & H2 & H3).
    unfold JsNumber.radix_prefix.
    destruct c as [[] [] [] [] [] [] [] []]; try reflexivity.
    now rewrite H1, H2, H3.
Qed.

Lemma sign_DecimalDigits (s : string) :
  RegExp.all_in RegExp.is_digit s = true -> JsNumber.sign s = (false, s).
Proof.
  destruct s as [|c s]; [reflexivity|]. cbn [RegExp.all_in].
  intros [Hc _]%andb_true_iff. revert Hc.
  destruct c as [[] [] [] [] [] [] [] []]; vm_compute; intros; try discriminate;
    reflexivity.
Qed.

Lemma Infinity_is_not_DecimalDigits (s : string) :
  RegExp.all_in RegExp.is_digit s = true -> String.eqb s "Infinity" = false.
Proof.
  intros Hs. destruct (String.eqb_spec s "Infinity") as [->|]; [discriminate|reflexivity].
Qed.

Lemma digits_value_nonneg (s : string) (acc : Z) :
  RegExp.all_in RegExp.is_digit s = true -> (0 <= acc)%Z ->
  (0 <= JsNumber.digits_value 10 acc s)%Z.
Proof.
  revert acc. induction s as [|c s IH]; intros acc; cbn [RegExp.all_in JsNumber.digits_value].
  - auto.
  - intros [Hc Hs]%andb_true_iff Hacc. apply IH; [exact Hs|].
    assert (0 <= JsNumber.digit_value c)%Z by (revert Hc; clear; by_ascii_cases c).
    lia.
Qed.

(** [Number] reads a string of decimal digits as the integer that it
    denotes, as long as that integer is below [2^53]. *)
Lemma StringToNumber_DecimalDigits (s : string) :
  JsNumber.DecimalDigits s = true ->
  (JsNumber.digits_value 10 0 s < 2 ^ 53)%Z ->
  JsNumber.StringToNumber s = JsNumber.Finite (JsNumber.digits_value 10 0 s) 0.
Proof.
  unfold JsNumber.DecimalDigits. intros [Hne Hs]%andb_true_iff Hv.
  pose proof (digits_value_nonneg s 0 Hs ltac:(lia)) as H0.
  unfold JsNumber.StringToNumber.
  rewrite (trim_DecimalDigits s Hs), Hne, (radix_prefix_DecimalDigits s Hs),
    (sign_DecimalDigits s Hs).
  cbn [negb]. unfold JsNumber.StrUnsignedDecimalLiteral.
  rewrite (Infinity_is_not_DecimalDigits s Hs), (take_while_all _ s Hs).
  assert (Hd : RegExp.drop_while RegExp.is_digit s = EmptyString).
  { clear -Hs. induction s as [|c s IH]; [reflexivity|].
    cbn [RegExp.all_in RegExp.drop_while] in *.
    apply andb_true_iff in Hs as [Hc Hs]. rewrite Hc. now apply IH. }
  rewrite Hd, Hne. cbn [orb JsNumber.ExponentPart String.length Z.of_nat].
  rewrite append_nil_r. unfold JsNumber.decimal.
  destruct (Z.eqb_spec (JsNumber.digits_value 10 0 s) 0) as [->|Hn]; [reflexivity|].
  change (400 <? 0 - 0)%Z with false.
  destruct (Z.ltb_spec (0 - 0) (-400 - Z.of_nat (String.length s))) as [H|_]; [lia|].
  change (0 <=? 0 - 0)%Z with true. change (10 ^ (0 - 0))%Z with 1%Z.
  rewrite Z.mul_1_r. apply nearest_safe_integer. lia.
Qed.

(** The reset time of a header that is a number of seconds since the
    epoch, in decimal digits: the time that many seconds (a thousand
    times as many milliseconds) after the epoch. *)
Lemma reset_time_epoch_seconds (s : string) :
  JsNumber.DecimalDigits s = true ->
  (JsNumber.digits_value 10 0 s <= 8640000000000)%Z ->
  GitRepoParser.reset_time (Some s)
  = Some (JsDate.iso (JsNumber.digits_value 10 0 s * 1000)).
Proof.
  intros Hs Hv.
  assert (Hd : RegExp.all_in RegExp.is_digit s = true)
    by (now apply andb_true_iff in Hs as [_ Hd]).
  pose proof (digits_value_nonneg s 0 Hd ltac:(lia)) as H0.
  unfold GitRepoParser.reset_time, JsNumber.Number.
  rewrite (StringToNumber_DecimalDigits s Hs) by lia.
  set (n := JsNumber.digits_value 10 0 s) in *.
  unfold JsNumber.times.
  destruct (Z.ltb_spec (n * 1000) 0) as [H|_]; [lia|].
  rewrite Z.abs_eq by lia.
  change (2 ^ Z.of_nat (0 + 0))%Z with 1%Z.
  rewrite nearest_safe_integer by lia.
  unfold JsDate.new_Date. change (2 ^ Z.of_nat 0)%Z with 1%Z.
  rewrite Z.abs_eq, Z.mul_1_r, Z.quot_1_r by lia.
  destruct (Z.leb_spec (n * 1000) 8640000000000000) as [_|H]; [reflexivity|lia].
Qed.

(** A header that is absent or empty reads as the epoch itself. *)
Lemma reset_time_falsy (h : option string) :
  Js.truthy_opt h = false ->
  GitRepoParser.reset_time h = Some "1970-01-01T00:00:00.000Z".
Proof.
  destruct h as [s|]; [|reflexivity]. cbn [Js.truthy_opt]. unfold Js.truthy.
  destruct (String.eqb_spec s "") as [->|]; [reflexivity|discriminate].
Qed.

Section Classification.
Context {P : Platform}.

(** C4 on the code: [errorInfo], which nothing reads, is built before the
    status of a response that is not [ok] is looked at, and building it
    converts the reset header whenever both rate-limit headers are
    non-empty.  If that header is not a time, the request fails with the
    [RangeError] of the conversion, whatever the status: a 404 is then
    not classified as not found.  In every other case the failure is
    classified as the claim says: rate-limited exactly when the status is
    403 and the remaining-quota header is the string ["0"], with the
    reset header read as seconds since the epoch; not found with owner
    and repo for a 404; a generic API error otherwise. *)
Theorem unreadable_reset_preempts_classification
        (owner cleanRepo : string) (headers : list (string * string))
        (response : Response) :
  fetch (mkRequest (GitRepoParser.api_url owner cleanRepo) headers) = Returned response ->
  ok response = false ->
  let request := EvFetch (mkRequest (GitRepoParser.api_url owner cleanRepo) headers) in
  let unreadable :=
    Js.truthy_opt (x_ratelimit_remaining response)
    && Js.truthy_opt (x_ratelimit_reset response)
    && match GitRepoParser.reset_time (x_ratelimit_reset response) with
       | Some _ => false
       | None => true
       end in
  (unreadable = true ->
   GitRepoParser.fetchMetadata owner cleanRepo headers
   = ([request], Threw (Throwable RangeError "Invalid time value"))
   /\ forall resetAt,
       Throwable RangeError "Invalid time value"
       <> Throwable Error (failure_message (classify owner cleanRepo response resetAt)))
  /\ (unreadable = false ->
      exists resetAt,
        let failure := classify owner cleanRepo response resetAt in
        GitRepoParser.fetchMetadata owner cleanRepo headers
        = ([request], Threw (Throwable Error (failure_message failure)))
        /\ (failure = RateLimitExceeded resetAt
            <-> status response = 403%Z /\ x_ratelimit_remaining response = Some "0")
        /\ (failure = RateLimitExceeded resetAt ->
            GitRepoParser.reset_time (x_ratelimit_reset response) = Some resetAt
            /\ forall seconds,
                x_ratelimit_reset response = Some seconds ->
                JsNumber.DecimalDigits seconds = true ->
                (JsNumber.digits_value 10 0 seconds <= 8640000000000)%Z ->
                resetAt = JsDate.iso (JsNumber.digits_value 10 0 seconds * 1000))
        /\ (status response = 403%Z -> x_ratelimit_remaining response <> Some "0" ->
            failure = ProviderApiError 403 (text response))
        /\ (status response = 404%Z -> failure = RepositoryNotFound owner cleanRepo)
        /\ (status response <> 404%Z ->
            ~ (status response = 403%Z /\ x_ratelimit_remaining response = Some "0") ->
            failure = ProviderApiError (status response) (text response))).
Proof.
  intros Hf Hok request unreadable.
  assert (Hfetch : GitRepoParser.fetchMetadata owner cleanRepo headers
                   = ([request],
                      snd (GitRepoParser.rejectResponse owner cleanRepo response))).
  { unfold GitRepoParser.fetchMetadata. simpl. unfold lift. rewrite Hf, Hok. simpl.
    destruct (rejectResponse_throws owner cleanRepo response) as (n & m & ->).
    reflexivity. }
  split.
  - intros Hu. subst unreadable.
    apply andb_true_iff in Hu as [Hboth Hnone].
    destruct (GitRepoParser.reset_time (x_ratelimit_reset response)) eqn:Hr;
      [discriminate|].
    split; [|discriminate].
    rewrite Hfetch. unfold GitRepoParser.rejectResponse, GitRepoParser.errorInfo.
    now rewrite Hboth, Hr.
  - intros Hu. subst unreadable.
    assert (Hclass :
              forall resetAt,
                let failure := classify owner cleanRepo response resetAt in
                (failure = RateLimitExceeded resetAt
                 <-> status response = 403%Z /\ x_ratelimit_remaining response = Some "0")
                /\ (status response = 403%Z -> x_ratelimit_remaining response <> Some "0" ->
                    failure = ProviderApiError 403 (text response))
                /\ (status response = 404%Z -> failure = RepositoryNotFound owner cleanRepo)
                /\ (status response <> 404%Z ->
                    ~ (status response = 403%Z
                       /\ x_ratelimit_remaining response = Some "0") ->
                    failure = ProviderApiError (status response) (text response))).
    { intros resetAt failure. subst failure. unfold classify.
      destruct (status response =? 404)%Z eqn:E404;
        [apply Z.eqb_eq in E404 | apply Z.eqb_neq in E404];
        (destruct (status response =? 403)%Z eqn:E403;
         [apply Z.eqb_eq in E403 | apply Z.eqb_neq in E403]);
        (destruct (eqb_opt_string (x_ratelimit_remaining response) "0") eqn:E0;
         [apply eqb_opt_string_true in E0
         | assert (x_ratelimit_remaining response <> Some "0")
             by (intros H0; apply eqb_opt_string_true in H0; congruence)]);
        simpl; repeat split; intros; try congruence; try lia; try tauto;
        try discriminate. }
    destruct (GitRepoParser.reset_time (x_ratelimit_reset response)) as [iso|] eqn:Hr.
    + exists iso. cbv zeta.
      destruct (Hclass iso) as (H1 & H2 & H3 & H4).
      split.
      { rewrite Hfetch, (rejectResponse_classified owner cleanRepo response iso Hr).
        reflexivity. }
      split; [exact H1|]. split; [|auto].
      intros _. split; [reflexivity|].
      intros seconds Hs Hd Hv. rewrite Hs in Hr.
      rewrite (reset_time_epoch_seconds seconds Hd Hv) in Hr. congruence.
    + rewrite andb_true_r in Hu.
      exists EmptyString. cbv zeta.
      destruct (Hclass EmptyString) as (H1 & H2 & H3 & H4).
      assert (Hnot0 : x_ratelimit_remaining response <> Some "0").
      { intros H0. rewrite H0 in Hu. cbn [Js.truthy_opt andb] in Hu.
        change (Js.truthy "0") with true in Hu. cbn [andb] in Hu.
        rewrite (reset_time_falsy _ Hu) in Hr. discriminate. }
      split.
      { rewrite Hfetch. unfold GitRepoParser.rejectResponse, GitRepoParser.errorInfo.
        rewrite Hu. unfold classify.
        assert (E0 : eqb_opt_string (x_ratelimit_remaining response) "0" = false).
        { destruct (eqb_opt_string _ _) eqn:E; [|reflexivity].
          apply eqb_opt_string_true in E. contradiction. }
        rewrite E0, andb_false_r. simpl.
        destruct (status response =? 404)%Z; reflexivity. }
      split; [exact H1|]. split; [|auto].
      intros Hrate. apply H1 in Hrate as [_ H0]. contradiction.
Qed.

End Classification.

(** C4 at a 404 response whose reset header is not a number: the request
    fails with a [RangeError], which is no failure of the taxonomy. *)
Lemma not_found_with_unreadable_reset :
  @GitRepoParser.fetchMetadata
     (Model.platform (Model.respond Model.garbled_reset) Model.app_token)
     "user" "repo" GitRepoParser.accept_header
  = ([EvFetch (mkRequest "https://api.github.com/repos/user/repo"
                         GitRepoParser.accept_header)],
     Threw (Throwable RangeError "Invalid time value"))
  /\ forall resetAt,
      Throwable RangeError "Invalid time value"
      <> Throwable Error (failure_message (classify "user" "repo" Model.garbled_reset resetAt)).
Proof.
  assert (Hu : Js.truthy_opt (x_ratelimit_remaining Model.garbled_reset)
               && Js.truthy_opt (x_ratelimit_reset Model.garbled_reset)
               && match GitRepoParser.reset_time (x_ratelimit_reset Model.garbled_reset) with
                  | Some _ => false
                  | None => true
                  end = true)
    by (vm_compute; reflexivity).
  exact (proj1 (@unreadable_reset_preempts_classification
                  (Model.platform (Model.respond Model.garbled_reset) Model.app_token)
                  "user" "repo" GitRepoParser.accept_header Model.garbled_reset
                  eq_refl eq_refl) Hu).
Defined.

(** The reset time of the rate-limited response of the tests: 1700000000
    seconds after the epoch. *)
Example rate_limit_reset_is_read_as_seconds :
  GitRepoParser.reset_time (x_ratelimit_reset Model.rate_limited)
  = Some "2023-11-14T22:13:20.000Z"
  /\ GitRepoParser.rejectResponse "user" "repo" Model.rate_limited
     = throw (Throwable Error
                "GitHub API rate limit exceeded. Reset at 2023-11-14T22:13:20.000Z").
Proof. split; vm_compute; reflexivity. Qed.

(* ===================================================================== *)
(** ** The cases of the repository's test suite, run on the model *)
(* ===================================================================== *)

Example parse_https_url_with_git_suffix :
  @GitRepoParser.parse Model.web "https://github.com/user/repo.git" no_options
  = ([EvFetch (mkRequest "https://api.github.com/repos/user/repo"
                         GitRepoParser.accept_header)],
     Returned {| metadata := mkMetadata "user" "repo" None None github false;
                 normalizedUrl := "https://github.com/user/repo";
                 originalUrl := "https://github.com/user/repo.git" |}).
Proof. vm_compute. reflexivity. Qed.

Example parse_branch_url :
  snd (@GitRepoParser.parse Model.web "https://github.com/user/repo/tree/main" no_options)
  = Returned {| metadata := mkMetadata "user" "repo" (Some "main") None github false;
                normalizedUrl := "https://github.com/user/repo";
                originalUrl := "https://github.com/user/repo/tree/main" |}.
Proof. vm_compute. reflexivity. Qed.

Example parse_commit_url :
  snd (@GitRepoParser.parse Model.web "https://github.com/user/repo/commit/abc123" no_options)
  = Returned {| metadata := mkMetadata "user" "repo" None (Some "abc123") github false;
                normalizedUrl := "https://github.com/user/repo";
                originalUrl := "https://github.com/user/repo/commit/abc123" |}.
Proof. vm_compute. reflexivity. Qed.

Example parse_gitlab_and_bitbucket :
  @GitRepoParser.parse Model.web "https://gitlab.com/user/repo" no_options
  = ([], Returned {| metadata := mkMetadata "user" "repo" None None gitlab false;
                     normalizedUrl := "https://gitlab.com/user/repo";
                     originalUrl := "https://gitlab.com/user/repo" |})
  /\ @GitRepoParser.parse Model.web "https://bitbucket.org/user/repo" no_options
     = ([], Returned {| metadata := mkMetadata "user" "repo" None None bitbucket false;
                        normalizedUrl := "https://bitbucket.org/user/repo";
                        originalUrl := "https://bitbucket.org/user/repo" |}).
Proof. split; vm_compute; reflexivity. Qed.

Example parse_rejects_invalid_inputs :
  @GitRepoParser.parse Model.web "invalid-url" no_options
  = ([], Threw (@GitRepoParser.invalid_format Model.web))
  /\ @GitRepoParser.parse Model.web "https://example.com/user" no_options
     = ([], Threw GitRepoParser.missing_owner_or_repo).
Proof. split; vm_compute; reflexivity. Qed.

Example parse_private_repository :
  snd (@GitRepoParser.parse
         (Model.platform (Model.respond Model.private_repo) Model.app_token)
         "https://github.com/user/repo" (mkOptions (Some "ghp_token") None))
  = Returned {| metadata := mkMetadata "user" "repo" None None github true;
                normalizedUrl := "https://github.com/user/repo";
                originalUrl := "https://github.com/user/repo" |}.
Proof. vm_compute. reflexivity. Qed.

(** The test suite expects a rejection here; the code logs and returns. *)
Example parse_rate_limited :
  @GitRepoParser.parse
     (Model.platform (Model.respond Model.rate_limited) Model.app_token)
     "https://github.com/user/repo" no_options
  = ([EvFetch (mkRequest "https://api.github.com/repos/user/repo"
                         GitRepoParser.accept_header);
      EvConsoleWarn "GitHub API rate limit exceeded. Reset at 2023-11-14T22:13:20.000Z"],
     Returned {| metadata := mkMetadata "user" "repo" None None github false;
                 normalizedUrl := "https://github.com/user/repo";
                 originalUrl := "https://github.com/user/repo" |}).
Proof. vm_compute. reflexivity. Qed.

Example parse_forbidden_with_quota_left :
  fst (@GitRepoParser.parse
         (Model.platform (Model.respond Model.forbidden) Model.app_token)
         "https://github.com/user/repo" no_options)
  = [EvFetch (mkRequest "https://api.github.com/repos/user/repo"
                        GitRepoParser.accept_header);
     EvConsoleError "Failed to fetch repository metadata:"
                    "GitHub API Error: 403 - Forbidden"].
Proof. vm_compute. reflexivity. Qed.

Example parse_server_error_with_installation_token :
  fst (@GitRepoParser.parse
         (Model.platform (Model.respond Model.server_error) Model.app_token)
         "user/repo"
         (mkOptions None (Some (mkAppConfig "1" "key" "id" "secret" (Some "77")))))
  = [EvAppAuth installation;
     EvFetch (mkRequest "https://api.github.com/repos/user/repo"
                [("Accept", "application/vnd.github.v3+json");
                 ("Authorization", "Bearer ghs_installation")]);
     EvConsoleError "Failed to fetch repository metadata:"
                    "GitHub API Error: 500 - oops"].
Proof. vm_compute. reflexivity. Qed.

(** With the constructor of the library the exchange is not reached for
    a configuration without installation id; the caller receives an
    ordinary result all the same. *)
Example parse_without_installation_id_on_octokit :
  @GitRepoParser.parse
     (Model.platform (Model.respond Model.private_repo) Model.octokit)
     "https://github.com/user/repo"
     (mkOptions None (Some (mkAppConfig "12345" "private-key" "client-id"
                                        "client-secret" None)))
  = ([EvConsoleError "Failed to fetch repository metadata:"
        ("GitHub App authentication failed: GitHub App authentication failed: "
         ++ "[@octokit/auth-app] installationId is set to a falsy value")],
     Returned {| metadata := mkMetadata "user" "repo" None None github false;
                 normalizedUrl := "https://github.com/user/repo";
                 originalUrl := "https://github.com/user/repo" |}).
Proof. vm_compute. reflexivity. Qed.

Example validate_and_isValidProvider :
  @GitRepoParser.validate Model.web "https://github.com/user/repo" = true
  /\ @GitRepoParser.validate Model.web "user/repo" = true
  /\ @GitRepoParser.validate Model.web "invalid-url" = false
  /\ @GitRepoParser.isValidProvider Model.web "https://github.com/user/repo" = true
  /\ @GitRepoParser.isValidProvider Model.web "https://gitlab.com/user/repo" = true
  /\ @GitRepoParser.isValidProvider Model.web "https://bitbucket.org/user/repo" = true
  /\ @GitRepoParser.isValidProvider Model.web "https://example.com/user/repo" = false.
Proof. repeat split; vm_compute; reflexivity. Qed.

(* ===================================================================== *)
(** ** Further properties of [GitRepoParser.parse] *)
(* ===================================================================== *)

Section ParseEffects.
Context {P : Platform}.

(** The errors of [normalize] are the three of lines 72, 79 and 101. *)
Lemma normalize_errors (url : string) (e : exn) :
  GitRepoParser.normalize url = Threw e ->
  e = GitRepoParser.invalid_format
  \/ e = Throwable TypeError "Invalid URL"
  \/ e = GitRepoParser.missing_owner_or_repo.
Proof.
  unfold GitRepoParser.normalize.
  repeat case_scrutinee; intros [= <-]; auto.
Qed.

(** X1: a reference whose provider is not github is returned with
    [isPrivate = false] and without any effect: no token exchange, no
    request, no console line, whatever the options hold. *)
Theorem other_providers_are_not_queried
        (url : string) (options : ParseOptions) (r : GitRepoParser.Reference) :
  GitRepoParser.normalize url = Returned r ->
  GitRepoParser.ref_provider r <> github ->
  GitRepoParser.parse url options = ([], Returned (result_of r false)).
Proof.
  intros Hn Hp.
  destruct (parse_normalized url options r Hn) as (b & Hb & ->).
  unfold GitRepoParser.visibility in *.
  destruct (GitRepoParser.ref_provider r); try contradiction;
    simpl in *; now injection Hb as <-.
Qed.

(** X2: [parse] throws only what the normalization throws (the
    invalid-format error, the URL error or the missing-owner-or-repo
    error), and then before any effect.  Once the reference is
    normalized nothing the platform does makes [parse] throw. *)
Theorem parse_throws_only_normalization_errors
        (url : string) (options : ParseOptions) (e : exn) :
  snd (GitRepoParser.parse url options) = Threw e ->
  GitRepoParser.normalize url = Threw e
  /\ GitRepoParser.parse url options = ([], Threw e)
  /\ (e = GitRepoParser.invalid_format
      \/ e = Throwable TypeError "Invalid URL"
      \/ e = GitRepoParser.missing_owner_or_repo).
Proof.
  intros Ht. destruct (GitRepoParser.normalize url) as [r|e'] eqn:Hn.
  - destruct (parse_normalized url options r Hn) as (b & _ & Hp).
    rewrite Hp in Ht. discriminate.
  - rewrite (parse_not_normalized url options e' Hn) in *.
    injection Ht as ->. split; [reflexivity|]. split; [reflexivity|].
    exact (normalize_errors url e Hn).
Qed.

(** The credentials step makes at most one token exchange and nothing
    else. *)
Lemma authorize_trace (options : ParseOptions) :
  fst (GitRepoParser.authorize options) = []
  \/ exists t, fst (GitRepoParser.authorize options) = [EvAppAuth t].
Proof.
  unfold GitRepoParser.authorize, GitHubAppAuth.getAuthenticationToken,
    GitHubAppAuth.await_auth.
  destruct (githubApp options) as [config|].
  - destruct (createAppAuth config) as [auth|[n m|]]; simpl.
    + right. destruct (Js.truthy_opt (installationId config)); simpl.
      * exists installation.
        destruct (auth installation) as [a|[n m|]]; simpl;
          try reflexivity; destruct (String.eqb _ _); reflexivity.
      * exists app.
        destruct (auth app) as [a|[n m|]]; simpl;
          try reflexivity; destruct (String.eqb _ _); reflexivity.
    + left. first [reflexivity | destruct (String.eqb _ _); reflexivity].
    + left. reflexivity.
  - left. destruct (authToken options) as [tok|]; [|reflexivity].
    destruct (Js.truthy tok); [|reflexivity].
    destruct (negb _ && negb _); reflexivity.
Qed.

(** The request step makes exactly one request, for [owner/repo]. *)
Lemma fetchMetadata_one_request (owner cleanRepo : string)
      (headers : list (string * string)) :
  fst (GitRepoParser.fetchMetadata owner cleanRepo headers)
  = [EvFetch (mkRequest (GitRepoParser.api_url owner cleanRepo) headers)].
Proof.
  unfold GitRepoParser.fetchMetadata, emit, lift. rewrite bind_returned. simpl.
  destruct (fetch _) as [response|e]; simpl; [|reflexivity].
  destruct (ok response); simpl; [reflexivity|].
  destruct (rejectResponse_throws owner cleanRepo response) as (n & m & ->).
  reflexivity.
Qed.

(** The trace of the guarded block, by the outcome of the credentials
    step. *)
Lemma visibility_trace (r : GitRepoParser.Reference) (options : ParseOptions) :
  GitRepoParser.ref_provider r = github ->
  exists console,
    (console = [] \/ exists message, console = [console_report message])
    /\ match snd (GitRepoParser.authorize options) with
       | Returned headers =>
           fst (GitRepoParser.visibility r options)
           = (fst (GitRepoParser.authorize options)
              ++ [EvFetch (mkRequest (GitRepoParser.api_url (GitRepoParser.ref_owner r)
                                                            (GitRepoParser.ref_cleanRepo r))
                                     headers)]
              ++ console)%list
       | Threw _ =>
           fst (GitRepoParser.visibility r options)
           = (fst (GitRepoParser.authorize options) ++ console)%list
       end.
Proof.
  intros Hp. unfold GitRepoParser.visibility. rewrite Hp. simpl.
  destruct (GitRepoParser.authorize options) as [t [headers|e]]; simpl.
  - pose proof (fetchMetadata_one_request (GitRepoParser.ref_owner r)
                  (GitRepoParser.ref_cleanRepo r) headers) as Hf.
    destruct (GitRepoParser.fetchMetadata _ _ headers) as [t' [b|e]];
      simpl in *; subst t'.
    + exists []. split; [now left|reflexivity].
    + rewrite recover_spec. destruct e as [n m|]; simpl.
      * exists [console_report m]. split; [right; now exists m|].
        now rewrite <- app_assoc.
      * exists []. split; [now left|]. now rewrite app_nil_r.
  - rewrite recover_spec. destruct e as [n m|]; simpl.
    + exists [console_report m]. split; [right; now exists m|reflexivity].
    + exists []. split; [now left|reflexivity].
Qed.

(** X3: when the credentials are accepted and the response is [ok], the
    returned [isPrivate] is the [private] field of the response body, and
    the only effects are those of the credentials step and the one
    request: nothing is written to the console. *)
Theorem visibility_is_read_from_the_response
        (url : string) (options : ParseOptions) (r : GitRepoParser.Reference)
        (t : list event) (headers : list (string * string))
        (response : Response) (private : bool) :
  GitRepoParser.normalize url = Returned r ->
  GitRepoParser.ref_provider r = github ->
  GitRepoParser.authorize options = (t, Returned headers) ->
  fetch (mkRequest (GitRepoParser.api_url (GitRepoParser.ref_owner r)
                                          (GitRepoParser.ref_cleanRepo r)) headers)
  = Returned response ->
  ok response = true ->
  json_private response = Returned private ->
  GitRepoParser.parse url options
  = ((t ++ [EvFetch (mkRequest
                       (GitRepoParser.api_url (GitRepoParser.ref_owner r)
                                              (GitRepoParser.ref_cleanRepo r))
                       headers)])%list,
     Returned (result_of r private)).
Proof.
  intros Hn Hp Ha Hf Hok Hj.
  destruct (parse_normalized url options r Hn) as (b & Hb & ->).
  unfold GitRepoParser.visibility, GitRepoParser.fetchMetadata in *.
  rewrite Hp, Ha in *. simpl in *. unfold lift in *.
  rewrite Hf, Hok in *. simpl in *. rewrite Hj in *. simpl in *.
  now injection Hb as <-.
Qed.

(** X4: whatever the input, the options and the platform, the effects of
    [parse] are, in this order, at most one token exchange, at most one
    request and at most one console line; the request, if any, is for
    the owner and repo of the normalized reference. *)
Theorem parse_trace_shape (url : string) (options : ParseOptions) :
  exists exchange request console,
    fst (GitRepoParser.parse url options) = (exchange ++ request ++ console)%list
    /\ (exchange = [] \/ exists t, exchange = [EvAppAuth t])
    /\ (request = []
        \/ exists r headers,
            GitRepoParser.normalize url = Returned r
            /\ request = [EvFetch (mkRequest
                                     (GitRepoParser.api_url (GitRepoParser.ref_owner r)
                                                            (GitRepoParser.ref_cleanRepo r))
                                     headers)])
    /\ (console = [] \/ exists message, console = [console_report message]).
Proof.
  destruct (GitRepoParser.normalize url) as [r|e] eqn:Hn.
  - destruct (parse_normalized url options r Hn) as (b & _ & ->). simpl.
    destruct (eqb_Provider (GitRepoParser.ref_provider r) github) eqn:Hp.
    + assert (Hg : GitRepoParser.ref_provider r = github)
        by (destruct (GitRepoParser.ref_provider r); (reflexivity || discriminate)).
      destruct (visibility_trace r options Hg) as (console & Hc & Ht).
      destruct (snd (GitRepoParser.authorize options)) as [headers|e].
      * eexists _, _, console. split; [exact Ht|].
        split; [apply authorize_trace|]. split; [|exact Hc].
        right. now exists r, headers.
      * exists (fst (GitRepoParser.authorize options)), [], console.
        split; [exact Ht|]. split; [apply authorize_trace|]. split; [now left|exact Hc].
    + unfold GitRepoParser.visibility. rewrite Hp.
      exists [], [], []. simpl. auto.
  - rewrite (parse_not_normalized url options e Hn).
    exists [], [], []. simpl. auto.
Qed.

(** What the credentials step returns, read back from the options. *)
Lemma authorize_returned_inv (options : ParseOptions) (t : list event)
      (headers : list (string * string)) :
  GitRepoParser.authorize options = (t, Returned headers) ->
  (githubApp options = None /\ Js.truthy_opt (authToken options) = false
   /\ headers = GitRepoParser.accept_header)
  \/ (exists tok,
        githubApp options = None /\ authToken options = Some tok
        /\ (Js.startsWith tok "ghp_" = true \/ Js.startsWith tok "github_pat_" = true)
        /\ headers = GitRepoParser.set_Authorization GitRepoParser.accept_header tok)
  \/ (exists config auth a,
        githubApp options = Some config
        /\ Js.truthy_opt (installationId config) = true
        /\ createAppAuth config = Returned auth
        /\ auth installation = Returned a
        /\ headers = GitRepoParser.set_Authorization GitRepoParser.accept_header
                       (auth_token a)).
Proof.
  unfold GitRepoParser.authorize, GitHubAppAuth.getAuthenticationToken,
    GitHubAppAuth.await_auth.
  destruct (githubApp options) as [config|].
  - destruct (createAppAuth config) as [auth|[n m|]] eqn:Hc; simpl.
    + destruct (Js.truthy_opt (installationId config)) eqn:Hi; simpl.
      * destruct (auth installation) as [a|[n m|]] eqn:Ha; simpl.
        -- intros [= <- <-]. right. right. now exists config, auth, a.
        -- first [discriminate | destruct (String.eqb _ _); discriminate].
        -- discriminate.
      * destruct (auth app) as [a|[n m|]]; simpl;
          first [discriminate | destruct (String.eqb _ _); discriminate].
    + first [discriminate | destruct (String.eqb _ _); discriminate].
    + discriminate.
  - destruct (authToken options) as [tok|]; simpl.
    + destruct (Js.truthy tok) eqn:Ht.
      * destruct (Js.startsWith tok "ghp_") eqn:H1; simpl.
        -- intros [= <- <-]. right. left. exists tok. auto.
        -- destruct (Js.startsWith tok "github_pat_") eqn:H2; simpl.
           ++ intros [= <- <-]. right. left. exists tok. auto.
           ++ discriminate.
      * intros [= <- <-]. left. auto.
    + intros [= <- <-]. left. auto.
Qed.

(** X5: every request that [parse] makes goes to the repository endpoint
    of the normalized owner and repo, and carries either no credential
    (no App configuration and no token, or an empty one), or the caller's
    token, which then starts with [ghp_] or [github_pat_], or the
    installation token of the App configuration.  A token with another
    prefix and the App-level token of a pending installation are never
    sent. *)
Theorem request_credentials (url : string) (options : ParseOptions) (req : Request) :
  In (EvFetch req) (fst (GitRepoParser.parse url options)) ->
  exists r,
    GitRepoParser.normalize url = Returned r
    /\ GitRepoParser.ref_provider r = github
    /\ req_url req = GitRepoParser.api_url (GitRepoParser.ref_owner r)
                                            (GitRepoParser.ref_cleanRepo r)
    /\ ((githubApp options = None /\ Js.truthy_opt (authToken options) = false
         /\ req_headers req = GitRepoParser.accept_header)
        \/ (exists tok,
              githubApp options = None /\ authToken options = Some tok
              /\ (Js.startsWith tok "ghp_" = true \/ Js.startsWith tok "github_pat_" = true)
              /\ req_headers req
                 = GitRepoParser.set_Authorization GitRepoParser.accept_header tok)
        \/ (exists config auth a,
              githubApp options = Some config
              /\ Js.truthy_opt (installationId config) = true
              /\ createAppAuth config = Returned auth
              /\ auth installation = Returned a
              /\ req_headers req
                 = GitRepoParser.set_Authorization GitRepoParser.accept_header
                     (auth_token a))).
Proof.
  intros Hin. destruct (GitRepoParser.normalize url) as [r|e] eqn:Hn.
  - destruct (parse_normalized url options r Hn) as (b & _ & Hp).
    rewrite Hp in Hin. simpl in Hin. exists r. split; [reflexivity|].
    destruct (eqb_Provider (GitRepoParser.ref_provider r) github) eqn:Hg.
    + assert (Hgh : GitRepoParser.ref_provider r = github)
        by (destruct (GitRepoParser.ref_provider r); (reflexivity || discriminate)).
      split; [exact Hgh|].
      destruct (visibility_trace r options Hgh) as (console & Hc & Ht).
      assert (Hnot : forall l, (l = [] \/ exists m, l = [console_report m]) ->
                               ~ In (EvFetch req) l).
      { intros l [->|[m ->]] Hl; [contradiction|].
        destruct Hl as [Hl|[]]. unfold console_report in Hl.
        destruct (Js.includes m "rate limit exceeded"); discriminate. }
      assert (Hnot' : ~ In (EvFetch req) (fst (GitRepoParser.authorize options))).
      { destruct (authorize_trace options) as [->|[t ->]]; [tauto|].
        intros [Hl|[]]. discriminate. }
      destruct (GitRepoParser.authorize options) as [t [headers|e]] eqn:Ha;
        simpl in *; rewrite Ht in Hin; apply in_app_or in Hin.
      * destruct Hin as [Hin|Hin]; [contradiction|].
        destruct Hin as [Hin|Hin]; [|now apply Hnot in Hc].
        injection Hin as <-. split; [reflexivity|]. simpl.
        exact (authorize_returned_inv options t headers Ha).
      * destruct Hin as [Hin|Hin]; [contradiction|now apply Hnot in Hc].
    + unfold GitRepoParser.visibility in Hin. rewrite Hg in Hin. contradiction.
  - rewrite (parse_not_normalized url options e Hn) in Hin. contradiction.
Qed.

End ParseEffects.

(** X1 at a gitlab URL, with a token that has no valid prefix. *)
Lemma gitlab_is_not_queried :
  @GitRepoParser.parse (Model.platform (Model.respond Model.private_repo) Model.app_token)
     "https://gitlab.com/user/repo" (mkOptions (Some "invalid_token") None)
  = ([], Returned
           {| metadata := mkMetadata "user" "repo" None None gitlab false;
              normalizedUrl := "https://gitlab.com/user/repo";
              originalUrl := "https://gitlab.com/user/repo" |}).
Proof.
  apply (@other_providers_are_not_queried
           (Model.platform (Model.respond Model.private_repo) Model.app_token)
           "https://gitlab.com/user/repo" (mkOptions (Some "invalid_token") None)
           (GitRepoParser.mkReference "https://gitlab.com/user/repo" "gitlab.com"
              "user" "repo" None None gitlab "https://gitlab.com/user/repo")).
  - reflexivity.
  - discriminate.
Defined.

(** X2 at an input without owner and repo. *)
Lemma parse_throws_missing_owner_or_repo :
  @GitRepoParser.normalize Model.web "https://example.com/user"
  = Threw GitRepoParser.missing_owner_or_repo
  /\ @GitRepoParser.parse Model.web "https://example.com/user" no_options
     = ([], Threw GitRepoParser.missing_owner_or_repo)
  /\ (GitRepoParser.missing_owner_or_repo = @GitRepoParser.invalid_format Model.web
      \/ GitRepoParser.missing_owner_or_repo = Throwable TypeError "Invalid URL"
      \/ GitRepoParser.missing_owner_or_repo = GitRepoParser.missing_owner_or_repo).
Proof.
  exact (@parse_throws_only_normalization_errors Model.web
           "https://example.com/user" no_options GitRepoParser.missing_owner_or_repo
           eq_refl).
Defined.

(** X3 at a private repository, with a personal access token. *)
Lemma private_repository_is_reported :
  @GitRepoParser.parse (Model.platform (Model.respond Model.private_repo) Model.app_token)
     "user/repo" (mkOptions (Some "ghp_token") None)
  = ([EvFetch (mkRequest "https://api.github.com/repos/user/repo"
                 [("Accept", "application/vnd.github.v3+json");
                  ("Authorization", "Bearer ghp_token")])],
     Returned
       {| metadata := mkMetadata "user" "repo" None None github true;
          normalizedUrl := "https://github.com/user/repo";
          originalUrl := "https://github.com/user/repo" |}).
Proof.
  exact (@visibility_is_read_from_the_response
           (Model.platform (Model.respond Model.private_repo) Model.app_token)
           "user/repo" (mkOptions (Some "ghp_token") None)
           (GitRepoParser.mkReference "https://github.com/user/repo" "github.com"
              "user" "repo" None None github "https://github.com/user/repo")
           [] [("Accept", "application/vnd.github.v3+json");
               ("Authorization", "Bearer ghp_token")]
           Model.private_repo true
           eq_refl eq_refl eq_refl eq_refl eq_refl eq_refl).
Defined.

(** X5 at a request made with an installation token: the personal token
    of the options, which has no valid prefix, is not looked at. *)
Lemma installation_token_is_sent :
  exists r,
    @GitRepoParser.normalize
       (Model.platform (Model.respond Model.public_repo) Model.app_token) "user/repo"
    = Returned r
    /\ GitRepoParser.ref_provider r = github
    /\ "https://api.github.com/repos/user/repo"
       = GitRepoParser.api_url (GitRepoParser.ref_owner r) (GitRepoParser.ref_cleanRepo r)
    /\ exists config auth a,
         Some (mkAppConfig "1" "key" "id" "secret" (Some "77")) = Some config
         /\ Js.truthy_opt (installationId config) = true
         /\ Model.app_token config = Returned auth
         /\ auth installation = Returned a
         /\ [("Accept", "application/vnd.github.v3+json");
             ("Authorization", "Bearer ghs_installation")]
            = GitRepoParser.set_Authorization GitRepoParser.accept_header (auth_token a).
Proof.
  destruct (@request_credentials
              (Model.platform (Model.respond Model.public_repo) Model.app_token)
              "user/repo"
              (mkOptions (Some "invalid_token")
                 (Some (mkAppConfig "1" "key" "id" "secret" (Some "77"))))
              (mkRequest "https://api.github.com/repos/user/repo"
                 [("Accept", "application/vnd.github.v3+json");
                  ("Authorization", "Bearer ghs_installation")]))
    as (r & Hn & Hp & Hu & [H|[H|H]]).
  - right. left. reflexivity.
  - destruct H as (H & _). discriminate H.
  - destruct H as (tok & H & _). discriminate H.
  - exists r. auto.
Defined.

(* ===================================================================== *)
(** ** [GitHubAppAuth.getAuthenticationToken] *)
(* ===================================================================== *)

Section AppAuthentication.
Context {P : Platform}.

(** X6: [getAuthenticationToken] makes a token exchange only after
    [createAppAuth] has returned, and then exactly one, of type
    installation when the configuration has a non-empty installation id
    and of type app otherwise (an empty id counts as none).  A result
    has the type, the token and the expiry of that exchange, and carries
    the installation URL exactly when its type is app.  A thrown [Error]
    always has a message that starts with the fixed prefix, also when it
    comes from [createAppAuth]; a thrown value that is not an [Error] is
    passed on. *)
Theorem getAuthenticationToken_outcome (config : GitHubAppConfig) :
  let t := if Js.truthy_opt (installationId config) then installation else app in
  fst (GitHubAppAuth.getAuthenticationToken config)
  = match createAppAuth config with
    | Returned _ => [EvAppAuth t]
    | Threw _ => []
    end
  /\ (forall result,
      snd (GitHubAppAuth.getAuthenticationToken config) = Returned result ->
      exists auth a,
        createAppAuth config = Returned auth
        /\ auth t = Returned a
        /\ result = {| token := auth_token a;
                       type := t;
                       expiresAt := auth_expiresAt a;
                       installationUrl :=
                         match t with
                         | app => Some GitHubAppAuth.GITHUB_APP_INSTALLATION_URL
                         | installation => None
                         end |})
  /\ (forall e,
      snd (GitHubAppAuth.getAuthenticationToken config) = Threw e ->
      let thrown := match createAppAuth config with
                    | Returned auth => auth t
                    | Threw e' => Threw e'
                    end in
      (thrown = Threw NonError /\ e = NonError)
      \/ exists name message,
          thrown = Threw (Throwable name message)
          /\ e = Throwable Error ("GitHub App authentication failed: " ++ message)).
Proof.
  unfold GitHubAppAuth.getAuthenticationToken, GitHubAppAuth.await_auth.
  destruct (createAppAuth config) as [auth|[n m|]]; simpl.
  - destruct (Js.truthy_opt (installationId config)); simpl;
      match goal with
      | |- context [auth ?t] => destruct (auth t) as [a|[n m|]] eqn:Ha
      end; simpl; (split; [reflexivity|]); split;
      intros x Hx; try discriminate; injection Hx as <-; eauto.
  - split; [reflexivity|]. split; intros x Hx; [discriminate|].
    injection Hx as <-. right. eauto.
  - split; [reflexivity|]. split; intros x Hx; [discriminate|].
    injection Hx as <-. left. auto.
Qed.

End AppAuthentication.

(* ===================================================================== *)
(** ** The normalized reference *)
(* ===================================================================== *)

Lemma string_length_append (a b : string) :
  String.length (a ++ b) = String.length a + String.length b.
Proof.
  induction a; simpl; congruence.
Qed.

Lemma substring_prefix (a b : string) :
  substring 0 (String.length a) (a ++ b) = a.
Proof.
  induction a as [|c a IH]; simpl.
  - now destruct b.
  - now rewrite IH.
Qed.

Lemma endsWith_append (a p : string) : Js.endsWith (a ++ p) p = true.
Proof.
  induction a as [|c a IH]; cbn [append].
  - destruct p; cbn [Js.endsWith]; now rewrite String.eqb_refl.
  - cbn [Js.endsWith].
    destruct (String.eqb (String c (a ++ p)) p); [reflexivity | exact IH].
Qed.

Lemma endsWith_inv (s p : string) :
  Js.endsWith s p = true -> exists a, s = a ++ p.
Proof.
  induction s as [|c s IH]; cbn [Js.endsWith].
  - destruct (String.eqb_spec EmptyString p) as [<-|_]; [|discriminate].
    now exists EmptyString.
  - destruct (String.eqb_spec (String c s) p) as [<-|_].
    + now exists EmptyString.
    + intros He. destruct (IH He) as [a ->]. now exists (String c a).
Qed.

Lemma replace_git_suffix_append (a : string) :
  Js.replace_git_suffix (a ++ ".git") = a.
Proof.
  unfold Js.replace_git_suffix, Js.dropRight.
  rewrite endsWith_append, string_length_append. simpl String.length.
  replace (String.length a + 4 - 4) with (String.length a) by lia.
  apply substring_prefix.
Qed.

(** X7: [replace(/\.git$/, "")] removes one trailing [.git] and nothing
    else: a string [s.git] becomes [s], also when [s] ends in [.git]
    itself, and a string that does not end in [.git] is unchanged. *)
Theorem replace_git_suffix_spec (s : string) :
  Js.replace_git_suffix (s ++ ".git") = s
  /\ Js.replace_git_suffix (s ++ ".git.git") = s ++ ".git"
  /\ ((forall a, s <> a ++ ".git") -> Js.replace_git_suffix s = s).
Proof.
  split; [apply replace_git_suffix_append|]. split.
  - replace (s ++ ".git.git") with ((s ++ ".git") ++ ".git")
      by (now rewrite append_assoc).
    apply replace_git_suffix_append.
  - intros Hno. unfold Js.replace_git_suffix.
    destruct (Js.endsWith s ".git") eqn:He; [|reflexivity].
    apply endsWith_inv in He as [a ->]. now contradiction (Hno a).
Qed.

Lemma replace_git_suffix_empty (s : string) :
  Js.replace_git_suffix s = EmptyString <-> s = EmptyString \/ s = ".git".
Proof.
  split.
  - intros H. destruct (Js.endsWith s ".git") eqn:He.
    + apply endsWith_inv in He as [a ->].
      rewrite replace_git_suffix_append in H. subst a. now right.
    + unfold Js.replace_git_suffix in H. rewrite He in H. now left.
  - intros [->| ->]; reflexivity.
Qed.

Lemma endsWith_last_token (x y : string) :
  y <> EmptyString -> Js.endsWith (x ++ y) (String "/" EmptyString) = Js.endsWith y (String "/" EmptyString).
Proof.
  intros Hy. induction x as [|d x IH]; [reflexivity|].
  cbn [append Js.endsWith].
  destruct (String.eqb_spec (String d (x ++ y)) "/") as [E|_]; [|exact IH].
  injection E as _ E. destruct x; [simpl in E; contradiction | discriminate].
Qed.

Lemma endsWith_needs_char (y : string) :
  RegExp.all_in RegExp.no_slash y = true -> Js.endsWith y "/" = false.
Proof.
  induction y as [|c y IH]; intros Hall; [reflexivity|].
  simpl in Hall. apply andb_true_iff in Hall as [Hc Hy].
  cbn [Js.endsWith]. destruct (String.eqb_spec (String c y) "/") as [E|_].
  - injection E as -> _. discriminate.
  - now apply IH.
Qed.

Section Reference.
Context {P : Platform}.

(** X8: in a normalized reference the owner and the repo are not empty and
    contain no slash, the canonical URL is [https://], the host name,
    [/owner/repo], without a trailing slash, the provider is the one
    detected from the host name, and branch and commit are what the two
    patterns find in the (expanded) input. *)
Theorem normalized_reference_invariant (url : string) (r : GitRepoParser.Reference) :
  GitRepoParser.normalize url = Returned r ->
  token_of RegExp.no_slash (GitRepoParser.ref_owner r)
  /\ token_of RegExp.no_slash (GitRepoParser.ref_cleanRepo r)
  /\ GitRepoParser.ref_normalizedUrl r
     = "https://" ++ GitRepoParser.ref_hostname r ++ "/"
       ++ GitRepoParser.ref_owner r ++ "/" ++ GitRepoParser.ref_cleanRepo r
  /\ Js.endsWith (GitRepoParser.ref_normalizedUrl r) "/" = false
  /\ GitRepoParser.ref_provider r = first_match (GitRepoParser.ref_hostname r)
  /\ GitRepoParser.ref_branch r = GitRepoParser.BRANCH_PATTERN (GitRepoParser.expand url)
  /\ GitRepoParser.ref_commit r = GitRepoParser.COMMIT_PATTERN (GitRepoParser.expand url).
Proof.
  intros Hn.
  destruct (normalize_inv url r Hn)
    as (u & o & rp & _ & _ & Ho & Hrp & _ & Hne & ->).
  cbn [GitRepoParser.ref_owner GitRepoParser.ref_cleanRepo GitRepoParser.ref_hostname
       GitRepoParser.ref_normalizedUrl GitRepoParser.ref_provider
       GitRepoParser.ref_branch GitRepoParser.ref_commit].
  destruct (segment_is_token _ _ _ Ho) as [Hone Hoall].
  destruct (segment_is_token _ _ _ Hrp) as [_ Hrpall].
  assert (Hc : RegExp.all_in RegExp.no_slash (Js.replace_git_suffix rp) = true)
    by (now apply all_in_replace_git_suffix).
  repeat split; auto using detect_provider_first_match.
  rewrite <- !append_assoc.
  rewrite endsWith_last_token by exact Hne.
  now apply endsWith_needs_char.
Qed.

End Reference.

(** X8 at a URL with credentials, port, branch and query. *)
Lemma normalized_reference_invariant_witness :
  token_of RegExp.no_slash "user"
  /\ token_of RegExp.no_slash "repo"
  /\ "https://github.com/user/repo" = "https://" ++ "github.com" ++ "/" ++ "user" ++ "/" ++ "repo"
  /\ Js.endsWith "https://github.com/user/repo" "/" = false
  /\ github = first_match "github.com"
  /\ Some "main"
     = GitRepoParser.BRANCH_PATTERN
         (GitRepoParser.expand "HTTP://me:pw@GitHub.com:8080/user/repo.git/tree/main?tab=readme")
  /\ None
     = GitRepoParser.COMMIT_PATTERN
         (GitRepoParser.expand "HTTP://me:pw@GitHub.com:8080/user/repo.git/tree/main?tab=readme").
Proof.
  exact (@normalized_reference_invariant Model.web
           "HTTP://me:pw@GitHub.com:8080/user/repo.git/tree/main?tab=readme"
           (GitRepoParser.mkReference
              "HTTP://me:pw@GitHub.com:8080/user/repo.git/tree/main?tab=readme"
              "github.com" "user" "repo" (Some "main") None github
              "https://github.com/user/repo")
           eq_refl).
Defined.

Lemma truthy_false_iff (s : string) : Js.truthy s = false <-> s = EmptyString.
Proof.
  unfold Js.truthy. rewrite negb_false_iff. apply String.eqb_eq.
Qed.

Section MissingOwnerOrRepo.
Context {P : Platform}.

(** X9: normalization fails with the missing-owner-or-repo error exactly
    when the input passes the schema, the platform parses the (expanded)
    URL, and its path has no second non-empty segment or that segment is
    exactly [.git]. *)
Theorem missing_owner_or_repo_exactly_when (url : string) :
  GitRepoParser.normalize url = Threw GitRepoParser.missing_owner_or_repo
  <-> gitUrlSchema url = true
      /\ exists u,
          new_URL (GitRepoParser.expand url) = Some u
          /\ (nth_error (Js.filter_Boolean (Js.split "/" (pathname u))) 1 = None
              \/ nth_error (Js.filter_Boolean (Js.split "/" (pathname u))) 1
                 = Some ".git").
Proof.
  unfold GitRepoParser.normalize.
  destruct (gitUrlSchema url); cbn [negb].
  2:{ split; [discriminate | intros [H _]; discriminate]. }
  destruct (new_URL (GitRepoParser.expand url)) as [u|].
  2:{ split; [discriminate | intros [_ (u & H & _)]; discriminate]. }
  cbv zeta.
  set (segs := Js.filter_Boolean (Js.split "/" (pathname u))).
  assert (Htruthy : forall i w, nth_error segs i = Some w -> w <> EmptyString).
  { intros i w Hw. exact (proj1 (segment_is_token _ _ _ Hw)). }
  destruct (nth_error segs 0) as [o|] eqn:Ho.
  - destruct (nth_error segs 1) as [rp|] eqn:Hrp; cbn [option_map].
    + pose proof (Htruthy 0 o Ho) as Hone. pose proof (Htruthy 1 rp Hrp) as Hrne.
      apply truthy_true in Hone. rewrite Hone. cbn [negb orb].
      destruct (Js.truthy (Js.replace_git_suffix rp)) eqn:Ht; cbn [negb].
      * split; [discriminate|]. intros [_ (u' & Hu' & Hcase)].
        injection Hu' as <-. fold segs in Hcase. rewrite Hrp in Hcase.
        destruct Hcase as [H|H]; [discriminate|].
        injection H as ->. discriminate Ht.
      * split; [|reflexivity]. intros _. split; [reflexivity|].
        apply truthy_false_iff in Ht. apply replace_git_suffix_empty in Ht.
        destruct Ht as [->| ->]; [contradiction|].
        exists u. split; [reflexivity|]. right. exact Hrp.
    + split; [|reflexivity]. intros _. split; [reflexivity|].
      exists u. split; [reflexivity|]. left. exact Hrp.
  - assert (H1 : nth_error segs 1 = None).
    { destruct segs; [reflexivity | discriminate]. }
    split; [|reflexivity].
    intros _. split; [reflexivity|]. exists u. split; [reflexivity|]. left. exact H1.
Qed.

(** X10: a shorthand [owner/repo] that the schema accepts, and whose
    expansion the platform parses as the github.com URL it is, normalizes
    to provider github with the owner as given, the repo less one trailing
    [.git] and the canonical URL [https://github.com/owner/repo]; unless
    the repo is exactly [.git], which is the missing-owner-or-repo
    error. *)
Theorem shorthand_normalizes_to_github (o r : string) :
  token_of RegExp.word_hyphen o ->
  token_of RegExp.word_dot_hyphen r ->
  new_URL ("https://github.com/" ++ o ++ "/" ++ r)
  = Some (mkURL "github.com" ("/" ++ o ++ "/" ++ r)) ->
  (r = ".git" ->
   GitRepoParser.normalize (o ++ "/" ++ r) = Threw GitRepoParser.missing_owner_or_repo)
  /\ (r <> ".git" ->
      GitRepoParser.normalize (o ++ "/" ++ r)
      = Returned
          {| GitRepoParser.ref_url := "https://github.com/" ++ o ++ "/" ++ r;
             GitRepoParser.ref_hostname := "github.com";
             GitRepoParser.ref_owner := o;
             GitRepoParser.ref_cleanRepo := Js.replace_git_suffix r;
             GitRepoParser.ref_branch :=
               GitRepoParser.BRANCH_PATTERN ("https://github.com/" ++ o ++ "/" ++ r);
             GitRepoParser.ref_commit :=
               GitRepoParser.COMMIT_PATTERN ("https://github.com/" ++ o ++ "/" ++ r);
             GitRepoParser.ref_provider := github;
             GitRepoParser.ref_normalizedUrl :=
               "https://github.com/" ++ o ++ "/" ++ Js.replace_git_suffix r |}).
Proof.
  intros Ho Hr Hu.
  destruct (shorthand_expands o r Ho Hr) as [Hs He].
  assert (Hseg : Js.filter_Boolean (Js.split "/" (pathname (mkURL "github.com" ("/" ++ o ++ "/" ++ r))))
                 = [o; r]).
  { apply segments_of_owner_repo.
    - destruct Ho as [Hne Hall]. split; [exact Hne|].
      apply (all_in_weaken RegExp.word_hyphen); [|exact Hall].
      intros c. destruct c as [[] [] [] [] [] [] [] []]; vm_compute; congruence.
    - destruct Hr as [Hne Hall]. split; [exact Hne|].
      exact (all_in_weaken _ _ r word_dot_hyphen_no_slash Hall). }
  assert (Hu' : new_URL (GitRepoParser.expand (o ++ "/" ++ r))
                = Some (mkURL "github.com" ("/" ++ o ++ "/" ++ r)))
    by (now rewrite He).
  split.
  - intros ->. unfold GitRepoParser.normalize.
    rewrite Hs. cbn [negb]. rewrite Hu'. cbv zeta. rewrite Hseg.
    cbn [nth_error option_map].
    change (Js.replace_git_suffix ".git") with EmptyString.
    cbn [Js.truthy String.eqb negb]. now rewrite orb_true_r.
  - intros Hgit.
    rewrite (normalize_intro (o ++ "/" ++ r) _ o r [] Hs Hu' Hseg).
    + now rewrite He.
    + intros E. apply replace_git_suffix_empty in E as [E|E]; [|contradiction].
      now apply (proj1 Hr).
Qed.

End MissingOwnerOrRepo.

(** X10 at [user/repo.git]. *)
Lemma shorthand_with_git_suffix :
  @GitRepoParser.normalize Model.web ("user" ++ "/" ++ "repo.git")
  = Returned
      (GitRepoParser.mkReference "https://github.com/user/repo.git" "github.com"
         "user" "repo" None None github "https://github.com/user/repo").
Proof.
  assert (Ho : token_of RegExp.word_hyphen "user")
    by (split; [discriminate | vm_compute; reflexivity]).
  assert (Hr : token_of RegExp.word_dot_hyphen "repo.git")
    by (split; [discriminate | vm_compute; reflexivity]).
  assert (Hu : @new_URL Model.web ("https://github.com/" ++ "user" ++ "/" ++ "repo.git")
               = Some (mkURL "github.com" ("/" ++ "user" ++ "/" ++ "repo.git")))
    by (vm_compute; reflexivity).
  rewrite (proj2 (@shorthand_normalizes_to_github Model.web "user" "repo.git" Ho Hr Hu)
             ltac:(discriminate)).
  vm_compute. reflexivity.
Defined.

(* ===================================================================== *)
(** ** The first [/tree/] and the first [/commit/] win *)
(* ===================================================================== *)

Lemma after_literal_append (fold : ascii -> ascii) (lit s : string) :
  RegExp.after_literal fold lit (lit ++ s) = Some s.
Proof.
  induction lit as [|a lit IH]; simpl; [reflexivity|].
  now rewrite Ascii.eqb_refl.
Qed.

Lemma map_string_length (f : ascii -> ascii) (s : string) :
  String.length (RegExp.map_string f s) = String.length s.
Proof.
  induction s; simpl; congruence.
Qed.

(** Of two prefixes of one string the shorter is a prefix of the longer. *)
Lemma append_prefix_comparable (p x q z : string) :
  p ++ x = q ++ z -> String.length p <= String.length q ->
  exists w, q = p ++ w.
Proof.
  revert q. induction p as [|c p IH]; intros q E Hlen.
  - now exists q.
  - destruct q as [|d q]; simpl in Hlen; [lia|].
    simpl in E. injection E as -> E.
    destruct (IH q E ltac:(lia)) as [w ->]. now exists w.
Qed.

(** The capture of a token that follows the literal, when the literal
    does not start anywhere before. *)
Lemma match_capture_leftmost (fold : ascii -> ascii) (lit : string)
      (cls : ascii -> bool) (pre tok rest : string) :
  (forall a b, pre = a ++ b -> b <> EmptyString ->
               RegExp.after_literal fold lit (b ++ lit ++ tok ++ rest) = None) ->
  token_of cls tok ->
  (rest = EmptyString \/ exists x rest', rest = String x rest' /\ cls x = false) ->
  RegExp.match_capture fold lit cls (pre ++ lit ++ tok ++ rest) = Some tok.
Proof.
  intros Hpre Htok Hrest. induction pre as [|c pre IH].
  - cbn [append]. rewrite match_capture_unfold, after_literal_append.
    assert (Hcap : RegExp.take_while cls (tok ++ rest) = tok).
    { destruct Hrest as [->|(x & rest' & -> & Hx)].
      - rewrite append_nil_r. apply take_while_all, Htok.
      - apply take_while_stop; [apply Htok | exact Hx]. }
    rewrite Hcap. destruct Htok as [Hne _]. apply truthy_true in Hne.
    now rewrite Hne.
  - cbn [append]. rewrite match_capture_skip.
    + apply IH. intros a b -> Hb. apply (Hpre (String c a) b); [reflexivity|exact Hb].
    + apply (Hpre EmptyString (String c pre)); [reflexivity|discriminate].
Qed.

(** The segments of [scheme://host/owner/repo/word]. *)
Lemma url_segments (scheme h o c w : string) :
  RegExp.all_in RegExp.no_slash scheme = true ->
  RegExp.all_in RegExp.no_slash h = true ->
  RegExp.all_in RegExp.no_slash o = true ->
  RegExp.all_in RegExp.no_slash c = true ->
  RegExp.all_in RegExp.no_slash w = true ->
  Js.split "/" (scheme ++ "://" ++ h ++ "/" ++ o ++ "/" ++ c ++ "/" ++ w)
  = [scheme ++ ":"; EmptyString; h; o; c; w].
Proof.
  intros Hs Hh Ho Hc Hw.
  replace (scheme ++ "://" ++ h ++ "/" ++ o ++ "/" ++ c ++ "/" ++ w)
    with ((scheme ++ ":") ++ String "/" (EmptyString ++ String "/"
            (h ++ String "/" (o ++ String "/" (c ++ String "/" w)))))
    by (now rewrite append_assoc).
  rewrite !split_append.
  assert (Hsc : RegExp.all_in RegExp.no_slash (scheme ++ ":") = true)
    by (rewrite all_in_append, Hs; reflexivity).
  now rewrite (split_without_separator _ "/" _ eq_refl Hsc),
              (split_without_separator _ "/" h eq_refl Hh),
              (split_without_separator _ "/" o eq_refl Ho),
              (split_without_separator _ "/" c eq_refl Hc),
              (split_without_separator _ "/" w eq_refl Hw).
Qed.

Lemma inner_of_six {A} (la lb : list A) (x p0 p1 p2 p3 p4 p5 : A) :
  (la ++ x :: lb)%list = [p0; p1; p2; p3; p4; p5] ->
  la <> [] -> lb <> [] ->
  x = p1 \/ x = p2 \/ x = p3 \/ x = p4.
Proof.
  intros E Ha Hb.
  destruct la as [|a0 [|a1 [|a2 [|a3 [|a4 [|a5 la]]]]]]; simpl in E;
    try contradiction; injection E; intros; subst; auto; try contradiction.
  - destruct la; discriminate.
Qed.

(** In [scheme://host/owner/repo/word] a slash-free word that stands
    between two slashes before the last one is empty, the host, the owner
    or the repo. *)
Lemma word_before_last_segment (scheme h o c w x tail : string) :
  RegExp.all_in RegExp.no_slash scheme = true ->
  RegExp.all_in RegExp.no_slash h = true ->
  RegExp.all_in RegExp.no_slash o = true ->
  RegExp.all_in RegExp.no_slash c = true ->
  RegExp.all_in RegExp.no_slash w = true ->
  RegExp.all_in RegExp.no_slash x = true ->
  forall a,
    scheme ++ "://" ++ h ++ "/" ++ o ++ "/" ++ c ++ "/" ++ w
    = a ++ "/" ++ x ++ "/" ++ tail ->
    x = EmptyString \/ x = h \/ x = o \/ x = c.
Proof.
  intros Hs Hh Ho Hc Hw Hx a E.
  pose proof (url_segments scheme h o c w Hs Hh Ho Hc Hw) as Hseg.
  rewrite E in Hseg.
  change (a ++ "/" ++ x ++ "/" ++ tail)
    with (a ++ String "/" (x ++ String "/" tail)) in Hseg.
  rewrite !split_append in Hseg.
  rewrite (split_without_separator _ "/" x eq_refl Hx) in Hseg.
  apply (inner_of_six (Js.split "/" a) (Js.split "/" tail) x _ _ _ _ _ _ Hseg);
    apply split_not_nil.
Qed.

(** What the [i] flag lets stand for [/commit/]. *)
Lemma folded_commit_literal (found : string) :
  RegExp.map_string RegExp.fold_case found
  = RegExp.map_string RegExp.fold_case "/commit/" ->
  exists w, found = "/" ++ w ++ "/"
            /\ RegExp.all_in RegExp.no_slash w = true
            /\ RegExp.fold_string w = "commit".
Proof.
  intros Hf.
  destruct found as [|c0 [|c1 [|c2 [|c3 [|c4 [|c5 [|c6 [|c7 [|c8 found]]]]]]]]];
    try discriminate Hf.
  injection Hf as F0 F1 F2 F3 F4 F5 F6 F7.
  change (RegExp.fold_case "/") with "/"%char in F0, F7.
  apply fold_case_slash in F0, F7. subst c0 c7.
  exists (String c1 (String c2 (String c3 (String c4 (String c5 (String c6 EmptyString)))))).
  split; [reflexivity|]. split.
  - simpl.
    rewrite (fold_case_letter_no_slash c1 _ F1), (fold_case_letter_no_slash c2 _ F2),
      (fold_case_letter_no_slash c3 _ F3), (fold_case_letter_no_slash c4 _ F4),
      (fold_case_letter_no_slash c5 _ F5), (fold_case_letter_no_slash c6 _ F6);
      (reflexivity || (vm_compute; discriminate)).
  - unfold RegExp.fold_string. simpl. now rewrite F1, F2, F3, F4, F5, F6.
Qed.

Section FirstMatch.
Context {P : Platform}.

(** X11: in a URL [scheme://host/owner/repo/tree/b...] whose host, owner
    and repo are not [tree], the branch is [b], the longest run of word
    characters, dots and hyphens after the first [/tree/]: what follows
    [b] (a slash and the rest of a branch name such as [feature/login], a
    query, or a later [/tree/]) is not part of it. *)
Theorem branch_is_the_first_tree_token
        (scheme h o c b rest : string) (r : GitRepoParser.Reference) :
  RegExp.all_in RegExp.no_slash scheme = true ->
  RegExp.all_in RegExp.no_slash h = true ->
  RegExp.all_in RegExp.no_slash o = true ->
  RegExp.all_in RegExp.no_slash c = true ->
  h <> "tree" -> o <> "tree" -> c <> "tree" ->
  token_of RegExp.word_dot_hyphen b ->
  (rest = EmptyString
   \/ exists x rest', rest = String x rest' /\ RegExp.word_dot_hyphen x = false) ->
  GitRepoParser.normalize
    (scheme ++ "://" ++ h ++ "/" ++ o ++ "/" ++ c ++ "/tree/" ++ b ++ rest)
  = Returned r ->
  GitRepoParser.ref_branch r = Some b.
Proof.
  intros Hs Hh Ho Hc Nh No Nc Hb Hrest Hn.
  destruct (normalize_inv _ r Hn) as (u & o' & rp & _ & _ & _ & _ & _ & _ & ->).
  cbn [GitRepoParser.ref_branch].
  assert (He : GitRepoParser.expand
                 (scheme ++ "://" ++ h ++ "/" ++ o ++ "/" ++ c ++ "/tree/" ++ b ++ rest)
               = scheme ++ "://" ++ h ++ "/" ++ o ++ "/" ++ c ++ "/tree/" ++ b ++ rest).
  { unfold GitRepoParser.expand.
    replace (Js.includes _ "://") with true; [reflexivity|].
    symmetry. apply includes_contains. now exists scheme, (h ++ "/" ++ o ++ "/" ++ c ++ "/tree/" ++ b ++ rest). }
  rewrite He. unfold GitRepoParser.BRANCH_PATTERN.
  replace (scheme ++ "://" ++ h ++ "/" ++ o ++ "/" ++ c ++ "/tree/" ++ b ++ rest)
    with ((scheme ++ "://" ++ h ++ "/" ++ o ++ "/" ++ c) ++ "/tree/" ++ b ++ rest)
    by (now rewrite !append_assoc).
  apply match_capture_leftmost; [|exact Hb|exact Hrest].
  intros a t Ea Ht.
  destruct (RegExp.after_literal _ "/tree/" _) as [x|] eqn:Hx; [|reflexivity].
  exfalso.
  apply after_literal_inv in Hx as (found & Ef & Hf).
  rewrite !map_string_id in Hf. subst found.
  destruct (append_prefix_comparable "/tree/" x (t ++ "/tree") ("/" ++ b ++ rest))
    as [w Ew].
  { rewrite <- Ef. now rewrite append_assoc. }
  { rewrite string_length_append. destruct t; [contradiction|simpl; lia]. }
  destruct (word_before_last_segment scheme h o c "tree" "tree" w Hs Hh Ho Hc eq_refl eq_refl a)
    as [H|[H|[H|H]]]; try congruence; try discriminate.
  replace (scheme ++ "://" ++ h ++ "/" ++ o ++ "/" ++ c ++ "/" ++ "tree")
    with ((scheme ++ "://" ++ h ++ "/" ++ o ++ "/" ++ c) ++ "/tree")
    by (now rewrite !append_assoc).
  rewrite Ea, append_assoc, Ew. reflexivity.
Qed.

(** X12: in a URL [scheme://host/owner/repo/commit/x...] whose host,
    owner and repo are not [commit] in any letter case, the commit is [x],
    the longest run of hexadecimal digits of either case after the first
    [/commit/]: it stops at the first character that is not one. *)
Theorem commit_is_the_first_hex_run
        (scheme h o c x rest : string) (r : GitRepoParser.Reference) :
  RegExp.all_in RegExp.no_slash scheme = true ->
  RegExp.all_in RegExp.no_slash h = true ->
  RegExp.all_in RegExp.no_slash o = true ->
  RegExp.all_in RegExp.no_slash c = true ->
  RegExp.fold_string h <> "commit" ->
  RegExp.fold_string o <> "commit" ->
  RegExp.fold_string c <> "commit" ->
  token_of RegExp.hex_ci x ->
  (rest = EmptyString
   \/ exists y rest', rest = String y rest' /\ RegExp.hex_ci y = false) ->
  GitRepoParser.normalize
    (scheme ++ "://" ++ h ++ "/" ++ o ++ "/" ++ c ++ "/commit/" ++ x ++ rest)
  = Returned r ->
  GitRepoParser.ref_commit r = Some x.
Proof.
  intros Hs Hh Ho Hc Nh No Nc Hx Hrest Hn.
  destruct (normalize_inv _ r Hn) as (u & o' & rp & _ & _ & _ & _ & _ & _ & ->).
  cbn [GitRepoParser.ref_commit].
  assert (He : GitRepoParser.expand
                 (scheme ++ "://" ++ h ++ "/" ++ o ++ "/" ++ c ++ "/commit/" ++ x ++ rest)
               = scheme ++ "://" ++ h ++ "/" ++ o ++ "/" ++ c ++ "/commit/" ++ x ++ rest).
  { unfold GitRepoParser.expand.
    replace (Js.includes _ "://") with true; [reflexivity|].
    symmetry. apply includes_contains.
    now exists scheme, (h ++ "/" ++ o ++ "/" ++ c ++ "/commit/" ++ x ++ rest). }
  rewrite He. unfold GitRepoParser.COMMIT_PATTERN.
  replace (scheme ++ "://" ++ h ++ "/" ++ o ++ "/" ++ c ++ "/commit/" ++ x ++ rest)
    with ((scheme ++ "://" ++ h ++ "/" ++ o ++ "/" ++ c) ++ "/commit/" ++ x ++ rest)
    by (now rewrite !append_assoc).
  apply match_capture_leftmost; [|exact Hx|exact Hrest].
  intros a t Ea Ht.
  destruct (RegExp.after_literal _ "/commit/" _) as [y|] eqn:Hy; [|reflexivity].
  exfalso.
  apply after_literal_inv in Hy as (found & Ef & Hf).
  destruct (folded_commit_literal found Hf) as (w & -> & Hw & Hfold).
  destruct (append_prefix_comparable ("/" ++ w ++ "/") y (t ++ "/commit") ("/" ++ x ++ rest))
    as [w' Ew].
  { rewrite <- Ef. now rewrite append_assoc. }
  { apply (f_equal String.length) in Hfold. unfold RegExp.fold_string in Hfold.
    rewrite map_string_length in Hfold.
    rewrite !string_length_append. simpl in *. rewrite Hfold.
    destruct t; [contradiction|simpl; lia]. }
  destruct (word_before_last_segment scheme h o c "commit" w w' Hs Hh Ho Hc eq_refl Hw a)
    as [H|[H|[H|H]]]; try (subst w; try discriminate Hfold; contradiction).
  replace (scheme ++ "://" ++ h ++ "/" ++ o ++ "/" ++ c ++ "/" ++ "commit")
    with ((scheme ++ "://" ++ h ++ "/" ++ o ++ "/" ++ c) ++ "/commit")
    by (now rewrite !append_assoc).
  rewrite Ea, append_assoc, Ew. now rewrite !append_assoc.
Qed.

End FirstMatch.

(** X11 at a branch name with a slash and a later [/tree/]. *)
Lemma slash_in_branch_name_is_cut :
  exists r,
    @GitRepoParser.normalize Model.web
      "https://github.com/user/repo/tree/feature/login/tree/other"
    = Returned r
    /\ GitRepoParser.ref_branch r = Some "feature".
Proof.
  assert (Hn : @GitRepoParser.normalize Model.web
                 ("https" ++ "://" ++ "github.com" ++ "/" ++ "user" ++ "/" ++ "repo"
                  ++ "/tree/" ++ "feature" ++ "/login/tree/other")
               = Returned
                   (GitRepoParser.mkReference
                      "https://github.com/user/repo/tree/feature/login/tree/other"
                      "github.com" "user" "repo" (Some "feature") None github
                      "https://github.com/user/repo"))
    by (vm_compute; reflexivity).
  exists (GitRepoParser.mkReference
            "https://github.com/user/repo/tree/feature/login/tree/other"
            "github.com" "user" "repo" (Some "feature") None github
            "https://github.com/user/repo").
  split; [exact Hn|].
  apply (@branch_is_the_first_tree_token Model.web
           "https" "github.com" "user" "repo" "feature" "/login/tree/other" _);
    first [ exact Hn
          | discriminate
          | right; exists "/"%char, "login/tree/other"; split; reflexivity
          | split; [discriminate | vm_compute; reflexivity]
          | vm_compute; reflexivity ].
Defined.

(** X12 at a commit followed by letters that are not hexadecimal. *)
Lemma commit_stops_at_the_first_non_hex_character :
  exists r,
    @GitRepoParser.normalize Model.web
      "https://github.com/user/repo/commit/DEADbeef01xyz"
    = Returned r
    /\ GitRepoParser.ref_commit r = Some "DEADbeef01".
Proof.
  assert (Hn : @GitRepoParser.normalize Model.web
                 ("https" ++ "://" ++ "github.com" ++ "/" ++ "user" ++ "/" ++ "repo"
                  ++ "/commit/" ++ "DEADbeef01" ++ "xyz")
               = Returned
                   (GitRepoParser.mkReference
                      "https://github.com/user/repo/commit/DEADbeef01xyz"
                      "github.com" "user" "repo" None (Some "DEADbeef01") github
                      "https://github.com/user/repo"))
    by (vm_compute; reflexivity).
  exists (GitRepoParser.mkReference
            "https://github.com/user/repo/commit/DEADbeef01xyz"
            "github.com" "user" "repo" None (Some "DEADbeef01") github
            "https://github.com/user/repo").
  split; [exact Hn|].
  apply (@commit_is_the_first_hex_run Model.web
           "https" "github.com" "user" "repo" "DEADbeef01" "xyz" _);
    first [ exact Hn
          | discriminate
          | right; exists "x"%char, "yz"; split; reflexivity
          | split; [discriminate | vm_compute; reflexivity]
          | vm_compute; reflexivity ].
Defined.
(* ===================================================================== *)
(** ** The routes *)
(* ===================================================================== *)

Section Routes.
Context {P : Platform}.

(** X13: once the body of the request is read, the repository route
    answers 200 with the parsed reference, after the effects of [parse],
    or 400 with the code [INVALID_REPOSITORY_URL] and the message of the
    normalization error, after no effect, provided the text that zod
    makes of the schema's issue holds none of the three phrases that the
    route looks for.  The statuses 429, 404 and 401 are then never
    answered for an error of [parse]: what the request to the API reports
    is absorbed inside [parse]. *)
Theorem repo_route_answers_200_or_400 (b : ApiRepo.RequestBody) :
  let url := ApiRepo.body_url b in
  let options := mkOptions (ApiRepo.body_authToken b) None in
  (forall phrase,
      In phrase ["rate limit exceeded"; "Repository not found"; "Invalid GitHub token"] ->
      Js.includes
        (@ZodError_message zod [custom [] "Invalid Git repository URL format"]) phrase
      = false) ->
  match GitRepoParser.normalize url with
  | Returned r =>
      exists private,
        snd (GitRepoParser.visibility r options) = Returned private
        /\ ApiRepo.action (Returned b)
           = (fst (GitRepoParser.visibility r options),
              Returned (ApiRepo.Success 200 (result_of r private)))
  | Threw e =>
      exists name message,
        e = Throwable name message
        /\ ApiRepo.action (Returned b)
           = ([], Returned (ApiRepo.Failure 400 "INVALID_REPOSITORY_URL" message))
  end.
Proof.
  intros url options Hzod.
  destruct (GitRepoParser.normalize url) as [r|e] eqn:Hn.
  - destruct (parse_normalized url options r Hn) as (private & Hv & Hp).
    exists private. split; [exact Hv|].
    unfold ApiRepo.action, lift. rewrite bind_returned.
    fold url. fold options. rewrite Hp. simpl. now rewrite app_nil_r.
  - pose proof (parse_not_normalized url options e Hn) as Hp.
    unfold ApiRepo.action, lift. rewrite bind_returned.
    fold url. fold options. rewrite Hp.
    destruct (normalize_errors url e Hn) as [-> | [-> | ->]].
    + eexists _, _. split; [reflexivity|].
      unfold try_catch, bind, ret, GitRepoParser.invalid_format,
        ApiRepo.classify_error.
      cbn [fst snd List.app].
      rewrite !Hzod by (simpl; auto). reflexivity.
    + eexists _, _. split; [reflexivity|]. vm_compute. reflexivity.
    + eexists _, _. split; [reflexivity|]. vm_compute. reflexivity.
Qed.

Lemma getAuthenticationToken_trace (config : GitHubAppConfig) :
  fst (GitHubAppAuth.getAuthenticationToken config) = []
  \/ fst (GitHubAppAuth.getAuthenticationToken config)
     = [EvAppAuth (if Js.truthy_opt (installationId config) then installation else app)].
Proof.
  unfold GitHubAppAuth.getAuthenticationToken, GitHubAppAuth.await_auth.
  destruct (createAppAuth config) as [auth|[n m|]]; simpl; auto.
  right. destruct (Js.truthy_opt (installationId config)); simpl;
    match goal with
    | |- context [auth ?t] => destruct (auth t) as [a|[n m|]]; reflexivity
    end.
Qed.

Context {Z0 : Zod}.

(** X14: the authentication route never throws; it exchanges a token only
    for a POST whose body is read and passes [validateConfig], and then
    once; and it answers 200 only with what [getAuthenticationToken]
    returned for the validated configuration. *)
Theorem auth_route_exchanges_only_for_a_valid_post
        (method : string) (body : outcome json) :
  (exists response, snd (AppAuthRoute.action method body) = Returned response)
  /\ (forall t, In (EvAppAuth t) (fst (AppAuthRoute.action method body)) ->
        method = "POST"
        /\ exists j config,
            body = Returned j
            /\ ConfigSchema.validateConfig j = Returned config
            /\ fst (AppAuthRoute.action method body) = [EvAppAuth t]
            /\ t = if Js.truthy_opt (installationId config)
                   then installation else app)
  /\ (forall status result,
        snd (AppAuthRoute.action method body)
        = Returned (AppAuthRoute.Authenticated status result) ->
        status = 200%Z
        /\ exists j config,
            body = Returned j
            /\ ConfigSchema.validateConfig j = Returned config
            /\ snd (GitHubAppAuth.getAuthenticationToken config) = Returned result).
Proof.
  unfold AppAuthRoute.action.
  destruct (String.eqb_spec method "POST") as [->|Hm]; cbn [negb].
  2: { split; [eexists; reflexivity|]. split.
       - intros t [].
       - intros status result [=]. }
  destruct body as [j|e]; unfold lift.
  2: { split; [eexists; reflexivity|]. split.
       - intros t [].
       - intros status result [=]. }
  rewrite bind_returned.
  destruct (ConfigSchema.validateConfig j) as [config|e] eqn:Hc.
  2: { split; [eexists; reflexivity|]. split.
       - intros t [].
       - intros status result [=]. }
  rewrite bind_returned.
  pose proof (getAuthenticationToken_trace config) as Ht.
  destruct (GitHubAppAuth.getAuthenticationToken config) as [tr res] eqn:Hg.
  cbn [fst snd] in Ht.
  assert (Hex : forall t, In (EvAppAuth t) tr ->
                  tr = [EvAppAuth t]
                  /\ t = if Js.truthy_opt (installationId config)
                         then installation else app).
  { intros t Hin. destruct Ht as [->| ->]; [contradiction|].
    destruct Hin as [Heq|[]]. injection Heq as <-. now split. }
  destruct res as [a|e]; simpl.
  - split; [eexists; reflexivity|]. split.
    + intros t Hin. rewrite app_nil_r in *. destruct (Hex t Hin) as [H1 H2].
      split; [reflexivity|]. exists j, config. repeat split; auto.
    + intros status result [= <- <-]. split; [reflexivity|].
      exists j, config. rewrite Hg. repeat split; auto.
  - split; [eexists; reflexivity|]. split.
    + intros t Hin. rewrite app_nil_r in *. destruct (Hex t Hin) as [H1 H2].
      split; [reflexivity|]. exists j, config. repeat split; auto.
    + intros status result [=].
Qed.

End Routes.

(** X13 at an input that the schema refuses, with the text of zod 3. *)
Lemma schema_error_is_answered_400 :
  exists name message,
    @GitRepoParser.normalize Model.web "invalid-url" = Threw (Throwable name message)
    /\ @ApiRepo.action Model.web (Returned (ApiRepo.mkBody "invalid-url" None))
       = ([], Returned (ApiRepo.Failure 400 "INVALID_REPOSITORY_URL" message)).
Proof.
  assert (Hz : forall phrase,
             In phrase ["rate limit exceeded"; "Repository not found";
                        "Invalid GitHub token"] ->
             Js.includes
               (@ZodError_message (@zod Model.web)
                  [custom [] "Invalid Git repository URL format"]) phrase
             = false).
  { intros phrase [<-|[<-|[<-|[]]]]; vm_compute; reflexivity. }
  assert (Hn : @GitRepoParser.normalize Model.web "invalid-url"
               = Threw (@GitRepoParser.invalid_format Model.web))
    by (vm_compute; reflexivity).
  pose proof (@repo_route_answers_200_or_400 Model.web
                (ApiRepo.mkBody "invalid-url" None) Hz) as H.
  cbv zeta in H. cbn [ApiRepo.body_url ApiRepo.body_authToken] in H.
  rewrite Hn in H. destruct H as (name & message & He & Ha).
  exists name, message. split; [now rewrite Hn, He | exact Ha].
Defined.

(* ===================================================================== *)
(** ** [validateConfig] *)
(* ===================================================================== *)

Lemma z_string_inr (key : string) (v : option json) (s : string) :
  ConfigSchema.z_string key v = inr s <-> v = Some (JString s).
Proof.
  split.
  - destruct v as [[]|]; simpl; intros [=]; congruence.
  - intros ->. reflexivity.
Qed.

Lemma z_string_optional_inr (key : string) (v : option json) (s : option string) :
  ConfigSchema.z_string_optional key v = inr s
  <-> match s with
      | Some i => v = Some (JString i)
      | None => v = None
      end.
Proof.
  split.
  - destruct v as [[]|]; simpl; intros [=]; subst; reflexivity.
  - destruct s; intros ->; reflexivity.
Qed.

Section Config.
Context {Z0 : Zod}.

(** X15: [validateConfig] returns a configuration unchanged when it is
    given the JSON form of that configuration, with or without an
    installation id. *)
Theorem validateConfig_round_trip (config : GitHubAppConfig) :
  ConfigSchema.validateConfig (ConfigSchema.toJSON config) = Returned config.
Proof.
  destruct config as [a k c s [i|]]; reflexivity.
Qed.

(** X16: [validateConfig] returns a configuration exactly when its
    argument is an object whose [appId], [privateKey], [clientId] and
    [clientSecret] are the strings of that configuration and whose
    [installationId] is its string, or is absent when the configuration
    has none; other members are not looked at.  What it throws is always
    a [ZodError]. *)
Theorem validateConfig_returns_exactly_when (j : json) :
  (forall config,
      ConfigSchema.validateConfig j = Returned config
      <-> exists members,
          j = JObject members
          /\ ConfigSchema.get "appId" members = Some (JString (appId config))
          /\ ConfigSchema.get "privateKey" members = Some (JString (privateKey config))
          /\ ConfigSchema.get "clientId" members = Some (JString (clientId config))
          /\ ConfigSchema.get "clientSecret" members
             = Some (JString (clientSecret config))
          /\ match installationId config with
             | Some i => ConfigSchema.get "installationId" members = Some (JString i)
             | None => ConfigSchema.get "installationId" members = None
             end)
  /\ (forall e, ConfigSchema.validateConfig j = Threw e ->
                exists message, e = Throwable ZodError message).
Proof.
  split.
  - intros config. split.
    + destruct j as [| | | | |members]; try discriminate.
      unfold ConfigSchema.validateConfig.
      destruct (ConfigSchema.z_string "appId" _) as [?|a] eqn:Ha; [discriminate|].
      destruct (ConfigSchema.z_string "privateKey" _) as [?|k] eqn:Hk; [discriminate|].
      destruct (ConfigSchema.z_string "clientId" _) as [?|c] eqn:Hc; [discriminate|].
      destruct (ConfigSchema.z_string "clientSecret" _) as [?|s] eqn:Hs; [discriminate|].
      destruct (ConfigSchema.z_string_optional "installationId" _) as [?|i] eqn:Hi;
        [discriminate|].
      intros [= <-]. exists members. cbn [appId privateKey clientId clientSecret installationId].
      apply z_string_inr in Ha, Hk, Hc, Hs. apply z_string_optional_inr in Hi.
      repeat split; assumption.
    + intros (members & -> & Ha & Hk & Hc & Hs & Hi).
      unfold ConfigSchema.validateConfig.
      apply z_string_inr with (key := "appId") in Ha.
      apply z_string_inr with (key := "privateKey") in Hk.
      apply z_string_inr with (key := "clientId") in Hc.
      apply z_string_inr with (key := "clientSecret") in Hs.
      apply z_string_optional_inr with (key := "installationId") in Hi.
      rewrite Ha, Hk, Hc, Hs, Hi. now destruct config.
  - intros e. destruct j as [| | | | |members]; simpl;
      try (intros [= <-]; eexists; reflexivity).
    unfold ConfigSchema.validateConfig.
    destruct (ConfigSchema.z_string "appId" _);
      destruct (ConfigSchema.z_string "privateKey" _);
      destruct (ConfigSchema.z_string "clientId" _);
      destruct (ConfigSchema.z_string "clientSecret" _);
      destruct (ConfigSchema.z_string_optional "installationId" _);
      intros [= <-]; eexists; reflexivity.
Qed.

End Config.

(* ===================================================================== *)
(** ** The validator of the import form *)
(* ===================================================================== *)

Lemma after_spec (lit s rest : string) :
  BaseChat.after lit s = Some rest <-> s = lit ++ rest.
Proof.
  unfold BaseChat.after. split.
  - intros (found & -> & Hf)%after_literal_inv.
    rewrite !map_string_id in Hf. now subst found.
  - intros ->. apply after_literal_append.
Qed.

Lemma two_tokens_spec (s : string) :
  BaseChat.two_tokens s = true <-> spec_shorthand s.
Proof.
  unfold BaseChat.two_tokens, spec_shorthand, token_of. split.
  - destruct (RegExp.drop_while RegExp.word_dot_hyphen s) as [|c rest] eqn:Hd;
      [discriminate|].
    destruct (Ascii.eqb_spec c "/") as [->|Hc].
    + intros [[Ho Hr]%andb_true_iff Hall]%andb_true_iff.
      exists (RegExp.take_while RegExp.word_dot_hyphen s), rest.
      rewrite <- (take_drop_while RegExp.word_dot_hyphen s) at 1. rewrite Hd.
      repeat split; try (now apply truthy_true); auto using all_in_take_while.
    + destruct c as [[] [] [] [] [] [] [] []]; try discriminate; now contradiction Hc.
  - intros (a & b & -> & [Ha Hall_a] & [Hb Hall_b]). simpl.
    rewrite take_while_stop, drop_while_stop by (assumption || reflexivity).
    apply truthy_true in Ha, Hb. now rewrite Ha, Hb, Hall_b.
Qed.

(** X17: the validator of the import form accepts exactly [owner/repo],
    both tokens made of word characters, dots and hyphens, alone or after
    [http://github.com/], [https://github.com/] or one of these with
    [www.]: nothing may follow the repo, and no other host passes. *)
Theorem validateGitHubUrl_exactly_when (url : string) :
  BaseChat.validateGitHubUrl url = true
  <-> exists p rest,
      url = p ++ rest
      /\ In p (EmptyString :: github_prefixes)
      /\ spec_shorthand rest.
Proof.
  unfold BaseChat.validateGitHubUrl, BaseChat.shorthandPattern. split.
  - intros [Hf|Hs]%orb_true_iff.
    + unfold BaseChat.fullUrlPattern, BaseChat.after_optional in Hf.
      destruct (BaseChat.after "http" url) as [r1|] eqn:H1; [|discriminate].
      apply after_spec in H1. subst url.
      destruct (BaseChat.after "s" r1) as [r1'|] eqn:Hs1;
        [apply after_spec in Hs1; subst r1|];
        (destruct (BaseChat.after "://" _) as [r2|] eqn:H2 in Hf; [|discriminate]);
        apply after_spec in H2; subst;
        (destruct (BaseChat.after "www." r2) as [r2'|] eqn:Hw;
         [apply after_spec in Hw; subst r2|]);
        (destruct (BaseChat.after "github.com/" _) as [r3|] eqn:H3 in Hf; [|discriminate]);
        apply after_spec in H3; subst; apply two_tokens_spec in Hf.
      * exists "https://www.github.com/", r3. simpl. intuition.
      * exists "https://github.com/", r3. simpl. intuition.
      * exists "http://www.github.com/", r3. simpl. intuition.
      * exists "http://github.com/", r3. simpl. intuition.
    + exists EmptyString, url. split; [reflexivity|]. split; [now left|].
      now apply two_tokens_spec.
  - intros (p & rest & -> & Hp & Hs). apply two_tokens_spec in Hs.
    apply orb_true_iff.
    destruct Hp as [<-|[<-|[<-|[<-|[<-|[]]]]]].
    + right. exact Hs.
    + left. unfold BaseChat.fullUrlPattern, BaseChat.after_optional, BaseChat.after.
      simpl. exact Hs.
    + left. unfold BaseChat.fullUrlPattern, BaseChat.after_optional, BaseChat.after.
      simpl. exact Hs.
    + left. unfold BaseChat.fullUrlPattern, BaseChat.after_optional, BaseChat.after.
      simpl. exact Hs.
    + left. unfold BaseChat.fullUrlPattern, BaseChat.after_optional, BaseChat.after.
      simpl. exact Hs.
Qed.

Section FormAndParser.
Context {P : Platform}.

(** X18: every shorthand that the schema of the parser accepts passes the
    validator of the import form. *)
Theorem schema_shorthand_passes_the_form (url : string) :
  Js.includes url "://" = false ->
  gitUrlSchema url = true ->
  BaseChat.validateGitHubUrl url = true.
Proof.
  intros Hi Hs. unfold gitUrlSchema in Hs. rewrite Hi in Hs.
  apply shorthand_test_spec in Hs as (a & b & -> & [Ha Hall] & Hb).
  unfold BaseChat.validateGitHubUrl, BaseChat.shorthandPattern.
  apply orb_true_iff. right. apply two_tokens_spec.
  exists a, b. split; [reflexivity|]. split; [|exact Hb].
  split; [exact Ha|].
  exact (all_in_weaken _ _ a word_hyphen_is_word_dot_hyphen Hall).
Qed.

End FormAndParser.

(** X18 at [user/repo.git]. *)
Lemma schema_shorthand_passes_the_form_witness :
  BaseChat.validateGitHubUrl "user/repo.git" = true.
Proof.
  apply (@schema_shorthand_passes_the_form Model.web "user/repo.git");
    vm_compute; reflexivity.
Defined.

(** The converse fails: the form accepts an owner with a dot, which the
    schema of the parser rejects. *)
Example form_accepts_a_dotted_owner :
  BaseChat.validateGitHubUrl "my.org/repo" = true
  /\ @gitUrlSchema Model.web "my.org/repo" = false.
Proof. split; vm_compute; reflexivity. Qed.

(** The form accepts neither a branch path nor another host, both of
    which the parser reads. *)
Example form_rejects_what_the_parser_reads :
  BaseChat.validateGitHubUrl "https://github.com/user/repo/tree/main" = false
  /\ BaseChat.validateGitHubUrl "https://gitlab.com/user/repo" = false.
Proof. split; vm_compute; reflexivity. Qed.
